(** * UniProt gene resolution: [alphafold_core/data/fetcher.py]

    A shallow embedding of [SearchCriteria] and [UniProtFetcher]: the query
    builder, the four-strategy search, the handling of one search response,
    and the batch search over a list of gene names.

    Python values are embedded as [json]; exceptions as [Exn]; the HTTP
    session as a function from the number of requests sent so far and the
    request to what [session.get] gives back.  Every operation records the
    requests it sends and the pauses it makes, in order.  Logging, printing
    and the progress bar are left out: they do not change any value the
    functions return. *)

From Stdlib Require Import String Ascii List ZArith Bool Lia Arith.
From Stdlib Require Import DecimalString.
Import ListNotations.
Open Scope string_scope.
Set Warnings "-register-all".

(** ** Python values *)

(** The values that occur in a decoded JSON body and in the dictionaries the
    fetcher builds.  [JNull] is Python's [None].  Numbers are integers;
    floating-point numbers are outside the model. *)
Inductive json : Type :=
| JNull
| JBool (b : bool)
| JNum (n : Z)
| JStr (s : string)
| JArr (items : list json)
| JObj (fields : list (string * json)).

(** A raised Python exception.  The only handler in the modelled code is
    [except Exception], so one constructor stands for every exception. *)
Inductive exn (A : Type) : Type :=
| Val (a : A)
| Exn.
Arguments Val {A} a.
Arguments Exn {A}.

Definition exn_bind {A B} (m : exn A) (k : A -> exn B) : exn B :=
  match m with
  | Val a => k a
  | Exn => Exn
  end.

Declare Scope exn_scope.
Delimit Scope exn_scope with exn.
Notation "x <- m ;; k" := (exn_bind m (fun x => k))
  (at level 61, m at next level, right associativity) : exn_scope.

Module Py.

(** Truth value of a Python object: [bool(v)]. *)
Definition truthy (v : json) : bool :=
  match v with
  | JNull => false
  | JBool b => b
  | JNum n => negb (n =? 0)%Z
  | JStr s => negb (s =? "")
  | JArr items => match items with [] => false | _ => true end
  | JObj fields => match fields with [] => false | _ => true end
  end.

(** A dictionary is a list of key/value pairs in insertion order with
    pairwise distinct keys; lookup takes the first pair with the key. *)
Fixpoint lookup (k : string) (fields : list (string * json)) : option json :=
  match fields with
  | [] => None
  | (k', v) :: rest => if k' =? k then Some v else lookup k rest
  end.

(** [d[k] = v]: an existing key keeps its place, a new key goes last. *)
Fixpoint setitem (k : string) (v : json) (fields : list (string * json))
  : list (string * json) :=
  match fields with
  | [] => [(k, v)]
  | (k', v') :: rest =>
      if k' =? k then (k', v) :: rest else (k', v') :: setitem k v rest
  end.

(** [k in d] for a dictionary [d]. *)
Definition has_key (k : string) (fields : list (string * json)) : bool :=
  match lookup k fields with Some _ => true | None => false end.

(** [d.get(k, default)].  Only dictionaries have [get]: on any other value
    the attribute access raises [AttributeError]. *)
Definition get (d : json) (k : string) (default : json) : exn json :=
  match d with
  | JObj fields =>
      Val (match lookup k fields with Some v => v | None => default end)
  | _ => Exn
  end.

(** [d[k]] with a string key: [KeyError] when a dictionary lacks the key,
    [TypeError] on a string or a list, and on values without subscripts. *)
Definition getitem (d : json) (k : string) : exn json :=
  match d with
  | JObj fields =>
      match lookup k fields with Some v => Val v | None => Exn end
  | _ => Exn
  end.

(** [v[0]]: the first item of a list, the first character of a string;
    [KeyError] on a dictionary (its keys are strings), [IndexError] on an
    empty sequence, [TypeError] elsewhere. *)
Definition first (v : json) : exn json :=
  match v with
  | JArr (x :: _) => Val x
  | JStr (String c _) => Val (JStr (String c ""))
  | _ => Exn
  end.

(** [d[k] = v] with a string key: only a dictionary takes it. *)
Definition store (d : json) (k : string) (v : json) : exn json :=
  match d with
  | JObj fields => Val (JObj (setitem k v fields))
  | _ => Exn
  end.

(** The items a [for] loop or a comprehension visits: the items of a list,
    the characters of a string, the keys of a dictionary; [TypeError] on
    values that are not iterable. *)
Definition iter (v : json) : exn (list json) :=
  match v with
  | JArr items => Val items
  | JStr s =>
      Val (map (fun c => JStr (String c "")) (list_ascii_of_string s))
  | JObj fields => Val (map (fun kv => JStr (fst kv)) fields)
  | _ => Exn
  end.

(** [len(v)]: defined on strings, lists and dictionaries. *)
Definition len (v : json) : exn nat :=
  match v with
  | JStr s => Val (String.length s)
  | JArr items => Val (List.length items)
  | JObj fields => Val (List.length fields)
  | _ => Exn
  end.

(** [needle in hay] for two strings: substring test. *)
Fixpoint substring_in (needle hay : string) : bool :=
  String.prefix needle hay
  || match hay with
     | EmptyString => false
     | String _ rest => substring_in needle rest
     end.

(** [k in v] for a string [k]: key test on a dictionary, substring test on
    a string, membership on a list; [TypeError] on [None], booleans and
    numbers. *)
Definition contains (k : string) (v : json) : exn bool :=
  match v with
  | JObj fields => Val (has_key k fields)
  | JStr s => Val (substring_in k s)
  | JArr items =>
      Val (existsb (fun x => match x with JStr s => s =? k | _ => false end)
                   items)
  | _ => Exn
  end.

(** [v.startswith(p)]: only strings have the method. *)
Definition startswith (v : json) (p : string) : exn bool :=
  match v with
  | JStr s => Val (String.prefix p s)
  | _ => Exn
  end.

(** [c.isspace()] for a character below code point 256. *)
Definition isspace (c : ascii) : bool :=
  let n := nat_of_ascii c in
  (((9 <=? n) && (n <=? 13)) || ((28 <=? n) && (n <=? 32))
   || (n =? 133) || (n =? 160))%nat.

Fixpoint lstrip (s : string) : string :=
  match s with
  | EmptyString => EmptyString
  | String c rest => if isspace c then lstrip rest else s
  end.

Fixpoint rstrip (s : string) : string :=
  match s with
  | EmptyString => EmptyString
  | String c rest =>
      match rstrip rest with
      | EmptyString => if isspace c then EmptyString else String c EmptyString
      | rest' => String c rest'
      end
  end.

(** [s.strip()]. *)
Definition strip (s : string) : string := rstrip (lstrip s).

End Py.

(** ** [SearchCriteria] *)

Record SearchCriteria : Type := mkSearchCriteria {
  organism_id : option string;
  reviewed_only : bool;
  exact_match : bool;
  max_results : Z;
  include_synonyms : bool
}.

(** [SearchCriteria()]: every field at its declared default. *)
Definition SearchCriteria_default : SearchCriteria :=
  {| organism_id := Some "9606";
     reviewed_only := true;
     exact_match := true;
     max_results := 10;
     include_synonyms := true |}.

(** ** [UniProtFetcher] *)

Module Config.
Definition uniprot_base_url : string := "https://rest.uniprot.org".
Definition max_retries : Z := 3.
Definition request_timeout : Z := 30.
End Config.

Record UniProtFetcher : Type := mkUniProtFetcher {
  base_url : string;
  max_retries : Z;
  timeout : Z
}.

(** [__init__]: [x or default] replaces [None] and every false value (the
    empty string, [0]) by the configured default. *)
Definition UniProtFetcher_init (base_url : option string)
    (max_retries timeout : option Z) : UniProtFetcher :=
  {| base_url :=
       match base_url with
       | Some u => if u =? "" then Config.uniprot_base_url else u
       | None => Config.uniprot_base_url
       end;
     max_retries :=
       match max_retries with
       | Some n => if (n =? 0)%Z then Config.max_retries else n
       | None => Config.max_retries
       end;
     timeout :=
       match timeout with
       | Some n => if (n =? 0)%Z then Config.request_timeout else n
       | None => Config.request_timeout
       end |}.

(** [_build_search_query]. *)
Definition _build_search_query (gene_name : string) (criteria : SearchCriteria)
  : string :=
  let query_parts :=
    [if exact_match criteria
     then "gene_exact:" ++ gene_name
     else "gene:" ++ gene_name]
  in
  let query_parts :=
    match organism_id criteria with
    | Some o =>
        if negb (o =? "")
        then (query_parts ++ [("organism_id:" ++ o)%string])%list
        else query_parts
    | None => query_parts
    end in
  let query_parts :=
    if reviewed_only criteria
    then (query_parts ++ ["reviewed:true"])%list
    else query_parts in
  String.concat " AND " query_parts.

(** [_extract_protein_info]. *)
Definition _extract_protein_info (result : json) (gene_name : string)
  : exn json :=
  (genes <- Py.get result "genes" (JArr []) ;;
   gene_info <- (if Py.truthy genes then Py.first genes else Val (JObj [])) ;;
   has_description <- Py.contains "proteinDescription" result ;;
   protein_name <-
     (if has_description : bool then
        description <- Py.getitem result "proteinDescription" ;;
        recommended_name <- Py.get description "recommendedName" (JObj []) ;;
        has_full_name <-
          (if Py.truthy recommended_name
           then Py.contains "fullName" recommended_name
           else Val false) ;;
        if has_full_name : bool then
          full_name <- Py.getitem recommended_name "fullName" ;;
          Py.get full_name "value" (JStr "Unknown")
        else Val (JStr "Unknown")
      else Val (JStr "Unknown")) ;;
   entry_type <- Py.get result "entryType" (JStr "") ;;
   is_reviewed <- Py.startswith entry_type "UniProtKB reviewed" ;;
   accession <- Py.get result "primaryAccession" JNull ;;
   id <- Py.get result "uniProtkbId" JNull ;;
   gene_name_entry <- Py.get gene_info "geneName" (JObj []) ;;
   gene_names <- Py.get gene_name_entry "value" (JStr gene_name) ;;
   sequence_entry <- Py.get result "sequence" (JObj []) ;;
   sequence <- Py.get sequence_entry "value" JNull ;;
   organism_entry <- Py.get result "organism" (JObj []) ;;
   organism <- Py.get organism_entry "scientificName" (JStr "Unknown") ;;
   entry_type' <- Py.get result "entryType" (JStr "Unknown") ;;
   Val (JObj [("accession", accession);
              ("id", id);
              ("gene_names", gene_names);
              ("protein_name", protein_name);
              ("sequence", sequence);
              ("organism", organism);
              ("reviewed", JBool is_reviewed);
              ("entry_type", entry_type')]))%exn.

(** ** Comprehensions over a response *)

(** [[f(r) for r in items]]: the first exception ends the comprehension. *)
Fixpoint comprehension (f : json -> exn json) (items : list json)
  : exn (list json) :=
  match items with
  | [] => Val []
  | r :: rest =>
      (v <- f r ;; vs <- comprehension f rest ;; Val (v :: vs))%exn
  end.

(** [[r for r in items if f(r)]]. *)
Fixpoint comprehension_if (f : json -> exn json) (items : list json)
  : exn (list json) :=
  match items with
  | [] => Val []
  | r :: rest =>
      (v <- f r ;;
       kept <- comprehension_if f rest ;;
       Val (if Py.truthy v then r :: kept else kept))%exn
  end.

(** [any(f(r) for r in items)]: stops at the first true value. *)
Fixpoint any (f : json -> exn json) (items : list json) : exn bool :=
  match items with
  | [] => Val false
  | r :: rest =>
      (v <- f r ;; if Py.truthy v then Val true else any f rest)%exn
  end.

(** [r.get("reviewed", False)]: the mark [_search_with_strategy] tests on the
    entries of a response. *)
Definition reviewed_mark (r : json) : exn json :=
  Py.get r "reviewed" (JBool false).

(** The [if response.ok:] branch of [_search_with_strategy], from
    [data = response.json()] to its [return]. *)
Definition select_protein_info (data : json) (gene_name : string) : exn json :=
  (results <- Py.get data "results" (JArr []) ;;
   if negb (Py.truthy results) then Val JNull
   else
     count <- Py.len results ;;
     results <-
       (if (1 <? count)%nat then
          items <- Py.iter results ;;
          reviewed_results <- comprehension_if reviewed_mark items ;;
          Val (if Py.truthy (JArr reviewed_results)
               then JArr reviewed_results else results)
        else Val results) ;;
     result <- Py.first results ;;
     protein_info <- _extract_protein_info result gene_name ;;
     all_results <- Py.get data "results" (JArr []) ;;
     total <- Py.len all_results ;;
     if (1 <? total)%nat then
       protein_info <- Py.store protein_info "multiple_results_found"
                                (JBool true) ;;
       protein_info <- Py.store protein_info "total_results"
                                (JNum (Z.of_nat total)) ;;
       items <- Py.iter all_results ;;
       any_reviewed <- any reviewed_mark items ;;
       protein_info <- Py.store protein_info "selected_result"
                         (JStr (if any_reviewed : bool
                                then "First reviewed entry"
                                else "First result")) ;;
       all_accessions <-
         comprehension (fun r => Py.get r "primaryAccession" JNull) items ;;
       protein_info <- Py.store protein_info "all_accessions"
                                (JArr all_accessions) ;;
       all_protein_names <-
         comprehension
           (fun r => protein_name <- Py.get r "proteinName" (JObj []) ;;
                     Py.get protein_name "value" (JStr "Unknown"))
           items ;;
       Py.store protein_info "all_protein_names" (JArr all_protein_names)
     else
       protein_info <- Py.store protein_info "multiple_results_found"
                                (JBool false) ;;
       protein_info <- Py.store protein_info "total_results" (JNum 1) ;;
       Py.store protein_info "selected_result" (JStr "Single result"))%exn.

(** ** The HTTP session and the effects of a search *)

(** What [session.get] is called with. *)
Record request : Type := mkRequest {
  req_url : string;
  req_accept : string;
  req_query : string;
  req_fields : string;
  req_format : string;
  req_size : Z;
  req_timeout : Z
}.

(** The [Retry-After] header as [int(response.headers.get('Retry-After', 60))]
    reads it: absent, an integer literal, or text on which [int] raises
    [ValueError]. *)
Inductive retry_after_header : Type :=
| NoRetryAfter
| RetryAfterSeconds (n : Z)
| RetryAfterText.

(** A response: status code, [Retry-After] header, and the decoded body
    ([None] when [response.json()] raises). *)
Record response : Type := mkResponse {
  status_code : Z;
  retry_after : retry_after_header;
  body : option json
}.

(** [response.ok]: the status is not a 4xx or 5xx error. *)
Definition ok (r : response) : bool :=
  negb ((400 <=? status_code r)%Z && (status_code r <? 600)%Z).

(** What a call of [session.get] gives back: a response, or an exception
    (timeout, connection error, retries of the session's adapter used up). *)
Inductive reply : Type :=
| Raises
| Answers (r : response).

(** The remote service seen through the session: the reply to a request may
    depend on how many requests were sent before it. *)
Definition service : Type := nat -> request -> reply.

(** The effects an operation leaves, in order. *)
Inductive event : Type :=
| Pace                (* [time.sleep(random.uniform(0.5, 2.0))] *)
| Sleep (seconds : Z) (* [time.sleep(retry_after)] *)
| Get (r : request).  (* [session.get(...)] *)

Definition requests_of (trace : list event) : list request :=
  flat_map (fun e => match e with Get r => [r] | _ => [] end) trace.

Definition sleeps_of (trace : list event) : list Z :=
  flat_map (fun e => match e with Sleep w => [w] | _ => [] end) trace.

Definition sent (trace : list event) : nat := List.length (requests_of trace).

(** How a run ends: with a value, with an exception, or still retrying when
    the fuel of the model is used up. *)
Inductive outcome (A : Type) : Type :=
| Done (a : A)
| Raised
| OutOfFuel.
Arguments Done {A} a.
Arguments Raised {A}.
Arguments OutOfFuel {A}.

(** A computation is run after [n] requests were sent to the service and
    gives its outcome with the events it added. *)
Definition M (A : Type) : Type := nat -> outcome A * list event.

Definition ret {A} (a : A) : M A := fun _ => (Done a, []).

Definition bind {A B} (m : M A) (k : A -> M B) : M B :=
  fun n =>
    match m n with
    | (Done a, t1) =>
        let (r, t2) := k a (n + sent t1) in (r, (t1 ++ t2)%list)
    | (Raised, t1) => (Raised, t1)
    | (OutOfFuel, t1) => (OutOfFuel, t1)
    end.

Declare Scope M_scope.
Delimit Scope M_scope with M.
Notation "x <- m ;; k" := (bind m (fun x => k))
  (at level 61, m at next level, right associativity) : M_scope.
Notation "m ;; k" := (bind m (fun _ => k))
  (at level 61, right associativity) : M_scope.

Definition lift {A} (m : exn A) : M A :=
  fun _ => match m with Val a => (Done a, []) | Exn => (Raised, []) end.

Definition out_of_fuel {A} : M A := fun _ => (OutOfFuel, []).

(** [try: body / except Exception: handler]. *)
Definition try_except {A} (body handler : M A) : M A :=
  fun n =>
    match body n with
    | (Raised, t1) =>
        let (r, t2) := handler (n + sent t1) in (r, (t1 ++ t2)%list)
    | other => other
    end.

Definition session_get (session : service) (r : request) : M response :=
  fun n =>
    match session n r with
    | Answers resp => (Done resp, [Get r])
    | Raises => (Raised, [Get r])
    end.

(** [time.sleep(seconds)]: a negative length raises [ValueError].  A length
    too large for the clock of the platform raises [OverflowError]; the model
    has no such limit. *)
Definition time_sleep (seconds : Z) : M unit :=
  fun _ => if (seconds <? 0)%Z then (Raised, []) else (Done tt, [Sleep seconds]).

(** [time.sleep(random.uniform(0.5, 2.0))]: the length of the pause is not
    modelled. *)
Definition pace : M unit := fun _ => (Done tt, [Pace]).

(** The decorator [rate_limited_request] of [utils.py]: a random pause, then
    the decorated function. *)
Definition rate_limited_request {A} (func : M A) : M A :=
  (pace ;; func)%M.

(** [response.json()]. *)
Definition json_of (r : response) : exn json :=
  match body r with Some data => Val data | None => Exn end.

(** [int(response.headers.get('Retry-After', 60))]. *)
Definition retry_after_seconds (r : response) : exn Z :=
  match retry_after r with
  | NoRetryAfter => Val 60%Z
  | RetryAfterSeconds n => Val n
  | RetryAfterText => Exn
  end.

(** The request [_search_with_strategy] sends. *)
Definition search_request (self : UniProtFetcher) (gene_name : string)
    (criteria : SearchCriteria) : request :=
  let query := _build_search_query gene_name criteria in
  let search_url := base_url self ++ "/uniprotkb/search" in
  {| req_url := search_url;
     req_accept := "application/json";
     req_query := query;
     req_fields := "accession,gene_names,protein_name,organism_name,sequence";
     req_format := "json";
     req_size := max_results criteria;
     req_timeout := timeout self |}.

(** [_search_with_strategy].  The retry after a 429 is a call of the function
    on the same arguments; [fuel] bounds the depth of these calls.  Python
    bounds the depth as well, by its recursion limit, and raises
    [RecursionError] there; the model does not, so it says what the function
    does only below that depth.  The retry needs a 429 from [session.get]:
    the session of [_setup_session] never hands one back (see
    [mounted_session]), a session put in its place may. *)
Fixpoint _search_with_strategy (fuel : nat) (self : UniProtFetcher)
    (session : service) (gene_name : string) (criteria : SearchCriteria)
  : M json :=
  match fuel with
  | O => out_of_fuel
  | S fuel' =>
      (response <- session_get session
                     (search_request self gene_name criteria) ;;
       if ok response then
         data <- lift (json_of response) ;;
         lift (select_protein_info data gene_name)
       else if (status_code response =? 429)%Z then
         retry_after <- lift (retry_after_seconds response) ;;
         time_sleep retry_after ;;
         _search_with_strategy fuel' self session gene_name criteria
       else ret JNull)%M
  end.

(** The [strategies] list of [search_by_gene_name_robust]. *)
Definition strategies (criteria : SearchCriteria) : list SearchCriteria :=
  [ {| organism_id := organism_id criteria;
       reviewed_only := true;
       exact_match := true;
       max_results := max_results criteria;
       include_synonyms := true |};
    {| organism_id := organism_id criteria;
       reviewed_only := false;
       exact_match := true;
       max_results := max_results criteria;
       include_synonyms := true |};
    {| organism_id := organism_id criteria;
       reviewed_only := true;
       exact_match := false;
       max_results := max_results criteria;
       include_synonyms := true |};
    {| organism_id := organism_id criteria;
       reviewed_only := false;
       exact_match := false;
       max_results := max_results criteria;
       include_synonyms := true |} ].

(** The [for ... in enumerate(strategies, 1)] loop of
    [search_by_gene_name_robust] and the [return None] after it. *)
Fixpoint try_strategies (fuel : nat) (self : UniProtFetcher)
    (session : service) (gene_name : string) (todo : list SearchCriteria)
  : M json :=
  match todo with
  | [] => ret JNull
  | strategy :: rest =>
      (found <- try_except
                  (result <- _search_with_strategy fuel self session
                               gene_name strategy ;;
                   ret (if Py.truthy result then Some result else None))
                  (ret None) ;;
       match found with
       | Some result => ret result
       | None => try_strategies fuel self session gene_name rest
       end)%M
  end.

(** [search_by_gene_name_robust], decorated with [rate_limited_request]. *)
Definition search_by_gene_name_robust (fuel : nat) (self : UniProtFetcher)
    (session : service) (gene_name : string)
    (criteria : option SearchCriteria) : M json :=
  rate_limited_request
    (let criteria :=
       match criteria with
       | None => SearchCriteria_default
       | Some c => c
       end in
     try_strategies fuel self session gene_name (strategies criteria)).

(** [search_by_gene_name], decorated with [rate_limited_request]. *)
Definition search_by_gene_name (fuel : nat) (self : UniProtFetcher)
    (session : service) (gene_name : string) : M json :=
  rate_limited_request
    (search_by_gene_name_robust fuel self session gene_name
       (Some SearchCriteria_default)).

(** The entry recorded for a gene no strategy found. *)
Definition not_found_entry : json :=
  JObj [("error", JStr "Gene not found after all strategies")].

(** The [for idx, gene_name in enumerate(gene_names)] loop of
    [search_multiple_genes_robust], on the dictionary [results] and the list
    [failed_queries]. *)
Fixpoint search_genes_loop (fuel : nat) (self : UniProtFetcher)
    (session : service) (criteria : SearchCriteria)
    (gene_names : list string)
    (results : list (string * json)) (failed_queries : list string)
  : M (list (string * json) * list string) :=
  match gene_names with
  | [] => ret (results, failed_queries)
  | gene_name :: rest =>
      let gene_name := Py.strip gene_name in
      if negb (gene_name =? "") && negb (Py.has_key gene_name results) then
        (protein_info <- search_by_gene_name_robust fuel self session
                           gene_name (Some criteria) ;;
         if Py.truthy protein_info then
           search_genes_loop fuel self session criteria rest
             (Py.setitem gene_name protein_info results) failed_queries
         else
           search_genes_loop fuel self session criteria rest
             (Py.setitem gene_name not_found_entry results)
             (failed_queries ++ [gene_name])%list)%M
      else
        search_genes_loop fuel self session criteria rest
          results failed_queries
  end.

(** [search_multiple_genes_robust]: the dictionary [results]. *)
Definition search_multiple_genes_robust (fuel : nat) (self : UniProtFetcher)
    (session : service) (gene_names : list string)
    (criteria : option SearchCriteria) : M (list (string * json)) :=
  let criteria :=
    match criteria with
    | None => SearchCriteria_default
    | Some c => c
    end in
  (state <- search_genes_loop fuel self session criteria gene_names [] [] ;;
   ret (fst state))%M.

(** [search_multiple_genes]. *)
Definition search_multiple_genes (fuel : nat) (self : UniProtFetcher)
    (session : service) (gene_names : list string)
  : M (list (string * json)) :=
  search_multiple_genes_robust fuel self session gene_names
    (Some SearchCriteria_default).

(** ** Specification-side notions *)

(** An entry of a response that carries the mark [reviewed]. *)
Definition marked_reviewed (r : json) : bool :=
  match reviewed_mark r with
  | Val v => Py.truthy v
  | Exn => false
  end.

(** The candidates a selection is made from: the marked entries when there is
    one, every entry otherwise. *)
Definition restrict_to_reviewed (results : list json) : list json :=
  if existsb marked_reviewed results
  then filter marked_reviewed results
  else results.

(** The [primaryAccession] of an entry, [None] when it has none. *)
Definition accession_of (r : json) : json :=
  match r with
  | JObj fields =>
      match Py.lookup "primaryAccession" fields with
      | Some v => v
      | None => JNull
      end
  | _ => JNull
  end.

(** An entry the fetcher reads without an exception: a dictionary on which
    [_extract_protein_info] and the [proteinName] lookup succeed. *)
Definition candidate (gene_name : string) (r : json) : bool :=
  match r with
  | JObj _ =>
      match _extract_protein_info r gene_name,
            (protein_name <- Py.get r "proteinName" (JObj []) ;;
             Py.get protein_name "value" (JStr "Unknown"))%exn with
      | Val _, Val _ => true
      | _, _ => false
      end
  | _ => false
  end.

(** A reply with no candidate: a successful response whose [results] are
    absent or empty. *)
Definition no_candidates (rp : reply) : bool :=
  match rp with
  | Answers resp =>
      ok resp &&
      match body resp with
      | Some data =>
          match Py.get data "results" (JArr []) with
          | Val results => negb (Py.truthy results)
          | Exn => false
          end
      | None => false
      end
  | Raises => false
  end.

(** A reply that is a 429 response. *)
Definition rate_limited (rp : reply) : bool :=
  match rp with
  | Answers resp => negb (ok resp) && (status_code resp =? 429)%Z
  | Raises => false
  end.

Definition is_dict (r : json) : bool :=
  match r with JObj _ => true | _ => false end.

(** The lookup behind [all_protein_names]. *)
Definition protein_name_of (r : json) : exn json :=
  (protein_name <- Py.get r "proteinName" (JObj []) ;;
   Py.get protein_name "value" (JStr "Unknown"))%exn.

(** What [select_protein_info] adds to the extracted dictionary. *)
Definition annotations (results names : list json) : list (string * json) :=
  if (1 <? List.length results)%nat then
    [("multiple_results_found", JBool true);
     ("total_results", JNum (Z.of_nat (List.length results)));
     ("selected_result",
      JStr (if existsb marked_reviewed results
            then "First reviewed entry" else "First result"));
     ("all_accessions", JArr (map accession_of results));
     ("all_protein_names", JArr names)]
  else
    [("multiple_results_found", JBool false);
     ("total_results", JNum 1);
     ("selected_result", JStr "Single result")].

(** What a 429 reply asks for: the number of seconds [_search_with_strategy]
    sleeps before it asks again; [None] for every other reply and for a 429
    whose [Retry-After] cannot be slept on. *)
Definition asks_to_wait (rp : reply) : option Z :=
  match rp with
  | Answers resp =>
      if negb (ok resp) && (status_code resp =? 429)%Z then
        match retry_after_seconds resp with
        | Val w => if (w <? 0)%Z then None else Some w
        | Exn => None
        end
      else None
  | Raises => None
  end.

(** The service never answers one request with more than [bound] 429
    responses in a row. *)
Definition settles (bound : nat) (session : service) : Prop :=
  forall n req, exists k,
    k <= bound /\ rate_limited (session (n + k) req) = false.

(** A symbol is blank when nothing is left of it after [strip]. *)
Definition blank (gene_name : string) : bool := Py.strip gene_name =? "".

(** The distinct members of a list, each at its first occurrence. *)
Fixpoint first_seen (seen names : list string) : list string :=
  match names with
  | [] => []
  | x :: rest =>
      if existsb (String.eqb x) seen then first_seen seen rest
      else x :: first_seen (seen ++ [x]) rest
  end.

(** The symbols a batch reports on: stripped, blanks dropped, duplicates
    dropped after their first occurrence. *)
Definition batch_keys (gene_names : list string) : list string :=
  first_seen [] (filter (fun g => negb (g =? "")) (map Py.strip gene_names)).

(** ** Sample data *)

Module Sample.

(** [UniProtFetcher()]. *)
Definition fetcher : UniProtFetcher := UniProtFetcher_init None None None.

Definition swissprot : string := "UniProtKB reviewed (Swiss-Prot)".
Definition trembl : string := "UniProtKB unreviewed (TrEMBL)".

(** An entry of a response with an accession and an entry type. *)
Definition entry (accession entry_type : string) : json :=
  JObj [("primaryAccession", JStr accession);
        ("entryType", JStr entry_type)].

(** The same entry carrying the mark [reviewed]. *)
Definition marked_entry (accession entry_type : string) : json :=
  JObj [("primaryAccession", JStr accession);
        ("entryType", JStr entry_type);
        ("reviewed", JBool true)].

Definition body_of (results : list json) : json :=
  JObj [("results", JArr results)].

(** A 200 response with the given results. *)
Definition found (results : list json) : reply :=
  Answers {| status_code := 200;
             retry_after := NoRetryAfter;
             body := Some (body_of results) |}.

(** A 429 response asking to wait two seconds. *)
Definition too_many_requests : reply :=
  Answers {| status_code := 429;
             retry_after := RetryAfterSeconds 2;
             body := None |}.

(** A service that finds nothing. *)
Definition nothing : service := fun _ _ => found [].

(** A service that answers every request with the same entries. *)
Definition always (results : list json) : service :=
  fun _ _ => found results.

(** A service that knows TP53 under the strictest query only. *)
Definition tp53_only : service :=
  fun _ r =>
    if req_query r =? "gene_exact:TP53 AND organism_id:9606 AND reviewed:true"
    then found [entry "P04637" swissprot]
    else found [].

(** Two entries for one gene, the curated one first. *)
Definition two_entries : list json :=
  [entry "P04637" swissprot; entry "A0A087WT22" trembl].

(** Two entries for one gene, the uncurated one first, the curated one
    carrying the mark. *)
Definition marked_second : list json :=
  [entry "A0A087WT22" trembl; marked_entry "P04637" swissprot].

(** Two entries for one gene, the uncurated one first, neither carrying the
    mark. *)
Definition curated_second : list json :=
  [entry "A0A087WT22" trembl; entry "P04637" swissprot].

(** The same entry listed twice. *)
Definition same_twice : list json :=
  [entry "P04637" swissprot; entry "P04637" swissprot].

End Sample.

(** ** Fetching sequences *)

(** The line feed that ends a line of a text file. *)
Definition newline : string := String (ascii_of_nat 10) EmptyString.

(** The request [fetch_protein_sequence] sends: the URL is the base URL
    followed by the protein id, the only parameter is [fields]; the
    parameters this call does not pass are left empty. *)
Definition sequence_request (self : UniProtFetcher) (protein_id : string)
  : request :=
  {| req_url := base_url self ++ "/" ++ protein_id;
     req_accept := "application/json";
     req_query := "";
     req_fields := "sequence";
     req_format := "";
     req_size := 0;
     req_timeout := timeout self |}.

(** [session.get] inside the [try] of [fetch_protein_sequence]: an exception
    of the request (a timeout, any other [RequestException]) is caught, the
    handlers return [None]. *)
Definition session_get_caught (session : service) (r : request)
  : M (option response) :=
  fun n =>
    match session n r with
    | Answers resp => (Done (Some resp), [Get r])
    | Raises => (Done None, [Get r])
    end.

(** [fetch_protein_sequence], decorated with [rate_limited_request].  The
    retry after a 429 calls the decorated function again; [fuel] bounds the
    depth of these calls, with the same limits as for
    [_search_with_strategy]: no [RecursionError] in the model, and no 429
    from the session of [_setup_session].  Whether the exception [response.json()] raises on
    a body that is not JSON is a [RequestException] depends on the version of
    the requests library: [json_error_caught] says whether it is.  Every
    other exception raised inside the [try] (a missing [get], a bad
    [Retry-After]) is not a [RequestException] and leaves the function. *)
Fixpoint fetch_protein_sequence (fuel : nat) (json_error_caught : bool)
    (self : UniProtFetcher) (session : service) (protein_id : string)
  : M json :=
  match fuel with
  | O => out_of_fuel
  | S fuel' =>
      rate_limited_request
        (answer <- session_get_caught session
                     (sequence_request self protein_id) ;;
         match answer with
         | None => ret JNull
         | Some response =>
             if ok response then
               match body response with
               | Some data =>
                   lift (sequence_info <- Py.get data "sequence" (JObj []) ;;
                         Py.get sequence_info "value" JNull)%exn
               | None => if json_error_caught then ret JNull else lift Exn
               end
             else if (status_code response =? 429)%Z then
               retry_after <- lift (retry_after_seconds response) ;;
               time_sleep retry_after ;;
               fetch_protein_sequence fuel' json_error_caught self session
                                      protein_id
             else ret JNull
         end)%M
  end.

(** What is recorded for a protein id without a sequence. *)
Definition sequence_not_found : json := JStr "Sequence Not Found".

(** The [for protein_id in tqdm(protein_ids)] loop of
    [fetch_multiple_sequences]. *)
Fixpoint fetch_sequences_loop (fuel : nat) (json_error_caught : bool)
    (self : UniProtFetcher) (session : service) (protein_ids : list string)
    (results : list (string * json)) (failed_queries : list string)
  : M (list (string * json) * list string) :=
  match protein_ids with
  | [] => ret (results, failed_queries)
  | protein_id :: rest =>
      let protein_id := Py.strip protein_id in
      if negb (protein_id =? "") && negb (Py.has_key protein_id results) then
        (sequence <- fetch_protein_sequence fuel json_error_caught self
                       session protein_id ;;
         if Py.truthy sequence then
           fetch_sequences_loop fuel json_error_caught self session rest
             (Py.setitem protein_id sequence results) failed_queries
         else
           fetch_sequences_loop fuel json_error_caught self session rest
             (Py.setitem protein_id sequence_not_found results)
             (failed_queries ++ [protein_id])%list)%M
      else
        fetch_sequences_loop fuel json_error_caught self session rest
          results failed_queries
  end.

(** [_save_sequences_to_fasta]: the text written to the output file.  The
    conversion of a value to text inside an f-string is Python's [str],
    taken as the parameter [format]. *)
Definition _save_sequences_to_fasta (format : json -> string)
    (sequences : list (string * json)) : string :=
  String.concat ""
    (map (fun kv => ">" ++ fst kv ++ newline ++ format (snd kv) ++ newline)
         sequences).

(** What [fetch_multiple_sequences] leaves on disk: the FASTA text under the
    name [output_file], and, when some query failed, the failed ids handed to
    pandas for the file [failed_queries_file]. *)
Record sequence_files : Type := mkSequenceFiles {
  fasta_file : string * string;
  failed_file : option (string * list string)
}.

(** [fetch_multiple_sequences]: the dictionary it returns, with the files it
    writes.  Failures of the file system are not modelled. *)
Definition fetch_multiple_sequences (fuel : nat) (json_error_caught : bool)
    (format : json -> string) (self : UniProtFetcher) (session : service)
    (protein_ids : list string) (output_file failed_queries_file : string)
  : M (list (string * json) * sequence_files) :=
  (state <- fetch_sequences_loop fuel json_error_caught self session
              protein_ids [] [] ;;
   let results := fst state in
   let failed_queries := snd state in
   ret (results,
        {| fasta_file :=
             (output_file, _save_sequences_to_fasta format results);
           failed_file :=
             match failed_queries with
             | [] => None
             | _ => Some (failed_queries_file, failed_queries)
             end |}))%M.

(** ** Processing a report: [DataProcessor.process_gene_to_protein_data] *)

Module PyText.

(** [s.replace(old, new)] for single characters [old] and [new]. *)
Fixpoint replace (old new : ascii) (s : string) : string :=
  match s with
  | EmptyString => EmptyString
  | String c rest =>
      String (if Ascii.eqb c old then new else c) (replace old new rest)
  end.

(** [c in s] for a single character [c]. *)
Fixpoint has_char (c : ascii) (s : string) : bool :=
  match s with
  | EmptyString => false
  | String c' rest => Ascii.eqb c' c || has_char c rest
  end.

(** [v != s] for a string [s]: a value that is not a string differs. *)
Definition differs (v : json) (s : string) : bool :=
  match v with
  | JStr s' => negb (s' =? s)
  | _ => true
  end.

(** [v == s] for a string [s]. *)
Definition equals (v : json) (s : string) : bool :=
  match v with
  | JStr s' => s' =? s
  | _ => false
  end.

(** The decimal text of a natural number inside an f-string. *)
Definition decimal (n : nat) : string :=
  NilEmpty.string_of_uint (Nat.to_uint n).

End PyText.

(** The lists [process_gene_to_protein_data] fills. *)
Record gene_protein_lists : Type := mkGeneProteinLists {
  csv_data : list json;
  fasta_data : list json;
  json_data : list json;
  multiple_results_data : list json
}.

(** The row of a gene that was not found. *)
Definition not_found_row (gene_name : string) : json :=
  JObj [("gene_name", JStr gene_name);
        ("protein_accession", JStr "Not Found");
        ("protein_name", JStr "Not Found");
        ("sequence", JStr "Not Found");
        ("organism", JStr "Not Found");
        ("status", JStr "Gene not found");
        ("multiple_results_found", JBool false);
        ("total_results", JNum 0);
        ("selected_result", JStr "N/A")].

(** [protein_info.get("sequence") and protein_info["sequence"] != "Unknown"]
    as a condition. *)
Definition has_sequence (protein_info : json) : exn bool :=
  (sequence <- Py.get protein_info "sequence" JNull ;;
   if Py.truthy sequence then
     sequence <- Py.getitem protein_info "sequence" ;;
     Val (PyText.differs sequence "Unknown")
   else Val false)%exn.

(** The AlphaFold job built for a sequence. *)
Definition alphafold_job (job_name : string) (sequence : json) : json :=
  JObj [("name", JStr job_name);
        ("modelSeeds", JArr []);
        ("sequences",
         JArr [JObj [("proteinChain",
                      JObj [("sequence", sequence);
                            ("count", JNum 1);
                            ("useStructureTemplate", JBool false)])]]);
        ("dialect", JStr "alphafoldserver");
        ("version", JNum 1)].

(** One round of the loop [for gene_name, protein_info in
    gene_protein_data.items()].  The conversion of a value to text inside an
    f-string is Python's [str], taken as the parameter [format]. *)
Definition process_gene (format : json -> string) (gene_name : string)
    (protein_info : json) (lists : gene_protein_lists)
  : exn gene_protein_lists :=
  (has_error <- Py.contains "error" protein_info ;;
   if has_error : bool then
     Val {| csv_data := (csv_data lists ++ [not_found_row gene_name])%list;
            fasta_data := fasta_data lists;
            json_data := json_data lists;
            multiple_results_data := multiple_results_data lists |}
   else
     multiple_results <-
       Py.get protein_info "multiple_results_found" (JBool false) ;;
     total_results <- Py.get protein_info "total_results" (JNum 1) ;;
     selected_result <-
       Py.get protein_info "selected_result" (JStr "Single result") ;;
     multiple_results_data' <-
       (if Py.truthy multiple_results then
          selected_accession <-
            Py.get protein_info "accession" (JStr "Unknown") ;;
          selected_protein_name <-
            Py.get protein_info "protein_name" (JStr "Unknown") ;;
          all_accessions <- Py.get protein_info "all_accessions" (JArr []) ;;
          all_protein_names <-
            Py.get protein_info "all_protein_names" (JArr []) ;;
          Val (multiple_results_data lists
               ++ [JObj [("gene_name", JStr gene_name);
                         ("selected_accession", selected_accession);
                         ("selected_protein_name", selected_protein_name);
                         ("total_results", total_results);
                         ("selected_result", selected_result);
                         ("all_accessions", all_accessions);
                         ("all_protein_names", all_protein_names)]])%list
        else Val (multiple_results_data lists)) ;;
     protein_accession <- Py.get protein_info "accession" (JStr "Unknown") ;;
     protein_name <- Py.get protein_info "protein_name" (JStr "Unknown") ;;
     sequence <- Py.get protein_info "sequence" (JStr "Unknown") ;;
     organism <- Py.get protein_info "organism" (JStr "Unknown") ;;
     let csv_data' :=
       (csv_data lists
        ++ [JObj [("gene_name", JStr gene_name);
                  ("protein_accession", protein_accession);
                  ("protein_name", protein_name);
                  ("sequence", sequence);
                  ("organism", organism);
                  ("status", JStr "Success");
                  ("multiple_results_found", multiple_results);
                  ("total_results", total_results);
                  ("selected_result", selected_result)]])%list in
     for_fasta <- has_sequence protein_info ;;
     fasta_data' <-
       (if for_fasta : bool then
          id <- Py.get protein_info "accession" (JStr gene_name) ;;
          name <- Py.get protein_info "protein_name" (JStr "Unknown") ;;
          sequence <- Py.getitem protein_info "sequence" ;;
          Val (fasta_data lists
               ++ [JObj [("id", id);
                         ("description",
                          JStr (gene_name ++ " | " ++ format name)%string);
                         ("sequence", sequence)]])%list
        else Val (fasta_data lists)) ;;
     for_json <- has_sequence protein_info ;;
     json_data' <-
       (if for_json : bool then
          accession <- Py.get protein_info "accession" (JStr gene_name) ;;
          let job_name :=
            ("Gene: " ++ gene_name ++ " | Protein: " ++ format accession)%string
          in
          let job_name := PyText.replace "|" "-" job_name in
          sequence <- Py.getitem protein_info "sequence" ;;
          Val (json_data lists ++ [alphafold_job job_name sequence])%list
        else Val (json_data lists)) ;;
     Val {| csv_data := csv_data';
            fasta_data := fasta_data';
            json_data := json_data';
            multiple_results_data := multiple_results_data' |})%exn.

(** The loop over [gene_protein_data.items()]. *)
Fixpoint process_genes (format : json -> string)
    (items : list (string * json)) (lists : gene_protein_lists)
  : exn gene_protein_lists :=
  match items with
  | [] => Val lists
  | (gene_name, protein_info) :: rest =>
      (lists' <- process_gene format gene_name protein_info lists ;;
       process_genes format rest lists')%exn
  end.

(** [len([d for d in rows if test(d)])]. *)
Fixpoint count_rows (test : json -> exn bool) (rows : list json) : exn nat :=
  match rows with
  | [] => Val 0
  | d :: rest =>
      (keep <- test d ;;
       n <- count_rows test rest ;;
       Val (if keep : bool then S n else n))%exn
  end.

(** [d["status"] == status]. *)
Definition status_is (status : string) (d : json) : exn bool :=
  (v <- Py.getitem d "status" ;; Val (PyText.equals v status))%exn.

(** [d["status"] == "Success" and not d["multiple_results_found"]]. *)
Definition single_success (d : json) : exn bool :=
  (v <- Py.getitem d "status" ;;
   if PyText.equals v "Success" then
     m <- Py.getitem d "multiple_results_found" ;;
     Val (negb (Py.truthy m))
   else Val false)%exn.

(** The text written to the FASTA file of a report. *)
Fixpoint gene_fasta_text (format : json -> string) (entries : list json)
  : exn string :=
  match entries with
  | [] => Val ""
  | entry :: rest =>
      (id <- Py.getitem entry "id" ;;
       description <- Py.getitem entry "description" ;;
       sequence <- Py.getitem entry "sequence" ;;
       text <- gene_fasta_text format rest ;;
       Val (">" ++ format id ++ " " ++ format description ++ newline
            ++ format sequence ++ newline ++ text)%string)%exn
  end.

(** What [process_gene_to_protein_data] returns ([output_files]) and what it
    hands to the writers: the rows of the CSV file, the text of the FASTA
    file, the jobs of the AlphaFold JSON file, the rows of the two files on
    multiple results, and the summary.  A file that is not written is
    [None]. *)
Record gene_protein_output : Type := mkGeneProteinOutput {
  output_files : list (string * string);
  written_csv : list json;
  written_fasta : option string;
  written_json : option (list json);
  written_multiple_results : option (list json);
  written_summary : json
}.

(** [process_gene_to_protein_data].  Failures of the file system are not
    modelled. *)
Definition process_gene_to_protein_data (format : json -> string)
    (gene_protein_data : list (string * json)) (output_prefix : string)
  : exn gene_protein_output :=
  (lists <- process_genes format gene_protein_data
              {| csv_data := []; fasta_data := []; json_data := [];
                 multiple_results_data := [] |} ;;
   let output_files := [("csv", output_prefix ++ ".csv")] in
   fasta <-
     (match fasta_data lists with
      | [] => Val None
      | _ => text <- gene_fasta_text format (fasta_data lists) ;;
             Val (Some text)
      end) ;;
   let output_files :=
     match fasta_data lists with
     | [] => output_files
     | _ => (output_files ++ [("fasta", (output_prefix ++ ".fasta")%string)])%list
     end in
   let output_files :=
     match json_data lists with
     | [] => output_files
     | _ => (output_files
             ++ [("json", (output_prefix ++ "_alphafold.json")%string)])%list
     end in
   let output_files :=
     match multiple_results_data lists with
     | [] => output_files
     | _ => (output_files
             ++ [("multiple_results",
                  (output_prefix ++ "_multiple_results.csv")%string);
                 ("multiple_results_json",
                  (output_prefix ++ "_multiple_results.json")%string)])%list
     end in
   successful_matches <- count_rows (status_is "Success") (csv_data lists) ;;
   failed_matches <-
     count_rows (status_is "Gene not found") (csv_data lists) ;;
   single_result_genes <- count_rows single_success (csv_data lists) ;;
   let summary :=
     JObj [("total_genes", JNum (Z.of_nat (List.length gene_protein_data)));
           ("successful_matches", JNum (Z.of_nat successful_matches));
           ("failed_matches", JNum (Z.of_nat failed_matches));
           ("sequences_retrieved",
            JNum (Z.of_nat (List.length (fasta_data lists))));
           ("alphafold_jobs",
            JNum (Z.of_nat (List.length (json_data lists))));
           ("genes_with_multiple_results",
            JNum (Z.of_nat (List.length (multiple_results_data lists))));
           ("single_result_genes", JNum (Z.of_nat single_result_genes))] in
   let output_files :=
     (output_files ++ [("summary", (output_prefix ++ "_summary.json")%string)])%list in
   Val {| output_files := output_files;
          written_csv := csv_data lists;
          written_fasta := fasta;
          written_json :=
            match json_data lists with [] => None | jobs => Some jobs end;
          written_multiple_results :=
            match multiple_results_data lists with
            | [] => None
            | rows => Some rows
            end;
          written_summary := summary |})%exn.

(** ** Validating AlphaFold jobs: [validate_alphafold_json_structure] *)

(** The loop [for j, seq in enumerate(job['sequences'])]. *)
Fixpoint validate_sequences (i j : nat) (sequences : list json)
    (errors : list string) : exn (list string) :=
  match sequences with
  | [] => Val errors
  | seq :: rest =>
      (errors <-
         (match seq with
          | JObj fields =>
              if negb (Py.has_key "proteinChain" fields) then
                Val (errors
                     ++ [("Job " ++ PyText.decimal i ++ ", sequence "
                          ++ PyText.decimal j
                          ++ ": Missing 'proteinChain' field")%string])%list
              else
                chain <- Py.getitem seq "proteinChain" ;;
                has <- Py.contains "sequence" chain ;;
                if negb has then
                  Val (errors
                       ++ [("Job " ++ PyText.decimal i ++ ", sequence "
                            ++ PyText.decimal j
                            ++ ": Missing 'sequence' field")%string])%list
                else Val errors
          | _ =>
              Val (errors
                   ++ [("Job " ++ PyText.decimal i ++ ", sequence "
                        ++ PyText.decimal j
                        ++ ": Must be a dictionary")%string])%list
          end) ;;
       validate_sequences i (S j) rest errors)%exn
  end.

Definition required_fields : list string :=
  ["name"; "sequences"; "dialect"; "version"].

(** The loop [for field in required_fields]. *)
Fixpoint validate_required (i : nat) (fields : list (string * json))
    (required : list string) (errors : list string) : list string :=
  match required with
  | [] => errors
  | field :: rest =>
      validate_required i fields rest
        (if negb (Py.has_key field fields) then
           (errors ++ [("Job " ++ PyText.decimal i
                        ++ ": Missing required field '" ++ field ++ "'")%string])%list
         else errors)
  end.

(** The loop [for i, job in enumerate(jobs)]. *)
Fixpoint validate_jobs (i : nat) (jobs : list json) (errors : list string)
  : exn (list string) :=
  match jobs with
  | [] => Val errors
  | job :: rest =>
      (errors <-
         (match job with
          | JObj fields =>
              let errors := validate_required i fields required_fields errors in
              match Py.lookup "sequences" fields with
              | Some (JArr sequences) =>
                  validate_sequences i 0 sequences errors
              | Some _ =>
                  Val (errors ++ [("Job " ++ PyText.decimal i
                                   ++ ": 'sequences' must be a list")%string])%list
              | None => Val errors
              end
          | _ =>
              Val (errors ++ [("Job " ++ PyText.decimal i
                               ++ ": Must be a dictionary")%string])%list
          end) ;;
       validate_jobs (S i) rest errors)%exn
  end.

(** [validate_alphafold_json_structure]. *)
Definition validate_alphafold_json_structure (data : json)
  : exn (bool * list string) :=
  match data with
  | JArr jobs =>
      (errors <- validate_jobs 0 jobs [] ;;
       Val (match errors with [] => true | _ => false end, errors))%exn
  | JObj _ =>
      (errors <- validate_jobs 0 [data] [] ;;
       Val (match errors with [] => true | _ => false end, errors))%exn
  | _ => Val (false, ["Data must be a dictionary or list of dictionaries"])
  end.

(** A job the validator has nothing to say against. *)
Definition sequence_ok (seq : json) : bool :=
  match seq with
  | JObj fields =>
      match Py.lookup "proteinChain" fields with
      | Some chain =>
          match Py.contains "sequence" chain with
          | Val has => has
          | Exn => false
          end
      | None => false
      end
  | _ => false
  end.

Definition job_ok (job : json) : bool :=
  match job with
  | JObj fields =>
      forallb (fun field => Py.has_key field fields) required_fields
      && match Py.lookup "sequences" fields with
         | Some (JArr sequences) => forallb sequence_ok sequences
         | _ => false
         end
  | _ => false
  end.

Definition structure_ok (data : json) : bool :=
  match data with
  | JArr jobs => forallb job_ok jobs
  | JObj _ => job_ok data
  | _ => false
  end.

(** ** Reading a FASTA file: [count_sequence_lengths] *)

Definition line_feed : ascii := ascii_of_nat 10.
Definition carriage_return : ascii := ascii_of_nat 13.

(** The lines [for line in f] visits in a file opened in text mode: a line
    ends at a line feed, at a carriage return, or at a carriage return
    followed by a line feed, and what follows the last line end is a line
    when it is not empty.  The line ends themselves are left out: every line
    is stripped before it is used.  [after_return] says that the character
    before was a carriage return; [current] is the line read so far. *)
Fixpoint text_lines (after_return : bool) (current : string) (text : string)
  : list string :=
  match text with
  | EmptyString => if current =? "" then [] else [current]
  | String c rest =>
      if Ascii.eqb c line_feed then
        if after_return then text_lines false current rest
        else current :: text_lines false "" rest
      else if Ascii.eqb c carriage_return then
        current :: text_lines true "" rest
      else text_lines false (current ++ String c "") rest
  end.

(** [if current_id: sequence_lengths[current_id] = len(current_sequence)]. *)
Definition save_length (current_id : option string)
    (current_sequence : string) (sequence_lengths : list (string * json))
  : list (string * json) :=
  match current_id with
  | Some id =>
      if negb (id =? "")
      then Py.setitem id (JNum (Z.of_nat (String.length current_sequence)))
                      sequence_lengths
      else sequence_lengths
  | None => sequence_lengths
  end.

(** The loop [for line in f] of [count_sequence_lengths] and the lines after
    it. *)
Fixpoint count_lines (lines : list string) (current_id : option string)
    (current_sequence : string) (sequence_lengths : list (string * json))
  : list (string * json) :=
  match lines with
  | [] => save_length current_id current_sequence sequence_lengths
  | line :: rest =>
      let line := Py.strip line in
      if String.prefix ">" line then
        count_lines rest
          (Some match line with
                | String _ tail => tail
                | EmptyString => EmptyString
                end)
          ""
          (save_length current_id current_sequence sequence_lengths)
      else
        count_lines rest current_id (current_sequence ++ line)
                    sequence_lengths
  end.

(** [count_sequence_lengths] on the content of the file; the content is
    [None] when the file cannot be opened or read, and the [except] clause
    then returns the empty dictionary. *)
Definition count_sequence_lengths (content : option string)
  : list (string * json) :=
  match content with
  | Some text => count_lines (text_lines false "" text) None "" []
  | None => []
  end.

(** A text without a line end. *)
Fixpoint one_line (s : string) : bool :=
  match s with
  | EmptyString => true
  | String c rest =>
      negb (Ascii.eqb c line_feed) && negb (Ascii.eqb c carriage_return)
      && one_line rest
  end.

(** A record [_save_sequences_to_fasta] can write and
    [count_sequence_lengths] can read back: an id that is not empty, a
    sequence that is text and does not start with ">", both on one line and
    without white space at their ends. *)
Definition readable_record (entry : string * json) : Prop :=
  fst entry <> ""
  /\ Py.strip (fst entry) = fst entry
  /\ one_line (fst entry) = true
  /\ exists sequence,
       snd entry = JStr sequence
       /\ Py.strip sequence = sequence
       /\ one_line sequence = true
       /\ String.prefix ">" sequence = false.

(** ** Splitting a list: [chunk_list] *)

(** [lst[i:j]] for [0 <= i <= j]: the slice stops at the end of the list. *)
Definition slice {A : Type} (lst : list A) (i j : nat) : list A :=
  firstn (j - i) (skipn i lst).

(** [range(start, stop, step)] for a positive [step]; [fuel] bounds the
    number of values, and [stop - start] of it is enough. *)
Fixpoint range_from (fuel start stop step : nat) : list nat :=
  match fuel with
  | O => []
  | S fuel =>
      if (start <? stop)%nat
      then start :: range_from fuel (start + step) stop step
      else []
  end.

(** [range(0, stop, step)]: [ValueError] for a zero step, and no value for a
    negative one, as [stop] is a length. *)
Definition range (stop : nat) (step : Z) : exn (list nat) :=
  if (step =? 0)%Z then Exn
  else if (step <? 0)%Z then Val []
  else Val (range_from stop 0 stop (Z.to_nat step)).

(** [chunk_list] of utils.py: the slices are taken only after [range] has
    accepted the step. *)
Definition chunk_list {A : Type} (lst : list A) (chunk_size : Z)
  : exn (list (list A)) :=
  (starts <- range (List.length lst) chunk_size ;;
   Val (map (fun i => slice lst i (i + Z.to_nat chunk_size)) starts))%exn.

(** ** The session of [_setup_session] *)

(** [_setup_session] mounts, for [http://] and [https://], an adapter with
    the retry strategy [Retry(total=self.max_retries, backoff_factor=1,
    status_forcelist=[429, 500, 502, 503, 504])].  One call of [session.get]
    is then a run of attempts on the network, and the fetcher sees what the
    strategy lets through.  The strategy is urllib3's; it is modelled by what
    the values set in the source fix: a response with a listed status is
    never handed to the caller, and no more than [total] attempts are
    repeated.  What the source does not set (whether a failure of the network
    is tried again, what is made of a [Retry-After] header that cannot be
    read or that comes with another status) is left to a [policy].  The waits
    of the strategy between attempts are not recorded, and redirects are
    outside the model: a response is one the session does not follow
    further. *)

Definition status_forcelist : list Z := [429; 500; 502; 503; 504]%Z.

Definition listed (code : Z) (codes : list Z) : bool :=
  existsb (Z.eqb code) codes.

(** What the strategy makes of an attempt: hand its reply to the caller, send
    the request again, or raise. *)
Inductive verdict : Type :=
| Deliver
| Again
| GiveUp.

(** A reply with a status of [status_forcelist]. *)
Definition forced (rp : reply) : bool :=
  match rp with
  | Answers r => listed (status_code r) status_forcelist
  | Raises => false
  end.

(** The verdict on the reply to an attempt, [left] being what is left of
    [total]: the policy's, but a response with a listed status is not
    delivered. *)
Definition decide (policy : Z -> reply -> verdict) (left : Z) (rp : reply)
  : verdict :=
  match policy left rp with
  | Deliver => if forced rp then Again else Deliver
  | Again => Again
  | GiveUp => GiveUp
  end.

(** One [session.get] through the adapter, from the attempt numbered
    [attempt] on: the reply the caller gets and the number of attempts made.
    [budget] is the number of attempts that may still be repeated; when it
    is used up the adapter raises ([RetryError] after a listed status). *)
Fixpoint adapter_send (policy : Z -> reply -> verdict) (budget : nat)
    (left : Z) (network : nat -> request -> reply) (attempt : nat)
    (req : request) : reply * nat :=
  let rp := network attempt req in
  match decide policy left rp with
  | Deliver => (rp, S attempt)
  | GiveUp => (Raises, S attempt)
  | Again =>
      match budget with
      | O => (Raises, S attempt)
      | S budget' =>
          adapter_send policy budget' (left - 1) network (S attempt) req
      end
  end.

(** The session of a fetcher over a network: [wire n attempt req] is the
    reply of the network to the attempt numbered [attempt] of the call of
    [session.get] numbered [n]. *)
Definition mounted_session (self : UniProtFetcher)
    (policy : Z -> reply -> verdict) (wire : nat -> nat -> request -> reply)
  : service :=
  fun n req =>
    fst (adapter_send policy (Z.to_nat (max_retries self)) (max_retries self)
           (wire n) 0 req).

(** The requests that reach the network during the call numbered [n]. *)
Definition attempts (self : UniProtFetcher) (policy : Z -> reply -> verdict)
    (wire : nat -> nat -> request -> reply) (n : nat) (req : request) : nat :=
  snd (adapter_send policy (Z.to_nat (max_retries self)) (max_retries self)
         (wire n) 0 req).

(** The requests that reach the network during a trace whose first call of
    [session.get] is numbered [n]. *)
Fixpoint physical_calls (self : UniProtFetcher)
    (policy : Z -> reply -> verdict) (wire : nat -> nat -> request -> reply)
    (n : nat) (trace : list event) : nat :=
  match trace with
  | [] => 0
  | Get req :: rest =>
      attempts self policy wire n req
      + physical_calls self policy wire (S n) rest
  | _ :: rest => physical_calls self policy wire n rest
  end.

(** ** Further notions *)

(** The pauses of the decorator in a trace. *)
Definition paces_of (trace : list event) : nat :=
  List.length (filter (fun e => match e with Pace => true | _ => false end)
                      trace).

(** A reply from which a strategy gets nothing and after which it does not
    wait: an exception of [session.get], an error status other than 429, a
    body that cannot be decoded or read, or a response without results. *)
Definition gives_nothing (gene_name : string) (rp : reply) : bool :=
  match rp with
  | Raises => true
  | Answers resp =>
      if ok resp then
        match json_of resp with
        | Val data =>
            match select_protein_info data gene_name with
            | Val v => negb (Py.truthy v)
            | Exn => true
            end
        | Exn => true
        end
      else negb (status_code resp =? 429)%Z
  end.

(** A reply with one or more readable entries. *)
Definition gives_candidates (gene_name : string) (rp : reply) : bool :=
  match rp with
  | Answers resp =>
      ok resp &&
      match body resp with
      | Some data =>
          match Py.get data "results" (JArr []) with
          | Val (JArr (r :: rest)) => forallb (candidate gene_name) (r :: rest)
          | _ => false
          end
      | None => false
      end
  | Raises => false
  end.

(** The value [fetch_protein_sequence] reads from a decoded body. *)
Definition sequence_value (data : json) : exn json :=
  (sequence_info <- Py.get data "sequence" (JObj []) ;;
   Py.get sequence_info "value" JNull)%exn.

(** A reply [fetch_protein_sequence] handles without an exception: an
    exception of the request, an error status (a 429 only with a
    [Retry-After] that can be slept on), or a successful response whose body
    can be read. *)
Definition sequence_reply_handled (json_error_caught : bool) (rp : reply)
  : bool :=
  match rp with
  | Raises => true
  | Answers resp =>
      if ok resp then
        match body resp with
        | Some data =>
            match sequence_value data with Val _ => true | Exn => false end
        | None => json_error_caught
        end
      else if (status_code resp =? 429)%Z then
        match asks_to_wait rp with Some _ => true | None => false end
      else true
  end.

(** [d.get(k, default)] on the pairs of a dictionary. *)
Definition lookup_or (fields : list (string * json)) (k : string)
    (default : json) : json :=
  match Py.lookup k fields with
  | Some v => v
  | None => default
  end.

(** The protein of a report entry has a sequence to write: the entry has a
    true value under [sequence] that is not the text "Unknown". *)
Definition sequence_usable (info : list (string * json)) : bool :=
  match Py.lookup "sequence" info with
  | Some v => Py.truthy v && PyText.differs v "Unknown"
  | None => false
  end.

(** The row of the CSV file for a gene that was found. *)
Definition success_row (gene_name : string) (info : list (string * json))
  : json :=
  JObj [("gene_name", JStr gene_name);
        ("protein_accession", lookup_or info "accession" (JStr "Unknown"));
        ("protein_name", lookup_or info "protein_name" (JStr "Unknown"));
        ("sequence", lookup_or info "sequence" (JStr "Unknown"));
        ("organism", lookup_or info "organism" (JStr "Unknown"));
        ("status", JStr "Success");
        ("multiple_results_found",
         lookup_or info "multiple_results_found" (JBool false));
        ("total_results", lookup_or info "total_results" (JNum 1));
        ("selected_result",
         lookup_or info "selected_result" (JStr "Single result"))].

(** The row kept for a gene with several results. *)
Definition multiple_results_row (gene_name : string)
    (info : list (string * json)) : json :=
  JObj [("gene_name", JStr gene_name);
        ("selected_accession", lookup_or info "accession" (JStr "Unknown"));
        ("selected_protein_name",
         lookup_or info "protein_name" (JStr "Unknown"));
        ("total_results", lookup_or info "total_results" (JNum 1));
        ("selected_result",
         lookup_or info "selected_result" (JStr "Single result"));
        ("all_accessions", lookup_or info "all_accessions" (JArr []));
        ("all_protein_names", lookup_or info "all_protein_names" (JArr []))].

(** The entry kept for the FASTA file. *)
Definition fasta_entry (format : json -> string) (gene_name : string)
    (info : list (string * json)) : json :=
  JObj [("id", lookup_or info "accession" (JStr gene_name));
        ("description",
         JStr (gene_name ++ " | "
               ++ format (lookup_or info "protein_name" (JStr "Unknown"))));
        ("sequence", lookup_or info "sequence" JNull)].

(** The name of the AlphaFold job of a gene. *)
Definition job_name_of (format : json -> string) (gene_name : string)
    (info : list (string * json)) : string :=
  PyText.replace "|" "-"
    ("Gene: " ++ gene_name ++ " | Protein: "
     ++ format (lookup_or info "accession" (JStr gene_name))).

(** What one entry of a report adds to the four lists. *)
Definition lists_after (format : json -> string) (gene_name : string)
    (info : list (string * json)) (lists : gene_protein_lists)
  : gene_protein_lists :=
  if Py.has_key "error" info then
    {| csv_data := csv_data lists ++ [not_found_row gene_name];
       fasta_data := fasta_data lists;
       json_data := json_data lists;
       multiple_results_data := multiple_results_data lists |}
  else
    {| csv_data := csv_data lists ++ [success_row gene_name info];
       fasta_data :=
         fasta_data lists
         ++ (if sequence_usable info
             then [fasta_entry format gene_name info] else []);
       json_data :=
         json_data lists
         ++ (if sequence_usable info
             then [alphafold_job (job_name_of format gene_name info)
                                 (lookup_or info "sequence" JNull)]
             else []);
       multiple_results_data :=
         multiple_results_data lists
         ++ (if Py.truthy (lookup_or info "multiple_results_found"
                                     (JBool false))
             then [multiple_results_row gene_name info] else []) |}.

(** The counts of a summary add up. *)
Definition accounted (lists : gene_protein_lists) : Prop :=
  exists successful failed single,
    count_rows (status_is "Success") (csv_data lists) = Val successful
    /\ count_rows (status_is "Gene not found") (csv_data lists) = Val failed
    /\ count_rows single_success (csv_data lists) = Val single
    /\ successful + failed = List.length (csv_data lists)
    /\ List.length (multiple_results_data lists) + single = successful
    /\ List.length (fasta_data lists) = List.length (json_data lists)
    /\ List.length (fasta_data lists) <= successful.

(** The row of the CSV file for one entry of a report. *)
Definition row_of (entry : string * json) : json :=
  match snd entry with
  | JObj info =>
      if Py.has_key "error" info then not_found_row (fst entry)
      else success_row (fst entry) info
  | _ => JNull
  end.

(** A job as [process_gene_to_protein_data] builds it, with a name free of
    the character "|". *)
Definition built_job (job : json) : Prop :=
  exists name sequence,
    job = alphafold_job name sequence /\ PyText.has_char "|" name = false.

(** An entry of a report that carries the key [error]. *)
Definition missed (entry : string * json) : bool :=
  match snd entry with
  | JObj info => Py.has_key "error" info
  | _ => false
  end.

(** The network answers every attempt with a 429 the strategy does not
    give up on (its [Retry-After], if any, can be read). *)
Definition keeps_answering_429 (policy : Z -> reply -> verdict)
    (wire : nat -> nat -> request -> reply) : Prop :=
  forall n attempt req,
    exists r,
      wire n attempt req = Answers r
      /\ status_code r = 429%Z
      /\ forall left, policy left (Answers r) <> GiveUp.

(** An entry of a response that has the key [proteinName]. *)
Definition has_protein_name (r : json) : bool :=
  match r with
  | JObj fields => Py.has_key "proteinName" fields
  | _ => false
  end.

Module Demo.

(** A 500 response. *)
Definition server_error : reply :=
  Answers {| status_code := 500; retry_after := NoRetryAfter; body := None |}.

(** A service whose first request times out, whose second request meets a
    server error, and which then answers with one entry. *)
Definition recovering : service :=
  fun n _ =>
    match n with
    | 0 => Raises
    | 1 => server_error
    | _ => Sample.found [Sample.entry "P04637" Sample.swissprot]
    end.

(** What the selection returns on [Sample.marked_second]. *)
Definition marked_second_info : list (string * json) :=
  Eval vm_compute in
    match select_protein_info (Sample.body_of Sample.marked_second) "TP53" with
    | Val (JObj info) => info
    | _ => []
    end.

(** A 200 response with a sequence. *)
Definition sequence_found (sequence : string) : reply :=
  Answers {| status_code := 200;
             retry_after := NoRetryAfter;
             body := Some (JObj [("sequence",
                                  JObj [("value", JStr sequence)])]) |}.

(** A 200 response whose "sequence" is text where a dictionary is
    expected. *)
Definition sequence_as_text : response :=
  {| status_code := 200;
     retry_after := NoRetryAfter;
     body := Some (JObj [("sequence", JStr "MEEPQSDPSV")]) |}.

(** A service that knows the sequence of P04637 and times out on every other
    protein. *)
Definition p53_only : service :=
  fun _ r =>
    if req_url r =? "https://rest.uniprot.org/P04637"
    then sequence_found "MEEPQSDPSV"
    else Raises.

(** A conversion to text that is right on strings. *)
Definition text_of (v : json) : string :=
  match v with
  | JStr s => s
  | _ => ""
  end.

(** An entry with a recommended name, laid out as [_extract_protein_info]
    reads it. *)
Definition described_entry (accession name : string) : json :=
  JObj [("primaryAccession", JStr accession);
        ("proteinDescription",
         JObj [("recommendedName",
                JObj [("fullName", JObj [("value", JStr name)])])])].

(** Two described entries for one gene. *)
Definition described_pair : list json :=
  [described_entry "P04637" "Cellular tumor antigen p53";
   described_entry "A0A087WT22" "Cellular tumor antigen p53"].

(** What the selection returns on [described_pair]. *)
Definition described_info : list (string * json) :=
  Eval vm_compute in
    match select_protein_info (Sample.body_of described_pair) "TP53" with
    | Val (JObj info) => info
    | _ => []
    end.

(** A policy that tries a failure of the network again and delivers every
    response it may. *)
Definition retry_errors : Z -> reply -> verdict :=
  fun _ rp => match rp with Raises => Again | Answers _ => Deliver end.

(** A network that answers every attempt with 429. *)
Definition always_429 : nat -> nat -> request -> reply :=
  fun _ _ _ => Sample.too_many_requests.

(** A network that answers 429 to the first two attempts of every call and
    one entry to the third. *)
Definition busy_twice : nat -> nat -> request -> reply :=
  fun _ attempt _ =>
    if (attempt <? 2)%nat then Sample.too_many_requests
    else Sample.found [Sample.entry "P04637" Sample.swissprot].

End Demo.

(** ** Tactics *)

(** Splits a successful chain of [exn_bind]s into its successful steps. *)
Ltac exn_inv H :=
  repeat match type of H with
         | exn_bind ?m _ = Val _ =>
             let E := fresh "E" in
             destruct m eqn:E; cbn [exn_bind] in H; [|discriminate H]
         | (if ?b then _ else _) = Val _ =>
             let E := fresh "E" in destruct b eqn:E
         end.

(** ** Stepping the operations *)

Lemma sent_app (t1 t2 : list event) : sent (t1 ++ t2) = sent t1 + sent t2.
Proof.
  unfold sent, requests_of. rewrite flat_map_app, length_app. reflexivity.
Qed.

Lemma requests_of_app (t1 t2 : list event) :
  requests_of (t1 ++ t2) = (requests_of t1 ++ requests_of t2)%list.
Proof. unfold requests_of. apply flat_map_app. Qed.

Lemma sleeps_of_app (t1 t2 : list event) :
  sleeps_of (t1 ++ t2) = (sleeps_of t1 ++ sleeps_of t2)%list.
Proof. unfold sleeps_of. apply flat_map_app. Qed.

(** One call of [_search_with_strategy], by cases on the reply. *)
Lemma search_with_strategy_step fuel self session gene_name criteria n :
  let req := search_request self gene_name criteria in
  _search_with_strategy (S fuel) self session gene_name criteria n =
  match session n req with
  | Raises => (Raised, [Get req])
  | Answers resp =>
      if ok resp then
        match json_of resp with
        | Val data =>
            match select_protein_info data gene_name with
            | Val v => (Done v, [Get req])
            | Exn => (Raised, [Get req])
            end
        | Exn => (Raised, [Get req])
        end
      else if (status_code resp =? 429)%Z then
        match retry_after_seconds resp with
        | Val w =>
            if (w <? 0)%Z then (Raised, [Get req])
            else
              let (r, t) :=
                _search_with_strategy fuel self session gene_name criteria
                                      (S n) in
              (r, Get req :: Sleep w :: t)
        | Exn => (Raised, [Get req])
        end
      else (Done JNull, [Get req])
  end.
Proof.
  intros req. cbn [_search_with_strategy]. fold req.
  unfold bind, session_get.
  destruct (session n req) as [|resp]; [reflexivity|].
  destruct (ok resp).
  - unfold lift. destruct (json_of resp) as [data|]; [|reflexivity].
    destruct (select_protein_info data gene_name); reflexivity.
  - destruct (status_code resp =? 429)%Z; [|reflexivity].
    unfold lift, time_sleep.
    destruct (retry_after_seconds resp) as [w|]; [|reflexivity].
    destruct (w <? 0)%Z; [reflexivity|].
    cbn [sent requests_of flat_map app List.length].
    replace (n + 1 + 0 + 0) with (S n) by lia.
    destruct (_search_with_strategy fuel self session gene_name criteria (S n)).
    reflexivity.
Qed.

(** One round of the strategy loop. *)
Lemma try_strategies_step fuel self session gene_name strategy rest n :
  try_strategies fuel self session gene_name (strategy :: rest) n =
  match _search_with_strategy fuel self session gene_name strategy n with
  | (Done v, t) =>
      if Py.truthy v then (Done v, t)
      else
        let (r, t') :=
          try_strategies fuel self session gene_name rest (n + sent t) in
        (r, (t ++ t')%list)
  | (Raised, t) =>
      let (r, t') :=
        try_strategies fuel self session gene_name rest (n + sent t) in
      (r, (t ++ t')%list)
  | (OutOfFuel, t) => (OutOfFuel, t)
  end.
Proof.
  cbn [try_strategies]. unfold bind, try_except, ret.
  destruct (_search_with_strategy fuel self session gene_name strategy n)
    as [[v| |] t]; cbn.
  - rewrite !app_nil_r.
    destruct (Py.truthy v); cbn.
    + rewrite app_nil_r. reflexivity.
    + destruct (try_strategies fuel self session gene_name rest (n + sent t)).
      reflexivity.
  - rewrite !app_nil_r.
    destruct (try_strategies fuel self session gene_name rest (n + sent t)).
    reflexivity.
  - reflexivity.
Qed.

(** The decorator adds its pause in front and changes nothing else. *)
Lemma rate_limited_request_step {A} (func : M A) n :
  rate_limited_request func n =
  (fst (func n), Pace :: snd (func n)).
Proof.
  unfold rate_limited_request, bind, pace. cbn.
  rewrite Nat.add_0_r. destruct (func n). reflexivity.
Qed.

(** One round of the batch loop. *)
Lemma search_genes_loop_step fuel self session criteria raw rest results
    failed n :
  search_genes_loop fuel self session criteria (raw :: rest) results failed n =
  let gene_name := Py.strip raw in
  if negb (gene_name =? "") && negb (Py.has_key gene_name results) then
    match search_by_gene_name_robust fuel self session gene_name
            (Some criteria) n with
    | (Done protein_info, t) =>
        let (r, t') :=
          (if Py.truthy protein_info then
             search_genes_loop fuel self session criteria rest
               (Py.setitem gene_name protein_info results) failed
           else
             search_genes_loop fuel self session criteria rest
               (Py.setitem gene_name not_found_entry results)
               (failed ++ [gene_name])%list) (n + sent t) in
        (r, (t ++ t')%list)
    | (Raised, t) => (Raised, t)
    | (OutOfFuel, t) => (OutOfFuel, t)
    end
  else search_genes_loop fuel self session criteria rest results failed n.
Proof.
  cbn [search_genes_loop]. cbv zeta.
  destruct (negb (Py.strip raw =? "") && negb (Py.has_key (Py.strip raw) results));
    [|reflexivity].
  unfold bind.
  destruct (search_by_gene_name_robust fuel self session (Py.strip raw)
              (Some criteria) n) as [[v| |] t]; reflexivity.
Qed.

(** ** The query builder and the strategy plan *)

(** C4: for the base criteria organism "9606", reviewed only, exact match, the
    first strategy applied to gene "TP53" builds the query
    "gene_exact:TP53 AND organism_id:9606 AND reviewed:true", whatever the
    remaining fields of the base are; it is the query of the first request a
    search sends. *)
Theorem first_strategy_query_TP53 (size : Z) (synonyms : bool) :
  let base := {| organism_id := Some "9606";
                 reviewed_only := true;
                 exact_match := true;
                 max_results := size;
                 include_synonyms := synonyms |} in
  hd_error (map (_build_search_query "TP53") (strategies base))
  = Some "gene_exact:TP53 AND organism_id:9606 AND reviewed:true"
  /\ forall self,
       hd_error (map (fun s => req_query (search_request self "TP53" s))
                     (strategies base))
       = Some "gene_exact:TP53 AND organism_id:9606 AND reviewed:true".
Proof. split; [reflexivity|intros self; reflexivity]. Qed.

(** C9: the plan is a function of the base's organism id and maximum result
    count alone: it has exactly four strategies, in the order reviewed and
    exact, unreviewed and exact, reviewed and fuzzy, unreviewed and fuzzy,
    each with the base's organism id and maximum result count; bases that
    agree give the same plan. *)
Theorem strategies_fixed_plan (base base' : SearchCriteria) :
  organism_id base = organism_id base' ->
  max_results base = max_results base' ->
  strategies base = strategies base'
  /\ List.length (strategies base) = 4
  /\ map (fun s => (reviewed_only s, exact_match s)) (strategies base)
     = [(true, true); (false, true); (true, false); (false, false)]
  /\ Forall (fun s => organism_id s = organism_id base
                      /\ max_results s = max_results base)
            (strategies base).
Proof.
  intros Horg Hmax. repeat split.
  - unfold strategies. rewrite Horg, Hmax. reflexivity.
  - unfold strategies. repeat constructor.
Qed.

Lemma strategies_fixed_plan_witness :
  strategies SearchCriteria_default
  = strategies {| organism_id := Some "9606"; reviewed_only := false;
                  exact_match := false; max_results := 10;
                  include_synonyms := false |}
  /\ List.length (strategies SearchCriteria_default) = 4.
Proof.
  destruct (strategies_fixed_plan SearchCriteria_default
              {| organism_id := Some "9606"; reviewed_only := false;
                 exact_match := false; max_results := 10;
                 include_synonyms := false |} eq_refl eq_refl)
    as (H1 & H2 & _).
  exact (conj H1 H2).
Defined.

(** ** Legacy entry points *)

(** C10: [search_by_gene_name] returns what [search_by_gene_name_robust]
    returns with [SearchCriteria()], after the same requests (it makes one
    more pause of the decorator), omitting the criteria means the same, and
    [search_multiple_genes] is [search_multiple_genes_robust] with
    [SearchCriteria()]. *)
Theorem legacy_entry_points fuel self session gene_name gene_names n :
  let legacy := search_by_gene_name fuel self session gene_name n in
  let robust := search_by_gene_name_robust fuel self session gene_name
                  (Some SearchCriteria_default) n in
  fst legacy = fst robust
  /\ requests_of (snd legacy) = requests_of (snd robust)
  /\ snd legacy = Pace :: snd robust
  /\ search_by_gene_name_robust fuel self session gene_name None n = robust
  /\ search_multiple_genes fuel self session gene_names n
     = search_multiple_genes_robust fuel self session gene_names
         (Some SearchCriteria_default) n
  /\ search_multiple_genes_robust fuel self session gene_names None n
     = search_multiple_genes_robust fuel self session gene_names
         (Some SearchCriteria_default) n.
Proof.
  cbv zeta. unfold search_by_gene_name.
  rewrite rate_limited_request_step. cbn [fst snd].
  repeat split; reflexivity.
Qed.

(** ** Exhausting the strategies *)

Lemma select_protein_info_empty data gene_name results :
  Py.get data "results" (JArr []) = Val results ->
  Py.truthy results = false ->
  select_protein_info data gene_name = Val JNull.
Proof.
  intros Hget Hfalse. unfold select_protein_info.
  rewrite Hget. cbn [exn_bind]. rewrite Hfalse. reflexivity.
Qed.

Lemma search_with_strategy_no_candidates fuel self session gene_name criteria n :
  no_candidates (session n (search_request self gene_name criteria)) = true ->
  _search_with_strategy (S fuel) self session gene_name criteria n
  = (Done JNull, [Get (search_request self gene_name criteria)]).
Proof.
  intros H. rewrite search_with_strategy_step. cbv zeta.
  destruct (session n (search_request self gene_name criteria)) as [|resp];
    [discriminate|].
  cbn [no_candidates] in H. apply andb_prop in H as [Hok H].
  rewrite Hok. unfold json_of.
  destruct (body resp) as [data|]; [|discriminate].
  destruct (Py.get data "results" (JArr [])) as [results|] eqn:Hget;
    [|discriminate].
  rewrite (select_protein_info_empty data gene_name results Hget).
  - reflexivity.
  - destruct (Py.truthy results); [discriminate|reflexivity].
Qed.

Lemma try_strategies_no_candidates fuel self session gene_name :
  (forall k r, no_candidates (session k r) = true) ->
  forall todo n,
    try_strategies (S fuel) self session gene_name todo n
    = (Done JNull, map (fun s => Get (search_request self gene_name s)) todo).
Proof.
  intros Hnone todo. induction todo as [|s rest IH]; intros n.
  - reflexivity.
  - rewrite try_strategies_step, search_with_strategy_no_candidates
      by apply Hnone.
    cbn [Py.truthy]. rewrite IH. reflexivity.
Qed.

Lemma requests_of_map_get (rs : list request) :
  requests_of (map Get rs) = rs.
Proof.
  induction rs as [|r rs IH]; [reflexivity|].
  cbn. unfold requests_of in IH. rewrite IH. reflexivity.
Qed.

(** C3: when every reply carries no candidate, a search sends exactly four
    requests, those of the four strategies in order, and returns [None]; the
    batch records the symbol with the entry "Gene not found after all
    strategies". *)
Theorem exhausted_search_not_found fuel self session gene_name criteria n :
  0 < fuel ->
  (forall k r, no_candidates (session k r) = true) ->
  let plan := strategies match criteria with
                         | None => SearchCriteria_default
                         | Some c => c
                         end in
  let run := search_by_gene_name_robust fuel self session gene_name criteria n in
  fst run = Done JNull
  /\ requests_of (snd run) = map (search_request self gene_name) plan
  /\ List.length (requests_of (snd run)) = 4
  /\ (blank gene_name = false ->
      fst (search_multiple_genes_robust fuel self session [gene_name]
             criteria n)
      = Done [(Py.strip gene_name, not_found_entry)]).
Proof.
  intros Hfuel Hnone plan run.
  destruct fuel as [|fuel]; [lia|].
  assert (Hrun : forall g,
    search_by_gene_name_robust (S fuel) self session g criteria n
    = (Done JNull, Pace :: map (fun s => Get (search_request self g s)) plan)).
  { intros g. unfold search_by_gene_name_robust.
    rewrite rate_limited_request_step.
    rewrite try_strategies_no_candidates by exact Hnone. reflexivity. }
  subst run. rewrite Hrun. cbn [fst snd].
  assert (Hreq : forall g,
    requests_of (Pace :: map (fun s => Get (search_request self g s)) plan)
    = map (search_request self g) plan).
  { intros g. change (Pace :: ?l) with ([Pace] ++ l)%list.
    rewrite requests_of_app. cbn [requests_of flat_map app].
    rewrite <- (map_map (search_request self g) Get).
    apply requests_of_map_get. }
  split; [reflexivity|].
  split; [apply Hreq|].
  split; [rewrite Hreq; reflexivity|].
  intros Hblank. unfold blank in Hblank.
  unfold search_multiple_genes_robust, bind.
  rewrite search_genes_loop_step. cbv zeta.
  rewrite Hblank. cbn [negb andb Py.has_key Py.lookup].
  assert (Hc : search_by_gene_name_robust (S fuel) self session
                 (Py.strip gene_name)
                 (Some match criteria with
                       | None => SearchCriteria_default
                       | Some c => c
                       end) n
               = search_by_gene_name_robust (S fuel) self session
                   (Py.strip gene_name) criteria n).
  { destruct criteria; reflexivity. }
  rewrite Hc, Hrun. reflexivity.
Qed.

(** ** Reading one response *)

Lemma candidate_is_dict gene_name r :
  candidate gene_name r = true -> is_dict r = true.
Proof. destruct r; cbn; intros H; try discriminate; reflexivity. Qed.

Lemma forallb_candidate_is_dict gene_name items :
  forallb (candidate gene_name) items = true -> forallb is_dict items = true.
Proof.
  rewrite !forallb_forall. intros H r Hr.
  apply (candidate_is_dict gene_name), H, Hr.
Qed.

Lemma comprehension_if_reviewed items :
  forallb is_dict items = true ->
  comprehension_if reviewed_mark items = Val (filter marked_reviewed items).
Proof.
  induction items as [|r rest IH]; [reflexivity|].
  cbn [forallb]. intros H. apply andb_prop in H as [Hr Hrest].
  cbn [comprehension_if filter]. rewrite (IH Hrest).
  destruct r; try discriminate. unfold marked_reviewed. cbn.
  destruct (Py.truthy _); reflexivity.
Qed.

Lemma comprehension_if_dicts items kept :
  comprehension_if reviewed_mark items = Val kept ->
  forallb is_dict items = true.
Proof.
  revert kept. induction items as [|r rest IH]; intros kept H; [reflexivity|].
  cbn [comprehension_if] in H. exn_inv H.
  cbn [forallb]. rewrite (IH _ eq_refl).
  destruct r; try discriminate; reflexivity.
Qed.

Lemma any_reviewed items :
  forallb is_dict items = true ->
  any reviewed_mark items = Val (existsb marked_reviewed items).
Proof.
  induction items as [|r rest IH]; [reflexivity|].
  cbn [forallb]. intros H. apply andb_prop in H as [Hr Hrest].
  cbn [any existsb]. destruct r; try discriminate.
  unfold marked_reviewed. cbn.
  destruct (Py.truthy _); [reflexivity|]. apply IH, Hrest.
Qed.

Lemma comprehension_accessions items :
  forallb is_dict items = true ->
  comprehension (fun r => Py.get r "primaryAccession" JNull) items
  = Val (map accession_of items).
Proof.
  induction items as [|r rest IH]; [reflexivity|].
  cbn [forallb]. intros H. apply andb_prop in H as [Hr Hrest].
  cbn [comprehension map]. rewrite (IH Hrest).
  destruct r; try discriminate. reflexivity.
Qed.

Lemma comprehension_names gene_name items :
  forallb (candidate gene_name) items = true ->
  exists names,
    comprehension
      (fun r => (protein_name <- Py.get r "proteinName" (JObj []) ;;
                 Py.get protein_name "value" (JStr "Unknown"))%exn) items
    = Val names.
Proof.
  induction items as [|r rest IH]; [exists []; reflexivity|].
  cbn [forallb]. intros H. apply andb_prop in H as [Hr Hrest].
  destruct (IH Hrest) as [names Hnames].
  cbn [comprehension]. rewrite Hnames.
  unfold candidate in Hr. destruct r; try discriminate.
  destruct (_extract_protein_info (JObj fields) gene_name); [|discriminate].
  match type of Hr with
  | match ?m with _ => _ end = true => destruct m as [v|] eqn:Ev
  end; [|discriminate].
  exists (v :: names). reflexivity.
Qed.

Lemma truthy_filter_marked items :
  Py.truthy (JArr (filter marked_reviewed items))
  = existsb marked_reviewed items.
Proof.
  induction items as [|r rest IH]; [reflexivity|].
  cbn [filter existsb]. destruct (marked_reviewed r); [reflexivity|].
  exact IH.
Qed.

(** The dictionary [_extract_protein_info] returns: eight keys in a fixed
    order, the first holding the entry's accession. *)
Lemma extract_protein_info_shape r gene_name v :
  _extract_protein_info r gene_name = Val v ->
  exists id gene_names protein_name sequence organism reviewed entry_type,
    v = JObj [("accession", accession_of r);
              ("id", id);
              ("gene_names", gene_names);
              ("protein_name", protein_name);
              ("sequence", sequence);
              ("organism", organism);
              ("reviewed", JBool reviewed);
              ("entry_type", entry_type)].
Proof.
  unfold _extract_protein_info. intros H.
  destruct r as [| | | | |fields]; try discriminate H.
  exn_inv H. injection H as <-.
  match goal with
  | Ea : Py.get _ "primaryAccession" JNull = Val _ |- _ =>
      cbn in Ea; injection Ea as <-
  end.
  do 7 eexists. reflexivity.
Qed.

Lemma restrict_single r : restrict_to_reviewed [r] = [r].
Proof.
  unfold restrict_to_reviewed. cbn. destruct (marked_reviewed r); reflexivity.
Qed.

Lemma hd_restrict_multi results :
  Py.first (if Py.truthy (JArr (filter marked_reviewed results))
            then JArr (filter marked_reviewed results)
            else JArr results)
  = match hd_error (restrict_to_reviewed results) with
    | Some canonical => Val canonical
    | None => Exn
    end.
Proof.
  rewrite truthy_filter_marked. unfold restrict_to_reviewed.
  destruct (existsb marked_reviewed results).
  - destruct (filter marked_reviewed results); reflexivity.
  - destruct results; reflexivity.
Qed.

(** The result of [select_protein_info] on a response with one entry. *)
Lemma select_protein_info_single data gene_name r :
  Py.get data "results" (JArr []) = Val (JArr [r]) ->
  select_protein_info data gene_name =
  match _extract_protein_info r gene_name with
  | Val (JObj fields) => Val (JObj (fields ++ annotations [r] []))
  | _ => Exn
  end.
Proof.
  intros Hget. unfold select_protein_info. rewrite Hget.
  cbn [exn_bind Py.truthy negb Py.len List.length Nat.ltb Nat.leb Py.first].
  destruct (_extract_protein_info r gene_name) as [v|] eqn:Hx; [|reflexivity].
  destruct (extract_protein_info_shape _ _ _ Hx)
    as (i & g & p & s & o & rv & e & ->).
  reflexivity.
Qed.

(** The result of [select_protein_info] on a response with several
    entries. *)
Lemma select_protein_info_multi data gene_name r1 r2 rest :
  let results := r1 :: r2 :: rest in
  Py.get data "results" (JArr []) = Val (JArr results) ->
  select_protein_info data gene_name =
  if forallb is_dict results then
    match hd_error (restrict_to_reviewed results) with
    | Some canonical =>
        match _extract_protein_info canonical gene_name,
              comprehension protein_name_of results with
        | Val (JObj fields), Val names =>
            Val (JObj (fields ++ annotations results names))
        | _, _ => Exn
        end
    | None => Exn
    end
  else Exn.
Proof.
  intros results Hget. unfold select_protein_info. rewrite Hget.
  subst results.
  cbn [exn_bind Py.truthy negb Py.len List.length Nat.ltb Nat.leb Py.iter].
  set (results := r1 :: r2 :: rest).
  destruct (forallb is_dict results) eqn:Hdicts.
  - rewrite (comprehension_if_reviewed _ Hdicts). cbn [exn_bind].
    change (match filter marked_reviewed results with
            | [] => false
            | _ :: _ => true
            end)
      with (Py.truthy (JArr (filter marked_reviewed results))).
    rewrite hd_restrict_multi.
    destruct (hd_error (restrict_to_reviewed results)) as [canonical|];
      [|reflexivity].
    cbn [exn_bind].
    destruct (_extract_protein_info canonical gene_name) as [v|] eqn:Hx;
      [|reflexivity].
    destruct (extract_protein_info_shape _ _ _ Hx)
      as (i & g & p & s & o & rv & e & ->).
    cbn [exn_bind Py.store Py.setitem String.eqb Ascii.eqb Bool.eqb].
    rewrite (any_reviewed _ Hdicts), (comprehension_accessions _ Hdicts).
    cbn [exn_bind Py.store Py.setitem String.eqb Ascii.eqb Bool.eqb].
    fold protein_name_of.
    destruct (comprehension protein_name_of results) as [names|];
      reflexivity.
  - destruct (comprehension_if reviewed_mark results) as [kept|] eqn:Hk;
      [|reflexivity].
    apply comprehension_if_dicts in Hk. congruence.
Qed.

Lemma hd_restrict_some results :
  results <> [] ->
  exists canonical,
    hd_error (restrict_to_reviewed results) = Some canonical
    /\ In canonical results.
Proof.
  intros Hne. unfold restrict_to_reviewed.
  destruct (existsb marked_reviewed results) eqn:Hany.
  - apply existsb_exists in Hany as (x & Hx & Hmark).
    assert (Hin : In x (filter marked_reviewed results))
      by (apply filter_In; auto).
    destruct (filter marked_reviewed results) as [|c kept] eqn:Hf;
      [contradiction|].
    exists c. split; [reflexivity|].
    assert (Hc : In c (filter marked_reviewed results))
      by (rewrite Hf; left; reflexivity).
    apply filter_In in Hc. tauto.
  - destruct results as [|c rest]; [contradiction|].
    exists c. split; [reflexivity|left; reflexivity].
Qed.

Lemma candidate_extracts gene_name r :
  candidate gene_name r = true ->
  exists fields, _extract_protein_info r gene_name = Val (JObj fields).
Proof.
  unfold candidate. intros H. destruct r; try discriminate.
  destruct (_extract_protein_info (JObj fields) gene_name) as [v|] eqn:Hx;
    [|discriminate].
  destruct (extract_protein_info_shape _ _ _ Hx)
    as (i & g & p & s & o & rv & e & ->).
  eexists. reflexivity.
Qed.

(** What can be looked up in a returned dictionary. *)
Lemma protein_info_lookups canonical gene_name fields results names :
  _extract_protein_info canonical gene_name = Val (JObj fields) ->
  let info := (fields ++ annotations results names)%list in
  Py.lookup "accession" info = Some (accession_of canonical)
  /\ Py.lookup "multiple_results_found" info
     = Some (JBool (1 <? List.length results)%nat)
  /\ ((1 <? List.length results)%nat = true ->
      Py.lookup "total_results" info
      = Some (JNum (Z.of_nat (List.length results)))
      /\ Py.lookup "all_accessions" info
         = Some (JArr (map accession_of results))).
Proof.
  intros Hx.
  destruct (extract_protein_info_shape _ _ _ Hx)
    as (i & g & p & s & o & rv & e & Hv).
  injection Hv as ->. unfold annotations.
  destruct (1 <? List.length results)%nat.
  - split; [reflexivity|]. split; [reflexivity|].
    intros _. split; reflexivity.
  - split; [reflexivity|]. split; [reflexivity|].
    intros Hlt. discriminate Hlt.
Qed.

(** A successful selection comes from a non-empty list of results. *)
Lemma select_protein_info_results data gene_name info :
  select_protein_info data gene_name = Val (JObj info) ->
  exists r rest, Py.get data "results" (JArr []) = Val (JArr (r :: rest)).
Proof.
  unfold select_protein_info. intros H.
  destruct (Py.get data "results" (JArr [])) as [results|]; [|discriminate H].
  cbn [exn_bind] in H.
  destruct results as [|b|z|s|items|fields].
  - discriminate H.
  - destruct b; discriminate H.
  - cbn in H. destruct (negb (z =? 0)%Z); discriminate H.
  - destruct s as [|c1 [|c2 s]]; discriminate H.
  - destruct items as [|r rest]; [discriminate H|]. exists r, rest. reflexivity.
  - destruct fields as [|[k1 v1] [|[k2 v2] fields]]; discriminate H.
Qed.

(** On readable entries the selection succeeds. *)
Lemma canonical_selection_total data gene_name results :
  Py.get data "results" (JArr []) = Val (JArr results) ->
  results <> [] ->
  forallb (candidate gene_name) results = true ->
  exists fields names,
    select_protein_info data gene_name
    = Val (JObj (fields ++ annotations results names)).
Proof.
  intros Hget Hne Hcand.
  destruct (hd_restrict_some results Hne) as (canonical & Hhd & Hin).
  assert (Hc : candidate gene_name canonical = true)
    by (rewrite forallb_forall in Hcand; apply Hcand, Hin).
  destruct (candidate_extracts _ _ Hc) as [fields Hx].
  destruct results as [|r1 [|r2 rest]]; [contradiction| |].
  - exists fields, []. rewrite restrict_single in Hhd.
    injection Hhd as Heq. subst r1.
    rewrite (select_protein_info_single _ _ _ Hget), Hx. reflexivity.
  - destruct (comprehension_names _ _ Hcand) as [names Hnames].
    exists fields, names.
    rewrite (select_protein_info_multi _ _ _ _ _ Hget).
    rewrite (forallb_candidate_is_dict _ _ Hcand), Hhd, Hx.
    fold protein_name_of in Hnames. rewrite Hnames. reflexivity.
Qed.

(** ** Selecting the canonical entry *)

(** What the selection does, in terms of the key it tests: on a response
    with one or more readable entries, the entries are restricted to those
    that carry the key [reviewed] with a true value when there is one, the
    first entry of that list is the one extracted into the result, and the
    result's [multiple_results_found] is true exactly when the response had
    more than one entry. *)
Lemma canonical_selection data gene_name results :
  Py.get data "results" (JArr []) = Val (JArr results) ->
  results <> [] ->
  forallb (candidate gene_name) results = true ->
  exists canonical fields names,
    hd_error (restrict_to_reviewed results) = Some canonical
    /\ _extract_protein_info canonical gene_name = Val (JObj fields)
    /\ select_protein_info data gene_name
       = Val (JObj (fields ++ annotations results names))
    /\ Py.lookup "accession" (fields ++ annotations results names)
       = Some (accession_of canonical)
    /\ Py.lookup "multiple_results_found" (fields ++ annotations results names)
       = Some (JBool (1 <? List.length results)%nat).
Proof.
  intros Hget Hne Hcand.
  destruct (hd_restrict_some results Hne) as (canonical & Hhd & Hin).
  assert (Hc : candidate gene_name canonical = true)
    by (rewrite forallb_forall in Hcand; apply Hcand, Hin).
  destruct (candidate_extracts _ _ Hc) as [fields Hx].
  destruct results as [|r1 [|r2 rest]]; [contradiction| |].
  - exists canonical, fields, []. rewrite restrict_single in Hhd.
    injection Hhd as Heq. subst r1.
    destruct (protein_info_lookups _ _ _ [canonical] [] Hx) as (Ha & Hm & _).
    rewrite (select_protein_info_single _ _ _ Hget), Hx, restrict_single.
    repeat split; assumption.
  - destruct (comprehension_names _ _ Hcand) as [names Hnames].
    exists canonical, fields, names.
    destruct (protein_info_lookups _ _ _ (r1 :: r2 :: rest) names Hx)
      as (Ha & Hm & _).
    rewrite (select_protein_info_multi _ _ _ _ _ Hget).
    rewrite (forallb_candidate_is_dict _ _ Hcand), Hhd, Hx.
    fold protein_name_of in Hnames. rewrite Hnames.
    repeat split; assumption.
Qed.

(** C7, at the failing input: a response with an unreviewed entry followed
    by a reviewed one, both telling their status by [entryType] as UniProt
    does.  The selection looks for reviewed entries under the key [reviewed],
    which the entries do not have, finds none and takes the first entry: the
    search returns the unreviewed A0A087WT22, whose record says
    [reviewed = False], and labels it "First result", although the record
    [_extract_protein_info] makes of the second entry says
    [reviewed = True]. *)
Theorem reviewed_mark_is_not_entry_type :
  exists info second,
    fst (search_by_gene_name_robust 1 Sample.fetcher
           (Sample.always Sample.curated_second) "TP53" None 0)
    = Done (JObj info)
    /\ select_protein_info (Sample.body_of Sample.curated_second) "TP53"
       = Val (JObj info)
    /\ Py.lookup "accession" info = Some (JStr "A0A087WT22")
    /\ Py.lookup "reviewed" info = Some (JBool false)
    /\ Py.lookup "selected_result" info = Some (JStr "First result")
    /\ Py.lookup "multiple_results_found" info = Some (JBool true)
    /\ _extract_protein_info (Sample.entry "P04637" Sample.swissprot) "TP53"
       = Val (JObj second)
    /\ Py.lookup "reviewed" second = Some (JBool true)
    /\ restrict_to_reviewed Sample.curated_second = Sample.curated_second.
Proof.
  eexists. eexists. split; [vm_compute; reflexivity|].
  split; [vm_compute; reflexivity|].
  split; [reflexivity|]. split; [reflexivity|]. split; [reflexivity|].
  split; [reflexivity|].
  split; [vm_compute; reflexivity|]. split; reflexivity.
Qed.

(** ** First success ends the search *)

Lemma annotations_not_nil results names : annotations results names <> [].
Proof.
  unfold annotations. destruct (1 <? List.length results)%nat; discriminate.
Qed.

Lemma truthy_protein_info fields results names :
  Py.truthy (JObj (fields ++ annotations results names)) = true.
Proof.
  cbn. destruct (fields ++ annotations results names)%list eqn:H;
    [|reflexivity].
  apply app_eq_nil in H as [_ H]. apply annotations_not_nil in H. contradiction.
Qed.

(** C2: when the reply to the first strategy's request is a successful
    response with one or more readable entries, the search returns the
    protein information selected from that response after exactly one
    request; and whichever strategy is the first to return protein
    information, the loop returns it without a request for a later
    strategy. *)
Theorem first_success_short_circuit fuel self session gene_name criteria n
    first others resp data results :
  0 < fuel ->
  strategies match criteria with
             | None => SearchCriteria_default
             | Some c => c
             end = first :: others ->
  session n (search_request self gene_name first) = Answers resp ->
  ok resp = true ->
  body resp = Some data ->
  Py.get data "results" (JArr []) = Val (JArr results) ->
  results <> [] ->
  forallb (candidate gene_name) results = true ->
  exists info,
    select_protein_info data gene_name = Val info
    /\ Py.truthy info = true
    /\ search_by_gene_name_robust fuel self session gene_name criteria n
       = (Done info, [Pace; Get (search_request self gene_name first)])
    /\ sent (snd (search_by_gene_name_robust fuel self session gene_name
                    criteria n)) = 1
    /\ forall strategy later m v t,
         _search_with_strategy fuel self session gene_name strategy m
         = (Done v, t) ->
         Py.truthy v = true ->
         try_strategies fuel self session gene_name (strategy :: later) m
         = (Done v, t).
Proof.
  intros Hfuel Hplan Hreply Hok Hbody Hget Hne Hcand.
  destruct (canonical_selection_total data gene_name results Hget Hne Hcand)
    as (fields & names & Hsel).
  exists (JObj (fields ++ annotations results names)).
  assert (Htruthy := truthy_protein_info fields results names).
  destruct fuel as [|fuel]; [lia|].
  assert (Hrun :
    search_by_gene_name_robust (S fuel) self session gene_name criteria n
    = (Done (JObj (fields ++ annotations results names)),
       [Pace; Get (search_request self gene_name first)])).
  { unfold search_by_gene_name_robust.
    rewrite rate_limited_request_step, Hplan, try_strategies_step.
    rewrite search_with_strategy_step. cbv zeta.
    rewrite Hreply, Hok. unfold json_of. rewrite Hbody, Hsel, Htruthy.
    reflexivity. }
  split; [exact Hsel|]. split; [exact Htruthy|].
  split; [exact Hrun|]. split; [rewrite Hrun; reflexivity|].
  intros strategy later m v t Hs Hv.
  rewrite try_strategies_step, Hs, Hv. reflexivity.
Qed.

Lemma first_success_short_circuit_witness :
  exists info,
    search_by_gene_name_robust 1 Sample.fetcher Sample.tp53_only "TP53" None 0
    = (Done info,
       [Pace;
        Get (search_request Sample.fetcher "TP53" SearchCriteria_default)]).
Proof.
  destruct (first_success_short_circuit 1 Sample.fetcher Sample.tp53_only
              "TP53" None 0 _ _ _ _ [Sample.entry "P04637" Sample.swissprot]
              (le_n 1) eq_refl eq_refl eq_refl eq_refl eq_refl
              ltac:(discriminate) eq_refl)
    as (info & _ & _ & Hrun & _).
  exists info. exact Hrun.
Defined.

Lemma exhausted_search_not_found_witness :
  fst (search_by_gene_name_robust 1 Sample.fetcher Sample.nothing
         "NOTAREALGENE123" None 0) = Done JNull
  /\ List.length
       (requests_of
          (snd (search_by_gene_name_robust 1 Sample.fetcher Sample.nothing
                  "NOTAREALGENE123" None 0))) = 4.
Proof.
  destruct (exhausted_search_not_found 1 Sample.fetcher Sample.nothing
              "NOTAREALGENE123" None 0 (le_n 1) (fun _ _ => eq_refl))
    as (Hres & _ & Hlen & _).
  exact (conj Hres Hlen).
Defined.

Lemma canonical_selection_witness :
  exists fields names,
    select_protein_info (Sample.body_of Sample.marked_second) "TP53"
    = Val (JObj (fields ++ annotations Sample.marked_second names))
    /\ Py.lookup "accession" (fields ++ annotations Sample.marked_second names)
       = Some (JStr "P04637").
Proof.
  destruct (canonical_selection (Sample.body_of Sample.marked_second) "TP53"
              Sample.marked_second eq_refl ltac:(discriminate) eq_refl)
    as (canonical & fields & names & Hhd & _ & Hsel & Hacc & _).
  exists fields, names. split; [exact Hsel|].
  rewrite Hacc. injection Hhd as <-. reflexivity.
Defined.

(** ** What a result records about the other entries *)

(** C1, as stated, fails: with two entries in the response the result lists
    the accession of the selected entry under [all_accessions]; and an
    accession that occurs twice in the response is listed twice. *)
Lemma all_accessions_contain_canonical :
  (exists info accessions,
     select_protein_info (Sample.body_of Sample.two_entries) "TP53"
     = Val (JObj info)
     /\ Py.lookup "multiple_results_found" info = Some (JBool true)
     /\ Py.lookup "accession" info = Some (JStr "P04637")
     /\ Py.lookup "all_accessions" info = Some (JArr accessions)
     /\ In (JStr "P04637") accessions)
  /\ (exists info,
        select_protein_info (Sample.body_of Sample.same_twice) "TP53"
        = Val (JObj info)
        /\ Py.lookup "all_accessions" info
           = Some (JArr [JStr "P04637"; JStr "P04637"])).
Proof.
  split.
  - eexists. eexists. split; [vm_compute; reflexivity|].
    split; [reflexivity|]. split; [reflexivity|]. split; [reflexivity|].
    left. reflexivity.
  - eexists. split; [vm_compute; reflexivity|]. reflexivity.
Qed.

(** C1, amended: a result with [multiple_results_found] comes from a response
    with more than one entry; its [all_accessions] holds the accession of
    every entry of the response, in order and without removing any, so the
    accession of the selected entry is among them; [total_results] is their
    number. *)
Theorem all_accessions_cover_results data gene_name info :
  select_protein_info data gene_name = Val (JObj info) ->
  Py.lookup "multiple_results_found" info = Some (JBool true) ->
  exists results canonical,
    Py.get data "results" (JArr []) = Val (JArr results)
    /\ (1 < List.length results)%nat
    /\ hd_error (restrict_to_reviewed results) = Some canonical
    /\ Py.lookup "accession" info = Some (accession_of canonical)
    /\ Py.lookup "all_accessions" info = Some (JArr (map accession_of results))
    /\ In (accession_of canonical) (map accession_of results)
    /\ Py.lookup "total_results" info
       = Some (JNum (Z.of_nat (List.length results))).
Proof.
  intros Hsel Hmulti.
  destruct (select_protein_info_results _ _ _ Hsel) as (r1 & rest & Hget).
  destruct rest as [|r2 rest].
  - rewrite (select_protein_info_single _ _ _ Hget) in Hsel.
    destruct (_extract_protein_info r1 gene_name) as [[| | | | |fields]|] eqn:Hx;
      try discriminate Hsel.
    injection Hsel as <-.
    destruct (protein_info_lookups _ _ _ [r1] [] Hx) as (_ & Hm & _).
    rewrite Hm in Hmulti. discriminate Hmulti.
  - exists (r1 :: r2 :: rest).
    rewrite (select_protein_info_multi _ _ _ _ _ Hget) in Hsel.
    destruct (forallb is_dict (r1 :: r2 :: rest)); [|discriminate Hsel].
    destruct (hd_restrict_some (r1 :: r2 :: rest) ltac:(discriminate))
      as (canonical & Hhd & Hin).
    rewrite Hhd in Hsel. exists canonical.
    destruct (_extract_protein_info canonical gene_name)
      as [[| | | | |fields]|] eqn:Hx; try discriminate Hsel.
    destruct (comprehension protein_name_of (r1 :: r2 :: rest)) as [names|];
      [|discriminate Hsel].
    injection Hsel as <-.
    destruct (protein_info_lookups _ _ _ (r1 :: r2 :: rest) names Hx)
      as (Ha & _ & Hrest).
    destruct (Hrest eq_refl) as (Htotal & Hall).
    split; [exact Hget|]. split; [cbn [List.length]; lia|].
    split; [exact Hhd|].
    split; [exact Ha|]. split; [exact Hall|].
    split; [apply in_map, Hin|exact Htotal].
Qed.

Lemma all_accessions_cover_results_witness :
  exists info,
    select_protein_info (Sample.body_of Sample.marked_second) "TP53"
    = Val (JObj info)
    /\ Py.lookup "all_accessions" info
       = Some (JArr [JStr "A0A087WT22"; JStr "P04637"])
    /\ Py.lookup "accession" info = Some (JStr "P04637").
Proof.
  eexists. split; [vm_compute; reflexivity|].
  destruct (all_accessions_cover_results
              (Sample.body_of Sample.marked_second) "TP53" _
              eq_refl eq_refl)
    as (results & canonical & Hget & _ & Hhd & Hacc & Hall & _).
  injection Hget as <-. injection Hhd as <-.
  split; [exact Hall|exact Hacc].
Defined.

(** ** Rate limiting *)

(** A reply that is not a 429 ends [_search_with_strategy] after one
    request, whatever the fuel. *)
Lemma search_with_strategy_final fuel self session gene_name criteria n :
  rate_limited (session n (search_request self gene_name criteria)) = false ->
  _search_with_strategy (S fuel) self session gene_name criteria n
  = _search_with_strategy 1 self session gene_name criteria n
  /\ snd (_search_with_strategy 1 self session gene_name criteria n)
     = [Get (search_request self gene_name criteria)]
  /\ fst (_search_with_strategy 1 self session gene_name criteria n)
     <> OutOfFuel.
Proof.
  intros Hfinal. rewrite !search_with_strategy_step. cbv zeta.
  destruct (session n (search_request self gene_name criteria)) as [|resp];
    [repeat split; discriminate|].
  cbn in Hfinal. destruct (ok resp).
  - destruct (json_of resp) as [data|]; [|repeat split; discriminate].
    destruct (select_protein_info data gene_name);
      repeat split; discriminate.
  - cbn in Hfinal. rewrite Hfinal. repeat split; discriminate.
Qed.

(** Every request of one [_search_with_strategy] beyond the first follows a
    wait. *)
Lemma search_with_strategy_requests fuel self session gene_name criteria :
  forall n,
    let t := snd (_search_with_strategy fuel self session gene_name criteria n)
    in sent t <= 1 + List.length (sleeps_of t).
Proof.
  induction fuel as [|fuel IH]; intros n; [cbn; lia|].
  cbv zeta. rewrite search_with_strategy_step. cbv zeta.
  destruct (session n (search_request self gene_name criteria)) as [|resp];
    [cbn; lia|].
  destruct (ok resp).
  - destruct (json_of resp) as [data|]; [|cbn; lia].
    destruct (select_protein_info data gene_name); cbn; lia.
  - destruct (status_code resp =? 429)%Z; [|cbn; lia].
    destruct (retry_after_seconds resp) as [w|]; [|cbn; lia].
    destruct (w <? 0)%Z; [cbn; lia|].
    specialize (IH (S n)). cbv zeta in IH.
    destruct (_search_with_strategy fuel self session gene_name criteria (S n))
      as [r t].
    cbn [snd] in *. change (Get ?r :: Sleep ?w :: ?t)
      with ([Get r; Sleep w] ++ t)%list.
    rewrite sent_app, sleeps_of_app, length_app. cbn. lia.
Qed.

Lemma try_strategies_requests fuel self session gene_name todo :
  forall n,
    let t := snd (try_strategies fuel self session gene_name todo n) in
    sent t <= List.length todo + List.length (sleeps_of t).
Proof.
  induction todo as [|s rest IH]; intros n; [cbn; lia|].
  cbv zeta. rewrite try_strategies_step.
  pose proof (search_with_strategy_requests fuel self session gene_name s n)
    as Hs. cbv zeta in Hs.
  destruct (_search_with_strategy fuel self session gene_name s n)
    as [[v| |] t]; cbn [snd] in Hs.
  - destruct (Py.truthy v); [cbn [snd List.length]; lia|].
    specialize (IH (n + sent t)). cbv zeta in IH.
    destruct (try_strategies fuel self session gene_name rest (n + sent t))
      as [r t']. cbn [snd] in *.
    rewrite sent_app, sleeps_of_app, length_app. cbn [List.length]. lia.
  - specialize (IH (n + sent t)). cbv zeta in IH.
    destruct (try_strategies fuel self session gene_name rest (n + sent t))
      as [r t']. cbn [snd] in *.
    rewrite sent_app, sleeps_of_app, length_app. cbn [List.length]. lia.
  - cbn [snd List.length]. lia.
Qed.

(** ** Blank symbols *)

(** C6, as stated, fails: [search_by_gene_name_robust] has no check of its
    own; on a symbol of three spaces it sends a request whose query has the
    spaces for a gene, and returns what the service found. *)
Lemma blank_symbol_is_searched :
  blank "   " = true
  /\ requests_of
       (snd (search_by_gene_name_robust 1 Sample.fetcher
               (Sample.always [Sample.entry "P04637" Sample.swissprot])
               "   " None 0))
     = [search_request Sample.fetcher "   " SearchCriteria_default]
  /\ req_query (search_request Sample.fetcher "   " SearchCriteria_default)
     = "gene_exact:    AND organism_id:9606 AND reviewed:true"
  /\ exists info,
       fst (search_by_gene_name_robust 1 Sample.fetcher
              (Sample.always [Sample.entry "P04637" Sample.swissprot])
              "   " None 0) = Done (JObj info)
       /\ Py.lookup "accession" info = Some (JStr "P04637").
Proof.
  split; [reflexivity|]. split; [vm_compute; reflexivity|].
  split; [reflexivity|].
  eexists. split; [vm_compute; reflexivity|reflexivity].
Qed.

Lemma search_genes_loop_skips_blank fuel self session criteria b post :
  blank b = true ->
  forall pre results failed n,
    search_genes_loop fuel self session criteria (pre ++ b :: post)
                      results failed n
    = search_genes_loop fuel self session criteria (pre ++ post)
                        results failed n.
Proof.
  intros Hblank pre. induction pre as [|x pre IH]; intros results failed n.
  - cbn [app]. rewrite search_genes_loop_step. cbv zeta.
    unfold blank in Hblank. rewrite Hblank. reflexivity.
  - cbn [app]. rewrite !search_genes_loop_step. cbv zeta.
    destruct (negb (Py.strip x =? "")
              && negb (Py.has_key (Py.strip x) results)); [|apply IH].
    destruct (search_by_gene_name_robust fuel self session (Py.strip x)
                (Some criteria) n) as [[v| |] t]; try reflexivity.
    destruct (Py.truthy v); rewrite IH; reflexivity.
Qed.

(** C6, amended: the batch search drops a blank symbol before anything is
    sent for it: a list with a blank symbol in it gives the same report, after
    the same requests and pauses, as the list without it, and a list of one
    blank symbol gives the empty report and no event at all. *)
Theorem blank_symbols_are_skipped fuel self session criteria pre b post n :
  blank b = true ->
  search_multiple_genes_robust fuel self session (pre ++ b :: post) criteria n
  = search_multiple_genes_robust fuel self session (pre ++ post) criteria n
  /\ search_multiple_genes_robust fuel self session [b] criteria n
     = (Done [], []).
Proof.
  intros Hblank. unfold search_multiple_genes_robust, bind.
  split.
  - rewrite (search_genes_loop_skips_blank _ _ _ _ _ _ Hblank). reflexivity.
  - rewrite (search_genes_loop_skips_blank _ _ _ _ b [] Hblank []).
    reflexivity.
Qed.

Lemma blank_symbols_are_skipped_witness :
  search_multiple_genes_robust 1 Sample.fetcher Sample.tp53_only
    ["TP53"; "   "] None 0
  = search_multiple_genes_robust 1 Sample.fetcher Sample.tp53_only
      ["TP53"] None 0.
Proof.
  exact (proj1 (blank_symbols_are_skipped 1 Sample.fetcher Sample.tp53_only
                  None ["TP53"] "   " [] 0 eq_refl)).
Defined.

(** ** The batch report *)

Lemma search_with_strategy_returns self session gene_name criteria k :
  forall fuel n,
    k < fuel ->
    rate_limited (session (n + k) (search_request self gene_name criteria))
    = false ->
    fst (_search_with_strategy fuel self session gene_name criteria n)
    <> OutOfFuel.
Proof.
  induction k as [|k IH]; intros fuel n Hfuel Hfinal;
    (destruct fuel as [|fuel]; [lia|]).
  - rewrite Nat.add_0_r in Hfinal.
    destruct (search_with_strategy_final fuel self session gene_name criteria
                n Hfinal) as (-> & _ & Hdone).
    exact Hdone.
  - rewrite search_with_strategy_step. cbv zeta.
    destruct (session n (search_request self gene_name criteria)) as [|resp];
      [discriminate|].
    destruct (ok resp).
    + destruct (json_of resp) as [data|]; [|discriminate].
      destruct (select_protein_info data gene_name); discriminate.
    + destruct (status_code resp =? 429)%Z; [|discriminate].
      destruct (retry_after_seconds resp) as [w|]; [|discriminate].
      destruct (w <? 0)%Z; [discriminate|].
      specialize (IH fuel (S n)).
      destruct (_search_with_strategy fuel self session gene_name criteria
                  (S n)) as [r t].
      cbn [fst] in *. apply IH; [lia|].
      replace (S n + k) with (n + S k) by lia. exact Hfinal.
Qed.

Lemma try_strategies_returns fuel bound self session gene_name :
  settles bound session ->
  bound < fuel ->
  forall todo n,
    exists v, fst (try_strategies fuel self session gene_name todo n) = Done v.
Proof.
  intros Hsettles Hfuel todo.
  induction todo as [|s rest IH]; intros n; [exists JNull; reflexivity|].
  rewrite try_strategies_step.
  destruct (Hsettles n (search_request self gene_name s)) as (k & Hk & Hfinal).
  pose proof (search_with_strategy_returns self session gene_name s k fuel n
                ltac:(lia) Hfinal) as Hret.
  destruct (_search_with_strategy fuel self session gene_name s n)
    as [[v| |] t]; cbn [fst] in Hret.
  - destruct (Py.truthy v); [exists v; reflexivity|].
    destruct (IH (n + sent t)) as [v' Hv'].
    destruct (try_strategies fuel self session gene_name rest (n + sent t)).
    exists v'. exact Hv'.
  - destruct (IH (n + sent t)) as [v' Hv'].
    destruct (try_strategies fuel self session gene_name rest (n + sent t)).
    exists v'. exact Hv'.
  - contradiction.
Qed.

(** With enough fuel a search ends with a value: no exception leaves
    [search_by_gene_name_robust]. *)
Lemma search_by_gene_name_robust_returns fuel bound self session gene_name
    criteria n :
  settles bound session ->
  bound < fuel ->
  exists v,
    fst (search_by_gene_name_robust fuel self session gene_name criteria n)
    = Done v.
Proof.
  intros Hsettles Hfuel. unfold search_by_gene_name_robust.
  rewrite rate_limited_request_step. cbn [fst].
  apply (try_strategies_returns fuel bound); assumption.
Qed.

Lemma has_key_keys k results :
  Py.has_key k results = existsb (String.eqb k) (map fst results).
Proof.
  unfold Py.has_key. induction results as [|[k' v] rest IH]; [reflexivity|].
  cbn. rewrite (String.eqb_sym k k').
  destruct (k' =? k); [reflexivity|]. exact IH.
Qed.

Lemma keys_setitem_new k v results :
  Py.has_key k results = false ->
  map fst (Py.setitem k v results) = (map fst results ++ [k])%list.
Proof.
  unfold Py.has_key. induction results as [|[k' v'] rest IH]; [reflexivity|].
  cbn. destruct (k' =? k); [discriminate|].
  intros H. cbn. rewrite (IH H). reflexivity.
Qed.

Lemma in_setitem kv k v results :
  In kv (Py.setitem k v results) -> In kv results \/ kv = (k, v).
Proof.
  induction results as [|[k' v'] rest IH]; cbn.
  - intros [H|[]]. right. symmetry. exact H.
  - destruct (k' =? k) eqn:Hk; cbn.
    + apply String.eqb_eq in Hk. subst k'.
      intros [H|H]; [right; symmetry; exact H|left; right; exact H].
    + intros [H|H]; [left; left; exact H|].
      destruct (IH H) as [H'|H']; [left; right; exact H'|right; exact H'].
Qed.

Lemma existsb_eqb_In x seen :
  existsb (String.eqb x) seen = true <-> In x seen.
Proof.
  rewrite existsb_exists. split.
  - intros (y & Hy & Heq). apply String.eqb_eq in Heq. subst y. exact Hy.
  - intros H. exists x. split; [exact H|apply String.eqb_refl].
Qed.

Lemma first_seen_In names :
  forall seen g,
    In g (first_seen seen names) <-> In g names /\ ~ In g seen.
Proof.
  induction names as [|x rest IH]; intros seen g; cbn [first_seen].
  - cbn. tauto.
  - destruct (existsb (String.eqb x) seen) eqn:Hseen.
    + apply existsb_eqb_In in Hseen. rewrite IH. cbn.
      split; [tauto|]. intros [[->|H] Hn]; [contradiction|tauto].
    + assert (Hx : ~ In x seen).
      { intros H. apply existsb_eqb_In in H. congruence. }
      cbn. rewrite IH, in_app_iff. cbn.
      split.
      * intros [->|(H & Hn)]; [tauto|]. split; [tauto|]. tauto.
      * intros [[->|H] Hn]; [tauto|].
        destruct (String.eqb_spec x g) as [->|Hne]; [tauto|].
        right. split; [exact H|]. intros [H'|[H'|[]]]; tauto.
Qed.

Lemma first_seen_NoDup names :
  forall seen, NoDup (first_seen seen names).
Proof.
  induction names as [|x rest IH]; intros seen; cbn [first_seen].
  - constructor.
  - destruct (existsb (String.eqb x) seen); [apply IH|].
    constructor; [|apply IH].
    rewrite first_seen_In, in_app_iff. cbn. tauto.
Qed.

(** The batch loop ends with a report whose keys are the keys it started
    with, followed by the new symbols in the order they are first seen; every
    value it adds is the error entry or what the search returned. *)
Lemma search_genes_loop_keys fuel bound self session criteria :
  settles bound session ->
  bound < fuel ->
  forall gene_names results failed n,
    exists results' failed',
      fst (search_genes_loop fuel self session criteria gene_names
             results failed n) = Done (results', failed')
      /\ map fst results'
         = (map fst results
            ++ first_seen (map fst results)
                 (filter (fun g => negb (g =? "")) (map Py.strip gene_names)))%list
      /\ forall g v,
           In (g, v) results' ->
           In (g, v) results
           \/ v = not_found_entry
           \/ exists m,
                fst (search_by_gene_name_robust fuel self session g
                       (Some criteria) m) = Done v
                /\ Py.truthy v = true.
Proof.
  intros Hsettles Hfuel gene_names.
  induction gene_names as [|raw rest IH]; intros results failed n.
  - exists results, failed. cbn. rewrite app_nil_r. auto.
  - rewrite search_genes_loop_step. cbv zeta.
    cbn [map filter first_seen].
    rewrite has_key_keys.
    destruct (negb (Py.strip raw =? "")) eqn:Hblank; cbn [andb].
    + cbn [first_seen].
      destruct (existsb (String.eqb (Py.strip raw)) (map fst results))
        eqn:Hseen; cbn [negb].
      * apply IH.
      * destruct (search_by_gene_name_robust_returns fuel bound self session
                    (Py.strip raw) (Some criteria) n Hsettles Hfuel)
          as [v Hv].
        destruct (search_by_gene_name_robust fuel self session
                    (Py.strip raw) (Some criteria) n) as [r t] eqn:Hrun.
        cbn [fst] in Hv. subst r.
        assert (Hnew : Py.has_key (Py.strip raw) results = false)
          by (rewrite has_key_keys; exact Hseen).
        destruct (Py.truthy v) eqn:Htruthy.
        -- destruct (IH (Py.setitem (Py.strip raw) v results) failed
                        (n + sent t))
             as (results' & failed' & Hdone & Hkeys & Hvalues).
           destruct (search_genes_loop fuel self session criteria rest
                       (Py.setitem (Py.strip raw) v results) failed
                       (n + sent t)) as [r' t'].
           cbn [fst] in *. subst r'.
           exists results', failed'. split; [reflexivity|].
           rewrite keys_setitem_new in Hkeys by exact Hnew.
           rewrite <- app_assoc in Hkeys. split; [exact Hkeys|].
           intros g w Hin. destruct (Hvalues g w Hin) as [H|H]; [|auto].
           apply in_setitem in H as [H|H]; [auto|].
           injection H as -> ->. right. right. exists n.
           rewrite Hrun. auto.
        -- destruct (IH (Py.setitem (Py.strip raw) not_found_entry results)
                        (failed ++ [Py.strip raw])%list (n + sent t))
             as (results' & failed' & Hdone & Hkeys & Hvalues).
           destruct (search_genes_loop fuel self session criteria rest
                       (Py.setitem (Py.strip raw) not_found_entry results)
                       (failed ++ [Py.strip raw])%list
                       (n + sent t)) as [r' t'].
           cbn [fst] in *. subst r'.
           exists results', failed'. split; [reflexivity|].
           rewrite keys_setitem_new in Hkeys by exact Hnew.
           rewrite <- app_assoc in Hkeys. split; [exact Hkeys|].
           intros g w Hin. destruct (Hvalues g w Hin) as [H|H]; [|auto].
           apply in_setitem in H as [H|H]; [auto|].
           injection H as -> ->. auto.
    + apply IH.
Qed.

(** C8: given that the service does not answer 429 without end, the batch
    search always ends with a report; its keys are the stripped, non-blank
    input symbols, each once, in the order they are first seen in the input;
    and every value is the error entry or what the search of that symbol
    returned. *)
Theorem batch_report_covers_input fuel bound self session gene_names
    criteria n :
  settles bound session ->
  bound < fuel ->
  exists report,
    fst (search_multiple_genes_robust fuel self session gene_names criteria n)
    = Done report
    /\ map fst report = batch_keys gene_names
    /\ NoDup (map fst report)
    /\ (forall g,
          In g (map fst report)
          <-> g <> "" /\ exists raw, In raw gene_names /\ Py.strip raw = g)
    /\ forall g v,
         In (g, v) report ->
         v = not_found_entry
         \/ exists m,
              fst (search_by_gene_name_robust fuel self session g criteria m)
              = Done v
              /\ Py.truthy v = true.
Proof.
  intros Hsettles Hfuel.
  unfold search_multiple_genes_robust, bind.
  set (c := match criteria with
            | None => SearchCriteria_default
            | Some c => c
            end).
  destruct (search_genes_loop_keys fuel bound self session c Hsettles Hfuel
              gene_names [] [] n)
    as (report & failed & Hdone & Hkeys & Hvalues).
  destruct (search_genes_loop fuel self session c gene_names [] [] n)
    as [r t].
  cbn [fst] in Hdone. subst r. cbn [ret fst snd].
  exists report. cbn [map app] in Hkeys.
  split; [reflexivity|]. split; [exact Hkeys|].
  split; [rewrite Hkeys; apply first_seen_NoDup|].
  split.
  - intros g. rewrite Hkeys, first_seen_In, filter_In, in_map_iff.
    split.
    + intros [[(raw & Hraw & Hin) Hne] _].
      split; [|exists raw; auto].
      intros ->. discriminate Hne.
    + intros [Hne (raw & Hin & Hraw)].
      split; [|intros []]. split; [exists raw; auto|].
      destruct (String.eqb_spec g ""); [contradiction|reflexivity].
  - intros g v Hin. destruct (Hvalues g v Hin) as [[]|[H|(m & Hm & Ht)]];
      [left; exact H|].
    right. exists m. split; [|exact Ht].
    destruct criteria; exact Hm.
Qed.

Lemma batch_report_covers_input_witness :
  exists report,
    fst (search_multiple_genes_robust 1 Sample.fetcher Sample.tp53_only
           ["TP53"; "  "; "NOTAREALGENE123"; " TP53 "; ""] None 0)
    = Done report
    /\ map fst report = ["TP53"; "NOTAREALGENE123"].
Proof.
  destruct (batch_report_covers_input 1 0 Sample.fetcher Sample.tp53_only
              ["TP53"; "  "; "NOTAREALGENE123"; " TP53 "; ""] None 0)
    as (report & Hdone & Hkeys & _).
  - intros n req. exists 0. split; [apply le_n|].
    unfold Sample.tp53_only.
    destruct (req_query req =? _); reflexivity.
  - apply le_n.
  - exists report. split; [exact Hdone|exact Hkeys].
Defined.

(** * Further properties of the search *)

(** ** No exception leaves the search *)

Lemma try_strategies_never_raises fuel self session gene_name todo :
  forall n, fst (try_strategies fuel self session gene_name todo n) <> Raised.
Proof.
  induction todo as [|s rest IH]; intros n; [discriminate|].
  rewrite try_strategies_step.
  destruct (_search_with_strategy fuel self session gene_name s n)
    as [[v| |] t].
  - destruct (Py.truthy v); [discriminate|].
    specialize (IH (n + sent t)).
    destruct (try_strategies fuel self session gene_name rest (n + sent t)).
    exact IH.
  - specialize (IH (n + sent t)).
    destruct (try_strategies fuel self session gene_name rest (n + sent t)).
    exact IH.
  - discriminate.
Qed.

Lemma search_by_gene_name_robust_never_raises fuel self session gene_name
    criteria n :
  fst (search_by_gene_name_robust fuel self session gene_name criteria n)
  <> Raised.
Proof.
  unfold search_by_gene_name_robust. rewrite rate_limited_request_step.
  apply try_strategies_never_raises.
Qed.

Lemma search_genes_loop_never_raises fuel self session criteria gene_names :
  forall results failed n,
    fst (search_genes_loop fuel self session criteria gene_names
           results failed n) <> Raised.
Proof.
  induction gene_names as [|raw rest IH]; intros results failed n;
    [discriminate|].
  rewrite search_genes_loop_step. cbv zeta.
  destruct (negb (Py.strip raw =? "")
            && negb (Py.has_key (Py.strip raw) results)); [|apply IH].
  pose proof (search_by_gene_name_robust_never_raises fuel self session
                (Py.strip raw) (Some criteria) n) as Hrobust.
  destruct (search_by_gene_name_robust fuel self session (Py.strip raw)
              (Some criteria) n) as [[v| |] t]; cbn [fst] in Hrobust.
  - destruct (Py.truthy v).
    + specialize (IH (Py.setitem (Py.strip raw) v results) failed
                     (n + sent t)).
      destruct (search_genes_loop fuel self session criteria rest
                  (Py.setitem (Py.strip raw) v results) failed (n + sent t)).
      exact IH.
    + specialize (IH (Py.setitem (Py.strip raw) not_found_entry results)
                     (failed ++ [Py.strip raw])%list (n + sent t)).
      destruct (search_genes_loop fuel self session criteria rest
                  (Py.setitem (Py.strip raw) not_found_entry results)
                  (failed ++ [Py.strip raw])%list (n + sent t)).
      exact IH.
  - contradiction.
  - discriminate.
Qed.

(** X1: whatever the service replies (exceptions of the session, error
    statuses, bodies that cannot be decoded or read), no exception leaves
    [search_by_gene_name_robust], [search_by_gene_name],
    [search_multiple_genes_robust] or [search_multiple_genes]. *)
Theorem searches_never_raise fuel self session gene_name gene_names
    criteria n :
  fst (search_by_gene_name_robust fuel self session gene_name criteria n)
  <> Raised
  /\ fst (search_by_gene_name fuel self session gene_name n) <> Raised
  /\ fst (search_multiple_genes_robust fuel self session gene_names
            criteria n) <> Raised
  /\ fst (search_multiple_genes fuel self session gene_names n) <> Raised.
Proof.
  assert (Hbatch : forall c,
    fst (search_multiple_genes_robust fuel self session gene_names c n)
    <> Raised).
  { intros c. unfold search_multiple_genes_robust, bind.
    pose proof (search_genes_loop_never_raises fuel self session
                  match c with
                  | None => SearchCriteria_default
                  | Some c0 => c0
                  end gene_names [] [] n) as Hloop.
    destruct (search_genes_loop fuel self session _ gene_names [] [] n)
      as [[v| |] t]; cbn [fst] in *; [discriminate|contradiction|discriminate]. }
  split; [apply search_by_gene_name_robust_never_raises|].
  split.
  - unfold search_by_gene_name. rewrite rate_limited_request_step.
    apply search_by_gene_name_robust_never_raises.
  - split; [apply Hbatch|apply Hbatch].
Qed.

(** ** Falling back after a failed strategy *)

Lemma search_with_strategy_gives_nothing fuel self session gene_name
    criteria n :
  gives_nothing gene_name
    (session n (search_request self gene_name criteria)) = true ->
  exists r,
    _search_with_strategy (S fuel) self session gene_name criteria n
    = (r, [Get (search_request self gene_name criteria)])
    /\ (r = Raised \/ exists v, r = Done v /\ Py.truthy v = false).
Proof.
  intros H. rewrite search_with_strategy_step. cbv zeta.
  destruct (session n (search_request self gene_name criteria)) as [|resp];
    [eauto|].
  cbn [gives_nothing] in H. destruct (ok resp).
  - destruct (json_of resp) as [data|]; [|eauto].
    destruct (select_protein_info data gene_name) as [v|]; [|eauto].
    exists (Done v). split; [reflexivity|]. right. exists v.
    split; [reflexivity|]. destruct (Py.truthy v); [discriminate|reflexivity].
  - destruct (status_code resp =? 429)%Z; [discriminate|].
    exists (Done JNull). split; [reflexivity|]. right. exists JNull. auto.
Qed.

Lemma search_with_strategy_gives_candidates fuel self session gene_name
    criteria n :
  gives_candidates gene_name
    (session n (search_request self gene_name criteria)) = true ->
  exists resp data info,
    session n (search_request self gene_name criteria) = Answers resp
    /\ body resp = Some data
    /\ select_protein_info data gene_name = Val info
    /\ Py.truthy info = true
    /\ _search_with_strategy (S fuel) self session gene_name criteria n
       = (Done info, [Get (search_request self gene_name criteria)]).
Proof.
  intros H. rewrite search_with_strategy_step. cbv zeta.
  destruct (session n (search_request self gene_name criteria)) as [|resp];
    [discriminate|].
  cbn [gives_candidates] in H. apply andb_prop in H as [Hok H].
  destruct (body resp) as [data|] eqn:Hbody; [|discriminate].
  destruct (Py.get data "results" (JArr [])) as [[| | | |[|r rest]|]|] eqn:Hget;
    try discriminate.
  destruct (canonical_selection_total data gene_name (r :: rest) Hget
              ltac:(discriminate) H) as (fields & names & Hsel).
  exists resp, data, (JObj (fields ++ annotations (r :: rest) names)).
  rewrite Hok. unfold json_of. rewrite Hbody, Hsel.
  repeat split; try reflexivity. apply truthy_protein_info.
Qed.

Lemma try_strategies_fall_back fuel self session gene_name s later :
  forall before n,
    (forall i s', nth_error before i = Some s' ->
       gives_nothing gene_name
         (session (n + i) (search_request self gene_name s')) = true) ->
    gives_candidates gene_name
      (session (n + List.length before) (search_request self gene_name s))
    = true ->
    exists resp data info,
      session (n + List.length before) (search_request self gene_name s)
      = Answers resp
      /\ body resp = Some data
      /\ select_protein_info data gene_name = Val info
      /\ try_strategies (S fuel) self session gene_name
           (before ++ s :: later) n
         = (Done info,
            map (fun c => Get (search_request self gene_name c))
                (before ++ [s])).
Proof.
  induction before as [|b before IH]; intros n Hfail Hgood.
  - cbn [List.length app map] in *. rewrite Nat.add_0_r in *.
    destruct (search_with_strategy_gives_candidates fuel _ _ _ _ _ Hgood)
      as (resp & data & info & Hreply & Hbody & Hsel & Htruthy & Hrun).
    exists resp, data, info. repeat split; try assumption.
    rewrite try_strategies_step, Hrun, Htruthy. reflexivity.
  - cbn [List.length app map] in *.
    destruct (IH (S n)) as (resp & data & info & Hreply & Hbody & Hsel & Hrun).
    { intros i s' Hi. replace (S n + i) with (n + S i) by lia.
      apply Hfail. exact Hi. }
    { replace (S n + List.length before) with (n + S (List.length before))
        by lia. exact Hgood. }
    replace (S n + List.length before) with (n + S (List.length before))
      in Hreply by lia.
    exists resp, data, info. repeat split; try assumption.
    specialize (Hfail 0 b eq_refl). rewrite Nat.add_0_r in Hfail.
    destruct (search_with_strategy_gives_nothing fuel _ _ _ _ _ Hfail)
      as (r & Hb & Hr).
    rewrite try_strategies_step, Hb.
    cbn [sent requests_of flat_map app List.length].
    replace (n + 1) with (S n) by lia.
    destruct Hr as [->|(v & -> & Hv)]; [|rewrite Hv]; rewrite Hrun;
      reflexivity.
Qed.

(** X2: a strategy that fails (its request raises, meets an error status
    other than 429, or gets a body that cannot be read or holds no result)
    does not end the search: when the strategies before some strategy all
    fail and that strategy gets readable entries, the search returns the
    selection made from them, after one request per strategy tried and none
    for the strategies after it. *)
Theorem search_falls_back_after_failures fuel self session gene_name criteria
    n before s later :
  0 < fuel ->
  strategies match criteria with
             | None => SearchCriteria_default
             | Some c => c
             end = (before ++ s :: later)%list ->
  (forall i s', nth_error before i = Some s' ->
     gives_nothing gene_name
       (session (n + i) (search_request self gene_name s')) = true) ->
  gives_candidates gene_name
    (session (n + List.length before) (search_request self gene_name s))
  = true ->
  exists resp data info,
    session (n + List.length before) (search_request self gene_name s)
    = Answers resp
    /\ body resp = Some data
    /\ select_protein_info data gene_name = Val info
    /\ search_by_gene_name_robust fuel self session gene_name criteria n
       = (Done info,
          Pace :: map (fun c => Get (search_request self gene_name c))
                      (before ++ [s]))
    /\ sent (snd (search_by_gene_name_robust fuel self session gene_name
                    criteria n)) = S (List.length before).
Proof.
  intros Hfuel Hplan Hfail Hgood.
  destruct fuel as [|fuel]; [lia|].
  destruct (try_strategies_fall_back fuel self session gene_name s later
              before n Hfail Hgood)
    as (resp & data & info & Hreply & Hbody & Hsel & Hrun).
  exists resp, data, info.
  assert (Hrobust :
    search_by_gene_name_robust (S fuel) self session gene_name criteria n
    = (Done info,
       Pace :: map (fun c => Get (search_request self gene_name c))
                   (before ++ [s]))).
  { unfold search_by_gene_name_robust.
    rewrite rate_limited_request_step, Hplan, Hrun. reflexivity. }
  repeat split; try assumption.
  rewrite Hrobust. cbn [snd].
  change (Pace :: ?l) with ([Pace] ++ l)%list.
  rewrite sent_app. unfold sent at 2.
  rewrite <- (map_map (search_request self gene_name) Get).
  rewrite requests_of_map_get, length_map, length_app. cbn. lia.
Qed.

Lemma search_falls_back_after_failures_witness :
  exists info,
    search_by_gene_name_robust 1 Sample.fetcher Demo.recovering "TP53" None 0
    = (Done info,
       Pace :: map (fun c => Get (search_request Sample.fetcher "TP53" c))
                   (firstn 3 (strategies SearchCriteria_default))).
Proof.
  destruct (search_falls_back_after_failures 1 Sample.fetcher Demo.recovering
              "TP53" None 0
              (firstn 2 (strategies SearchCriteria_default))
              (nth 2 (strategies SearchCriteria_default)
                   SearchCriteria_default)
              (skipn 3 (strategies SearchCriteria_default))
              (le_n 1) eq_refl)
    as (resp & data & info & _ & _ & _ & Hrun & _).
  - intros [|[|i]] s' Hi; try (injection Hi as <-; reflexivity).
    destruct i; discriminate Hi.
  - reflexivity.
  - exists info. exact Hrun.
Defined.

(** ** What a returned entry looks like *)

(** Every value [select_protein_info] returns: [None], or the extracted
    fields of the selected entry followed by the annotations. *)
Lemma select_protein_info_value data gene_name v :
  select_protein_info data gene_name = Val v ->
  v = JNull
  \/ exists results canonical fields names,
       Py.get data "results" (JArr []) = Val (JArr results)
       /\ results <> []
       /\ hd_error (restrict_to_reviewed results) = Some canonical
       /\ _extract_protein_info canonical gene_name = Val (JObj fields)
       /\ v = JObj (fields ++ annotations results names)
       /\ ((1 <? List.length results)%nat = true ->
           forallb is_dict results = true
           /\ comprehension protein_name_of results = Val names).
Proof.
  intros H.
  destruct (Py.get data "results" (JArr [])) as [results|] eqn:Hget.
  2:{ unfold select_protein_info in H. rewrite Hget in H. discriminate H. }
  destruct results as [|b|z|s|items|fields].
  - unfold select_protein_info in H. rewrite Hget in H.
    injection H as <-. left. reflexivity.
  - unfold select_protein_info in H. rewrite Hget in H.
    destruct b; [discriminate H|]. injection H as <-. left. reflexivity.
  - unfold select_protein_info in H. rewrite Hget in H. cbn in H.
    destruct (negb (z =? 0)%Z); [discriminate H|].
    injection H as <-. left. reflexivity.
  - unfold select_protein_info in H. rewrite Hget in H.
    destruct s as [|c1 [|c2 s]]; try discriminate H.
    injection H as <-. left. reflexivity.
  - destruct items as [|r1 [|r2 rest]].
    + unfold select_protein_info in H. rewrite Hget in H.
      injection H as <-. left. reflexivity.
    + right. rewrite (select_protein_info_single _ _ _ Hget) in H.
      destruct (_extract_protein_info r1 gene_name)
        as [[| | | | |fields]|] eqn:Hx; try discriminate H.
      injection H as <-.
      exists [r1], r1, fields, [].
      rewrite restrict_single.
      repeat split; try reflexivity; try assumption; try discriminate.
    + right. rewrite (select_protein_info_multi _ _ _ _ _ Hget) in H.
      destruct (forallb is_dict (r1 :: r2 :: rest)) eqn:Hdicts;
        [|discriminate H].
      destruct (hd_error (restrict_to_reviewed (r1 :: r2 :: rest)))
        as [canonical|] eqn:Hhd; [|discriminate H].
      destruct (_extract_protein_info canonical gene_name)
        as [[| | | | |fields]|] eqn:Hx; try discriminate H.
      destruct (comprehension protein_name_of (r1 :: r2 :: rest))
        as [names|] eqn:Hnames; [|discriminate H].
      injection H as <-.
      exists (r1 :: r2 :: rest), canonical, fields, names.
      repeat split; try reflexivity; try assumption; try discriminate.
  - unfold select_protein_info in H. rewrite Hget in H.
    destruct fields as [|[k1 v1] [|[k2 v2] fields]]; try discriminate H.
    injection H as <-. left. reflexivity.
Qed.

Lemma protein_info_has_no_error canonical gene_name fields results names :
  _extract_protein_info canonical gene_name = Val (JObj fields) ->
  Py.has_key "error" (fields ++ annotations results names) = false.
Proof.
  intros Hx.
  destruct (extract_protein_info_shape _ _ _ Hx)
    as (i & g & p & s & o & rv & e & Hv).
  injection Hv as ->. unfold annotations.
  destruct (1 <? List.length results)%nat; reflexivity.
Qed.

(** A value of [_search_with_strategy] is [None] or was selected from a
    response. *)
Lemma search_with_strategy_value fuel self session gene_name criteria :
  forall n v t,
    _search_with_strategy fuel self session gene_name criteria n = (Done v, t) ->
    v = JNull \/ exists data, select_protein_info data gene_name = Val v.
Proof.
  induction fuel as [|fuel IH]; intros n v t H; [discriminate H|].
  rewrite search_with_strategy_step in H. cbv zeta in H.
  destruct (session n (search_request self gene_name criteria)) as [|resp];
    [discriminate H|].
  destruct (ok resp).
  - destruct (json_of resp) as [data|]; [|discriminate H].
    destruct (select_protein_info data gene_name) as [w|] eqn:Hsel;
      [|discriminate H].
    injection H as <- _. right. exists data. exact Hsel.
  - destruct (status_code resp =? 429)%Z.
    + destruct (retry_after_seconds resp) as [w|]; [|discriminate H].
      destruct (w <? 0)%Z; [discriminate H|].
      destruct (_search_with_strategy fuel self session gene_name criteria
                  (S n)) as [r t'] eqn:Hrec.
      injection H as -> _. apply (IH _ _ _ Hrec).
    + injection H as <- _. left. reflexivity.
Qed.

Lemma try_strategies_value fuel self session gene_name todo :
  forall n v t,
    try_strategies fuel self session gene_name todo n = (Done v, t) ->
    v = JNull \/ exists data, select_protein_info data gene_name = Val v.
Proof.
  induction todo as [|s rest IH]; intros n v t H.
  - injection H as <- _. left. reflexivity.
  - rewrite try_strategies_step in H.
    destruct (_search_with_strategy fuel self session gene_name s n)
      as [[w| |] t1] eqn:Hs.
    + destruct (Py.truthy w).
      * injection H as <- _. apply (search_with_strategy_value _ _ _ _ _ _ _ _ Hs).
      * destruct (try_strategies fuel self session gene_name rest
                    (n + sent t1)) as [r t2] eqn:Hrest.
        injection H as -> _. apply (IH _ _ _ Hrest).
    + destruct (try_strategies fuel self session gene_name rest
                  (n + sent t1)) as [r t2] eqn:Hrest.
      injection H as -> _. apply (IH _ _ _ Hrest).
    + discriminate H.
Qed.

(** What a search returns when it finds a protein: a dictionary made of the
    extracted fields of an entry and the annotations; it has no key
    [error]. *)
Lemma search_by_gene_name_robust_value fuel self session gene_name criteria
    n v :
  fst (search_by_gene_name_robust fuel self session gene_name criteria n)
  = Done v ->
  Py.truthy v = true ->
  exists canonical fields results names,
    _extract_protein_info canonical gene_name = Val (JObj fields)
    /\ v = JObj (fields ++ annotations results names)
    /\ Py.has_key "error" (fields ++ annotations results names) = false.
Proof.
  unfold search_by_gene_name_robust. rewrite rate_limited_request_step.
  cbn [fst]. intros Hrun Htruthy.
  destruct (try_strategies fuel self session gene_name _ n) as [r t] eqn:Htry.
  cbn [fst] in Hrun. subst r.
  destruct (try_strategies_value _ _ _ _ _ _ _ _ Htry) as [->|[data Hsel]];
    [discriminate Htruthy|].
  destruct (select_protein_info_value _ _ _ Hsel)
    as [->|(results & canonical & fields & names & _ & _ & _ & Hx & -> & _)];
    [discriminate Htruthy|].
  exists canonical, fields, results, names.
  split; [exact Hx|]. split; [reflexivity|].
  apply (protein_info_has_no_error _ _ _ _ _ Hx).
Qed.

(** X3: in the report of a batch search the key [error] tells the failures
    apart: an entry has it exactly when it is the entry "Gene not found after
    all strategies"; every other entry is a dictionary returned by the search
    of its symbol, without that key. *)
Theorem batch_entries_error_key fuel bound self session gene_names criteria
    n :
  settles bound session ->
  bound < fuel ->
  exists report,
    fst (search_multiple_genes_robust fuel self session gene_names criteria n)
    = Done report
    /\ forall g v,
         In (g, v) report ->
         exists info,
           v = JObj info
           /\ (Py.has_key "error" info = true <-> v = not_found_entry)
           /\ (Py.has_key "error" info = false ->
               exists m,
                 fst (search_by_gene_name_robust fuel self session g
                        criteria m) = Done v).
Proof.
  intros Hsettles Hfuel.
  unfold search_multiple_genes_robust, bind.
  set (c := match criteria with
            | None => SearchCriteria_default
            | Some c => c
            end).
  destruct (search_genes_loop_keys fuel bound self session c Hsettles Hfuel
              gene_names [] [] n)
    as (report & failed & Hdone & _ & Hvalues).
  destruct (search_genes_loop fuel self session c gene_names [] [] n)
    as [r t].
  cbn [fst] in Hdone. subst r. cbn [ret fst snd].
  exists report. split; [reflexivity|].
  intros g v Hin.
  destruct (Hvalues g v Hin) as [[]|[->|(m & Hm & Htruthy)]].
  - exists [("error", JStr "Gene not found after all strategies")].
    split; [reflexivity|]. split; [split; reflexivity|].
    intros Hno. discriminate Hno.
  - destruct (search_by_gene_name_robust_value _ _ _ _ _ _ _ Hm Htruthy)
      as (canonical & fields & results & names & Hx & -> & Hno).
    exists (fields ++ annotations results names)%list.
    split; [reflexivity|]. split.
    + split.
      * intros Hyes. congruence.
      * intros Heq. unfold not_found_entry in Heq. injection Heq as Heq.
        rewrite Heq in Hno. discriminate Hno.
    + intros _. exists m. destruct criteria; exact Hm.
Qed.

Lemma batch_entries_error_key_witness :
  exists report,
    fst (search_multiple_genes_robust 1 Sample.fetcher Sample.tp53_only
           ["TP53"; "NOTAREALGENE123"] None 0) = Done report
    /\ forall g v, In (g, v) report ->
         exists info, v = JObj info
           /\ (Py.has_key "error" info = true <-> v = not_found_entry).
Proof.
  destruct (batch_entries_error_key 1 0 Sample.fetcher Sample.tp53_only
              ["TP53"; "NOTAREALGENE123"] None 0)
    as (report & Hdone & Hentries).
  - intros n req. exists 0. split; [apply le_n|].
    unfold Sample.tp53_only.
    destruct (req_query req =? _); reflexivity.
  - apply le_n.
  - exists report. split; [exact Hdone|].
    intros g v Hin. destruct (Hentries g v Hin) as (info & Hv & Hiff & _).
    exists info. split; [exact Hv|exact Hiff].
Defined.

(** ** The label of a selection *)

Lemma existsb_false_filter {A} (f : A -> bool) l :
  existsb f l = false -> forallb (fun x => negb (f x)) l = true.
Proof.
  induction l as [|x l IH]; [reflexivity|].
  cbn. destruct (f x); [discriminate|]. exact IH.
Qed.

Lemma hd_filter_marked results canonical :
  hd_error (filter marked_reviewed results) = Some canonical ->
  marked_reviewed canonical = true.
Proof.
  intros H.
  assert (Hin : In canonical (filter marked_reviewed results)).
  { destruct (filter marked_reviewed results); [discriminate H|].
    injection H as ->. left. reflexivity. }
  apply filter_In in Hin. tauto.
Qed.

Lemma comprehension_length f items values :
  comprehension f items = Val values ->
  List.length values = List.length items.
Proof.
  revert values. induction items as [|r rest IH]; intros values H.
  - injection H as <-. reflexivity.
  - cbn [comprehension] in H. exn_inv H. injection H as <-.
    cbn. rewrite (IH _ eq_refl). reflexivity.
Qed.

(** X4: the [selected_result] of a returned dictionary tells how its entry
    was chosen.  "Single result": the response had one entry.  "First
    reviewed entry": it had several, and the entry is the first one carrying
    the mark.  "First result": it had several, none carrying the mark, and
    the entry is the first of the response.  With several entries,
    [total_results], [all_accessions] and [all_protein_names] all count the
    entries of the response. *)
Theorem selected_result_tells_the_choice data gene_name info :
  select_protein_info data gene_name = Val (JObj info) ->
  exists results canonical label,
    Py.get data "results" (JArr []) = Val (JArr results)
    /\ Py.lookup "accession" info = Some (accession_of canonical)
    /\ Py.lookup "selected_result" info = Some (JStr label)
    /\ ((label = "Single result" /\ results = [canonical])
        \/ (1 < List.length results
            /\ ((label = "First reviewed entry"
                 /\ hd_error (filter marked_reviewed results) = Some canonical
                 /\ marked_reviewed canonical = true)
                \/ (label = "First result"
                    /\ hd_error results = Some canonical
                    /\ forallb (fun r => negb (marked_reviewed r)) results
                       = true))
            /\ exists accessions names,
                 Py.lookup "all_accessions" info = Some (JArr accessions)
                 /\ Py.lookup "all_protein_names" info = Some (JArr names)
                 /\ Py.lookup "total_results" info
                    = Some (JNum (Z.of_nat (List.length results)))
                 /\ List.length accessions = List.length results
                 /\ List.length names = List.length results)).
Proof.
  intros Hsel.
  destruct (select_protein_info_value _ _ _ Hsel)
    as [Hnull|(results & canonical & fields & names & Hget & Hne & Hhd & Hx
               & Hv & Hmulti)]; [discriminate Hnull|].
  injection Hv as ->.
  destruct (extract_protein_info_shape _ _ _ Hx)
    as (i & g & p & s & o & rv & e & Hshape).
  injection Hshape as ->.
  exists results, canonical.
  destruct results as [|r1 [|r2 rest]]; [contradiction| |].
  - rewrite restrict_single in Hhd. injection Hhd as ->.
    exists "Single result". repeat split; try assumption.
    left. split; reflexivity.
  - destruct (Hmulti eq_refl) as (Hdicts & Hnames).
    unfold restrict_to_reviewed in Hhd. unfold annotations.
    cbn [List.length Nat.ltb Nat.leb].
    destruct (existsb marked_reviewed (r1 :: r2 :: rest)) eqn:Hany.
    + exists "First reviewed entry".
      split; [exact Hget|]. split; [reflexivity|]. split; [reflexivity|].
      right. split; [cbn [List.length]; lia|]. split.
      * left. split; [reflexivity|]. split; [exact Hhd|].
        apply (hd_filter_marked _ _ Hhd).
      * exists (map accession_of (r1 :: r2 :: rest)), names.
        split; [reflexivity|]. split; [reflexivity|].
        split; [reflexivity|]. split; [apply length_map|].
        apply (comprehension_length _ _ _ Hnames).
    + exists "First result".
      split; [exact Hget|]. split; [reflexivity|]. split; [reflexivity|].
      right. split; [cbn [List.length]; lia|]. split.
      * right. split; [reflexivity|]. split; [exact Hhd|].
        apply existsb_false_filter, Hany.
      * exists (map accession_of (r1 :: r2 :: rest)), names.
        split; [reflexivity|]. split; [reflexivity|].
        split; [reflexivity|]. split; [apply length_map|].
        apply (comprehension_length _ _ _ Hnames).
Qed.

Lemma selected_result_tells_the_choice_witness :
  exists label,
    Py.lookup "selected_result" Demo.marked_second_info = Some (JStr label)
    /\ Py.lookup "accession" Demo.marked_second_info = Some (JStr "P04637").
Proof.
  destruct (selected_result_tells_the_choice
              (Sample.body_of Sample.marked_second) "TP53"
              Demo.marked_second_info eq_refl)
    as (results & canonical & label & _ & _ & Hlabel & _).
  exists label. split; [exact Hlabel|reflexivity].
Defined.

(** ** One search per symbol *)

Lemma paces_of_app t1 t2 : paces_of (t1 ++ t2) = paces_of t1 + paces_of t2.
Proof. unfold paces_of. rewrite filter_app, length_app. reflexivity. Qed.

Lemma search_with_strategy_no_pace fuel self session gene_name criteria :
  forall n,
    paces_of (snd (_search_with_strategy fuel self session gene_name
                     criteria n)) = 0.
Proof.
  induction fuel as [|fuel IH]; intros n; [reflexivity|].
  rewrite search_with_strategy_step. cbv zeta.
  destruct (session n (search_request self gene_name criteria)) as [|resp];
    [reflexivity|].
  destruct (ok resp).
  - destruct (json_of resp) as [data|]; [|reflexivity].
    destruct (select_protein_info data gene_name); reflexivity.
  - destruct (status_code resp =? 429)%Z; [|reflexivity].
    destruct (retry_after_seconds resp) as [w|]; [|reflexivity].
    destruct (w <? 0)%Z; [reflexivity|].
    specialize (IH (S n)).
    destruct (_search_with_strategy fuel self session gene_name criteria (S n)).
    exact IH.
Qed.

Lemma try_strategies_no_pace fuel self session gene_name todo :
  forall n,
    paces_of (snd (try_strategies fuel self session gene_name todo n)) = 0.
Proof.
  induction todo as [|s rest IH]; intros n; [reflexivity|].
  rewrite try_strategies_step.
  pose proof (search_with_strategy_no_pace fuel self session gene_name s n)
    as Hs.
  destruct (_search_with_strategy fuel self session gene_name s n)
    as [[v| |] t]; cbn [snd] in Hs.
  - destruct (Py.truthy v); [exact Hs|].
    specialize (IH (n + sent t)).
    destruct (try_strategies fuel self session gene_name rest (n + sent t)).
    cbn [snd] in *. rewrite paces_of_app. lia.
  - specialize (IH (n + sent t)).
    destruct (try_strategies fuel self session gene_name rest (n + sent t)).
    cbn [snd] in *. rewrite paces_of_app. lia.
  - exact Hs.
Qed.

(** One search: one pause of the decorator, and at most four requests more
    than waits. *)
Lemma search_by_gene_name_robust_cost fuel self session gene_name criteria n :
  let t := snd (search_by_gene_name_robust fuel self session gene_name
                  criteria n) in
  paces_of t = 1 /\ sent t <= 4 + List.length (sleeps_of t).
Proof.
  cbv zeta. unfold search_by_gene_name_robust.
  rewrite rate_limited_request_step. cbn [snd].
  change (Pace :: ?t) with ([Pace] ++ t)%list.
  rewrite paces_of_app, sent_app, sleeps_of_app, try_strategies_no_pace.
  split; [reflexivity|].
  pose proof (try_strategies_requests fuel self session gene_name
                (strategies match criteria with
                            | None => SearchCriteria_default
                            | Some c => c
                            end) n) as Hbound.
  cbv zeta in Hbound. cbn [strategies List.length] in Hbound.
  cbn. exact Hbound.
Qed.

Lemma length_setitem_new k v results :
  Py.has_key k results = false ->
  List.length (Py.setitem k v results) = S (List.length results).
Proof.
  intros H. rewrite <- (length_map fst), (keys_setitem_new _ _ _ H).
  rewrite length_app, length_map. cbn. lia.
Qed.

Lemma search_genes_loop_cost fuel self session criteria gene_names :
  forall results failed n results' failed' t,
    search_genes_loop fuel self session criteria gene_names results failed n
    = (Done (results', failed'), t) ->
    List.length results' = List.length results + paces_of t
    /\ sent t <= 4 * paces_of t + List.length (sleeps_of t).
Proof.
  induction gene_names as [|raw rest IH];
    intros results failed n results' failed' t H.
  - injection H as <- _ <-. cbn. lia.
  - rewrite search_genes_loop_step in H. cbv zeta in H.
    destruct (negb (Py.strip raw =? "")) eqn:Hblank; cbn [andb] in H;
      [|apply (IH _ _ _ _ _ _ H)].
    destruct (Py.has_key (Py.strip raw) results) eqn:Hkey; cbn [negb] in H;
      [apply (IH _ _ _ _ _ _ H)|].
    pose proof (search_by_gene_name_robust_cost fuel self session
                  (Py.strip raw) (Some criteria) n) as Hcost.
    cbv zeta in Hcost.
    destruct (search_by_gene_name_robust fuel self session (Py.strip raw)
                (Some criteria) n) as [[v| |] t1];
      [|discriminate H|discriminate H].
    cbn [snd] in Hcost. destruct Hcost as [Hpace Hsent].
    destruct (Py.truthy v).
    + destruct (search_genes_loop fuel self session criteria rest
                  (Py.setitem (Py.strip raw) v results) failed (n + sent t1))
        as [r t2] eqn:Hrest.
      injection H as -> <-.
      destruct (IH _ _ _ _ _ _ Hrest) as [Hlen Hreq].
      rewrite (length_setitem_new _ _ _ Hkey) in Hlen.
      rewrite paces_of_app, sent_app, sleeps_of_app, length_app. lia.
    + destruct (search_genes_loop fuel self session criteria rest
                  (Py.setitem (Py.strip raw) not_found_entry results)
                  (failed ++ [Py.strip raw])%list (n + sent t1))
        as [r t2] eqn:Hrest.
      injection H as -> <-.
      destruct (IH _ _ _ _ _ _ Hrest) as [Hlen Hreq].
      rewrite (length_setitem_new _ _ _ Hkey) in Hlen.
      rewrite paces_of_app, sent_app, sleeps_of_app, length_app. lia.
Qed.

(** X5: a batch search makes one paced search per entry of its report, that
    is one per distinct non-blank symbol: a symbol that occurs again in the
    input is not searched again.  It sends at most four requests per entry,
    plus one for every rate-limit wait. *)
Theorem batch_searches_each_symbol_once fuel bound self session gene_names
    criteria n :
  settles bound session ->
  bound < fuel ->
  exists report t,
    search_multiple_genes_robust fuel self session gene_names criteria n
    = (Done report, t)
    /\ List.length report = List.length (batch_keys gene_names)
    /\ paces_of t = List.length report
    /\ sent t <= 4 * List.length report + List.length (sleeps_of t).
Proof.
  intros Hsettles Hfuel.
  unfold search_multiple_genes_robust, bind.
  set (c := match criteria with
            | None => SearchCriteria_default
            | Some c => c
            end).
  destruct (search_genes_loop_keys fuel bound self session c Hsettles Hfuel
              gene_names [] [] n)
    as (report & failed & Hdone & Hkeys & _).
  destruct (search_genes_loop fuel self session c gene_names [] [] n)
    as [r t] eqn:Hloop.
  cbn [fst] in Hdone. subst r. cbn [ret fst snd].
  destruct (search_genes_loop_cost _ _ _ _ _ _ _ _ _ _ _ Hloop)
    as [Hlen Hreq].
  cbn [List.length] in Hlen.
  exists report, (t ++ [])%list. rewrite app_nil_r.
  split; [reflexivity|].
  split; [rewrite <- (length_map fst), Hkeys; reflexivity|].
  split; lia.
Qed.

Lemma batch_searches_each_symbol_once_witness :
  exists report t,
    search_multiple_genes_robust 1 Sample.fetcher Sample.tp53_only
      ["TP53"; "TP53 "; "TP53"] None 0 = (Done report, t)
    /\ paces_of t = 1.
Proof.
  destruct (batch_searches_each_symbol_once 1 0 Sample.fetcher
              Sample.tp53_only ["TP53"; "TP53 "; "TP53"] None 0)
    as (report & t & Hrun & Hlen & Hpaces & _).
  - intros n req. exists 0. split; [apply le_n|].
    unfold Sample.tp53_only.
    destruct (req_query req =? _); reflexivity.
  - apply le_n.
  - exists report, t. split; [exact Hrun|].
    rewrite Hpaces, Hlen. reflexivity.
Defined.

(** ** The extracted record *)

(** X6: the [reviewed] field of an extracted record is read off the entry
    type alone: it is true exactly when the entry has an [entryType] that is a
    string starting with "UniProtKB reviewed"; the entry's own key [reviewed],
    which the selection tests, plays no part.  The [accession] is the entry's
    [primaryAccession], [None] when it has none. *)
Theorem reviewed_field_follows_entry_type fields gene_name info :
  _extract_protein_info (JObj fields) gene_name = Val (JObj info) ->
  exists b,
    Py.lookup "reviewed" info = Some (JBool b)
    /\ (b = true <->
        exists s, Py.lookup "entryType" fields = Some (JStr s)
                  /\ String.prefix "UniProtKB reviewed" s = true)
    /\ Py.lookup "accession" info
       = Some match Py.lookup "primaryAccession" fields with
              | Some a => a
              | None => JNull
              end.
Proof.
  unfold _extract_protein_info. intros H. exn_inv H. injection H as <-.
  match goal with
  | Et : Py.get _ "entryType" (JStr "") = Val ?a,
    Es : Py.startswith ?a _ = Val ?b,
    Ea : Py.get _ "primaryAccession" JNull = Val _ |- _ =>
      cbn in Et, Ea; injection Et as <-; injection Ea as <-; exists b
  end.
  split; [reflexivity|]. split; [|reflexivity].
  match goal with Es : Py.startswith _ _ = Val _ |- _ => rename Es into Hs end.
  destruct (Py.lookup "entryType" fields) as [[| | |s| |]|];
    try discriminate Hs.
  - injection Hs as <-. split.
    + intros Hb. exists s. split; [reflexivity|exact Hb].
    + intros (s' & Heq & Hp). injection Heq as <-. exact Hp.
  - injection Hs as <-. split; [discriminate|].
    intros (s' & Heq & _). discriminate Heq.
Qed.

Lemma reviewed_field_follows_entry_type_witness :
  exists info b,
    _extract_protein_info
      (JObj [("primaryAccession", JStr "P04637");
             ("entryType", JStr "UniProtKB reviewed (Swiss-Prot)");
             ("reviewed", JBool false)]) "TP53" = Val (JObj info)
    /\ Py.lookup "reviewed" info = Some (JBool b).
Proof.
  eexists. 
  assert (Hx : _extract_protein_info
      (JObj [("primaryAccession", JStr "P04637");
             ("entryType", JStr "UniProtKB reviewed (Swiss-Prot)");
             ("reviewed", JBool false)]) "TP53"
      = Val (JObj [("accession", JStr "P04637"); ("id", JNull);
                   ("gene_names", JStr "TP53");
                   ("protein_name", JStr "Unknown"); ("sequence", JNull);
                   ("organism", JStr "Unknown"); ("reviewed", JBool true);
                   ("entry_type", JStr "UniProtKB reviewed (Swiss-Prot)")]))
    by reflexivity.
  destruct (reviewed_field_follows_entry_type _ _ _ Hx) as (b & Hb & _).
  exists b. split; [exact Hx|exact Hb].
Defined.

(** ** The queries of the four strategies *)

Lemma length_append (s t : string) :
  String.length (s ++ t) = String.length s + String.length t.
Proof. induction s as [|c s IH]; cbn; [reflexivity|]. rewrite IH. reflexivity. Qed.

Lemma append_assoc (s t u : string) : ((s ++ t) ++ u)%string = (s ++ t ++ u)%string.
Proof. induction s as [|c s IH]; cbn; [reflexivity|]. rewrite IH. reflexivity. Qed.

Lemma append_nil_r (s : string) : (s ++ "")%string = s.
Proof. induction s as [|c s IH]; cbn; [reflexivity|]. rewrite IH. reflexivity. Qed.

(** The clause a query has for the organism. *)
Lemma build_search_query_shape gene_name criteria :
  _build_search_query gene_name criteria
  = ((if exact_match criteria then "gene_exact:" else "gene:")
     ++ gene_name
     ++ match organism_id criteria with
        | Some o => if o =? "" then "" else " AND organism_id:" ++ o
        | None => ""
        end
     ++ (if reviewed_only criteria then " AND reviewed:true" else ""))%string.
Proof.
  unfold _build_search_query.
  destruct (exact_match criteria), (reviewed_only criteria),
    (organism_id criteria) as [o|]; try destruct (o =? "");
    cbn; rewrite ?append_assoc, ?append_nil_r; reflexivity.
Qed.

(** X7: the four strategies of a search never repeat a query: for every gene
    symbol and base criteria their queries are pairwise different, each made
    of the gene clause with the symbol as given, the organism clause when
    the organism id is a non-empty string, and the clause "reviewed:true"
    for the first and the third. *)
Theorem strategy_queries_differ gene_name criteria :
  NoDup (map (_build_search_query gene_name) (strategies criteria))
  /\ map (_build_search_query gene_name) (strategies criteria)
     = (let org := match organism_id criteria with
                   | Some o => if o =? "" then "" else " AND organism_id:" ++ o
                   | None => ""
                   end in
        ["gene_exact:" ++ gene_name ++ org ++ " AND reviewed:true";
         "gene_exact:" ++ gene_name ++ org ++ "";
         "gene:" ++ gene_name ++ org ++ " AND reviewed:true";
         "gene:" ++ gene_name ++ org ++ ""])%string.
Proof.
  assert (Hq : map (_build_search_query gene_name) (strategies criteria)
     = (let org := match organism_id criteria with
                   | Some o => if o =? "" then "" else " AND organism_id:" ++ o
                   | None => ""
                   end in
        ["gene_exact:" ++ gene_name ++ org ++ " AND reviewed:true";
         "gene_exact:" ++ gene_name ++ org ++ "";
         "gene:" ++ gene_name ++ org ++ " AND reviewed:true";
         "gene:" ++ gene_name ++ org ++ ""])%string).
  { unfold strategies. cbn [map]. rewrite !build_search_query_shape.
    reflexivity. }
  split; [|exact Hq]. rewrite Hq. cbv zeta.
  set (org := match organism_id criteria with
              | Some o => if o =? "" then "" else (" AND organism_id:" ++ o)%string
              | None => ""
              end).
  assert (Hlen : forall p : string,
            (p ++ gene_name ++ org ++ " AND reviewed:true")%string
            <> (p ++ gene_name ++ org ++ "")%string).
  { intros p H. apply (f_equal String.length) in H.
    rewrite !length_append in H. cbn in H. lia. }
  repeat constructor; cbn [In]; intros H.
  - destruct H as [H|[H|[H|[]]]].
    + symmetry in H. apply (Hlen "gene_exact:" H).
    + discriminate H.
    + discriminate H.
  - destruct H as [H|[H|[]]]; discriminate H.
  - destruct H as [H|[]]. symmetry in H. apply (Hlen "gene:" H).
  - exact H.
Qed.

(** * Fetching sequences *)

(** One call of [fetch_protein_sequence], by cases on the reply. *)
Lemma fetch_protein_sequence_step fuel caught self session protein_id n :
  let req := sequence_request self protein_id in
  fetch_protein_sequence (S fuel) caught self session protein_id n =
  match session n req with
  | Raises => (Done JNull, [Pace; Get req])
  | Answers resp =>
      if ok resp then
        match body resp with
        | Some data =>
            match sequence_value data with
            | Val v => (Done v, [Pace; Get req])
            | Exn => (Raised, [Pace; Get req])
            end
        | None => (if caught then Done JNull else Raised, [Pace; Get req])
        end
      else if (status_code resp =? 429)%Z then
        match retry_after_seconds resp with
        | Val w =>
            if (w <? 0)%Z then (Raised, [Pace; Get req])
            else
              let (r, t) :=
                fetch_protein_sequence fuel caught self session protein_id
                                       (S n) in
              (r, Pace :: Get req :: Sleep w :: t)
        | Exn => (Raised, [Pace; Get req])
        end
      else (Done JNull, [Pace; Get req])
  end.
Proof.
  intros req. cbn [fetch_protein_sequence]. fold req.
  rewrite rate_limited_request_step.
  unfold bind, session_get_caught.
  destruct (session n req) as [|resp]; [reflexivity|].
  cbn [fst snd sent requests_of flat_map app List.length].
  destruct (ok resp).
  - destruct (body resp) as [data|].
    + fold (sequence_value data). unfold lift.
      destruct (sequence_value data); reflexivity.
    + destruct caught; reflexivity.
  - destruct (status_code resp =? 429)%Z; [|reflexivity].
    unfold lift, time_sleep.
    destruct (retry_after_seconds resp) as [w|]; [|reflexivity].
    destruct (w <? 0)%Z; [reflexivity|].
    cbn [fst snd sent requests_of flat_map app List.length].
    replace (n + 1 + 0 + 0) with (S n) by lia.
    destruct (fetch_protein_sequence fuel caught self session protein_id (S n)).
    reflexivity.
Qed.

Lemma fetch_protein_sequence_final fuel caught self session protein_id n :
  rate_limited (session n (sequence_request self protein_id)) = false ->
  fetch_protein_sequence (S fuel) caught self session protein_id n
  = fetch_protein_sequence 1 caught self session protein_id n
  /\ snd (fetch_protein_sequence 1 caught self session protein_id n)
     = [Pace; Get (sequence_request self protein_id)]
  /\ fst (fetch_protein_sequence 1 caught self session protein_id n)
     <> OutOfFuel.
Proof.
  intros Hfinal. rewrite !fetch_protein_sequence_step. cbv zeta.
  destruct (session n (sequence_request self protein_id)) as [|resp];
    [repeat split; discriminate|].
  cbn in Hfinal. destruct (ok resp).
  - destruct (body resp) as [data|].
    + destruct (sequence_value data); repeat split; discriminate.
    + destruct caught; repeat split; discriminate.
  - cbn in Hfinal. rewrite Hfinal. repeat split; discriminate.
Qed.

(** Under replies that are handled, and not 429 without end, a fetch ends
    with a value. *)
Lemma fetch_protein_sequence_returns caught self session protein_id k :
  (forall n req, sequence_reply_handled caught (session n req) = true) ->
  forall fuel n,
    k < fuel ->
    rate_limited (session (n + k) (sequence_request self protein_id))
    = false ->
    exists v,
      fst (fetch_protein_sequence fuel caught self session protein_id n)
      = Done v.
Proof.
  intros Hhandled.
  induction k as [|k IH]; intros fuel n Hfuel Hfinal;
    (destruct fuel as [|fuel]; [lia|]);
    pose proof (Hhandled n (sequence_request self protein_id)) as Hh;
    rewrite fetch_protein_sequence_step; cbv zeta.
  - rewrite Nat.add_0_r in Hfinal.
    destruct (session n (sequence_request self protein_id)) as [|resp];
      [eexists; reflexivity|].
    cbn in Hh, Hfinal. destruct (ok resp).
    + destruct (body resp) as [data|].
      * destruct (sequence_value data) as [v|]; [eexists; reflexivity|discriminate Hh].
      * subst caught. eexists. reflexivity.
    + cbn in Hfinal. rewrite Hfinal. eexists. reflexivity.
  - destruct (session n (sequence_request self protein_id)) as [|resp];
      [eexists; reflexivity|].
    cbn in Hh. destruct (ok resp).
    + destruct (body resp) as [data|].
      * destruct (sequence_value data) as [v|]; [eexists; reflexivity|discriminate Hh].
      * subst caught. eexists. reflexivity.
    + cbn in Hh. destruct (status_code resp =? 429)%Z; [|eexists; reflexivity].
      destruct (retry_after_seconds resp) as [w|]; [|discriminate Hh].
      destruct (w <? 0)%Z; [discriminate Hh|].
      destruct (IH fuel (S n)) as [v Hv]; [lia| |].
      { replace (S n + k) with (n + S k) by lia. exact Hfinal. }
      destruct (fetch_protein_sequence fuel caught self session protein_id
                  (S n)) as [r t].
      exists v. exact Hv.
Qed.

(** Every request of a fetch is paced, and a fetch that ends has sent one
    request more than it has waited. *)
Lemma fetch_protein_sequence_cost fuel caught self session protein_id :
  forall n,
    let run := fetch_protein_sequence fuel caught self session protein_id n in
    sent (snd run) = paces_of (snd run)
    /\ (fst run <> OutOfFuel ->
        sent (snd run) = 1 + List.length (sleeps_of (snd run))).
Proof.
  induction fuel as [|fuel IH]; intros n; cbv zeta.
  - split; [reflexivity|]. intros H. contradiction H. reflexivity.
  - rewrite fetch_protein_sequence_step. cbv zeta.
    destruct (session n (sequence_request self protein_id)) as [|resp];
      [split; reflexivity|].
    destruct (ok resp).
    + destruct (body resp) as [data|].
      * destruct (sequence_value data); split; reflexivity.
      * split; reflexivity.
    + destruct (status_code resp =? 429)%Z; [|split; reflexivity].
      destruct (retry_after_seconds resp) as [w|]; [|split; reflexivity].
      destruct (w <? 0)%Z; [split; reflexivity|].
      specialize (IH (S n)). cbv zeta in IH.
      destruct (fetch_protein_sequence fuel caught self session protein_id
                  (S n)) as [r t].
      cbn [fst snd] in *. destruct IH as [IH1 IH2].
      change (Pace :: Get ?q :: Sleep ?w :: ?t)
        with ([Pace; Get q; Sleep w] ++ t)%list.
      rewrite sent_app, paces_of_app, sleeps_of_app, length_app.
      split; [cbn; lia|]. intros Hr. specialize (IH2 Hr). cbn. lia.
Qed.

Lemma setitem_new k v results :
  Py.has_key k results = false ->
  Py.setitem k v results = (results ++ [(k, v)])%list.
Proof.
  unfold Py.has_key. induction results as [|[k' v'] rest IH]; [reflexivity|].
  cbn. destruct (k' =? k); [discriminate|].
  intros H. rewrite (IH H). reflexivity.
Qed.

(** One round of the loop of [fetch_multiple_sequences]. *)
Lemma fetch_sequences_loop_step fuel caught self session raw rest results
    failed n :
  fetch_sequences_loop fuel caught self session (raw :: rest) results failed n
  = let protein_id := Py.strip raw in
    if negb (protein_id =? "") && negb (Py.has_key protein_id results) then
      match fetch_protein_sequence fuel caught self session protein_id n with
      | (Done sequence, t) =>
          let (r, t') :=
            (if Py.truthy sequence then
               fetch_sequences_loop fuel caught self session rest
                 (Py.setitem protein_id sequence results) failed
             else
               fetch_sequences_loop fuel caught self session rest
                 (Py.setitem protein_id sequence_not_found results)
                 (failed ++ [protein_id])%list) (n + sent t) in
          (r, (t ++ t')%list)
      | (Raised, t) => (Raised, t)
      | (OutOfFuel, t) => (OutOfFuel, t)
      end
    else fetch_sequences_loop fuel caught self session rest results failed n.
Proof.
  cbn [fetch_sequences_loop]. cbv zeta.
  destruct (negb (Py.strip raw =? "") && negb (Py.has_key (Py.strip raw) results));
    [|reflexivity].
  unfold bind.
  destruct (fetch_protein_sequence fuel caught self session (Py.strip raw) n)
    as [[v| |] t]; reflexivity.
Qed.

(** What the loop of [fetch_multiple_sequences] builds. *)
Lemma fetch_sequences_loop_spec fuel bound caught self session :
  settles bound session ->
  (forall n req, sequence_reply_handled caught (session n req) = true) ->
  bound < fuel ->
  forall protein_ids results failed n,
    exists results' failed' t,
      fetch_sequences_loop fuel caught self session protein_ids
        results failed n = (Done (results', failed'), t)
      /\ map fst results'
         = (map fst results
            ++ first_seen (map fst results)
                 (filter (fun g => negb (g =? ""))
                         (map Py.strip protein_ids)))%list
      /\ (forall kv, In kv results -> In kv results')
      /\ (forall id v,
            In (id, v) results' ->
            In (id, v) results
            \/ (v = sequence_not_found /\ In id failed')
            \/ (Py.truthy v = true
                /\ exists m,
                     fst (fetch_protein_sequence fuel caught self session
                            id m) = Done v))
      /\ (forall id,
            In id failed' ->
            In id failed \/ In (id, sequence_not_found) results')
      /\ (forall id, In id failed -> In id failed')
      /\ sent t = paces_of t
      /\ sent t + List.length results
         = List.length results' + List.length (sleeps_of t).
Proof.
  intros Hsettles Hhandled Hfuel protein_ids.
  induction protein_ids as [|raw rest IH]; intros results failed n.
  - exists results, failed, []. cbn. rewrite app_nil_r.
    repeat split; auto.
  - rewrite fetch_sequences_loop_step. cbv zeta.
    cbn [map filter first_seen]. rewrite has_key_keys.
    destruct (negb (Py.strip raw =? "")) eqn:Hblank; cbn [andb];
      [|apply IH].
    cbn [first_seen].
    destruct (existsb (String.eqb (Py.strip raw)) (map fst results))
      eqn:Hseen; cbn [negb]; [apply IH|].
    assert (Hnew : Py.has_key (Py.strip raw) results = false)
      by (rewrite has_key_keys; exact Hseen).
    destruct (Hsettles n (sequence_request self (Py.strip raw)))
      as (k & Hk & Hfinal).
    destruct (fetch_protein_sequence_returns caught self session
                (Py.strip raw) k Hhandled fuel n ltac:(lia) Hfinal)
      as [v Hv].
    pose proof (fetch_protein_sequence_cost fuel caught self session
                  (Py.strip raw) n) as Hcost. cbv zeta in Hcost.
    destruct (fetch_protein_sequence fuel caught self session
                (Py.strip raw) n) as [r t1] eqn:Hrun.
    cbn [fst snd] in Hv, Hcost. subst r.
    destruct Hcost as [Hpaced Hsent].
    specialize (Hsent ltac:(discriminate)).
    destruct (Py.truthy v) eqn:Htruthy.
    + destruct (IH (Py.setitem (Py.strip raw) v results) failed (n + sent t1))
        as (results' & failed' & t2 & Hloop & Hkeys & Hincl & Hvalues
            & Hfailed & Hkeep & Hp & Hcount).
      rewrite Hloop. exists results', failed', (t1 ++ t2)%list.
      rewrite (setitem_new _ _ _ Hnew) in *.
      rewrite map_app, <- app_assoc in Hkeys.
      rewrite length_app in Hcount. cbn [List.length] in Hcount.
      split; [reflexivity|]. split; [exact Hkeys|].
      split; [intros kv Hin; apply Hincl, in_or_app; left; exact Hin|].
      split.
      { intros id w Hin. destruct (Hvalues id w Hin) as [H|H]; [|auto].
        apply in_app_or in H as [H|[H|[]]]; [auto|].
        injection H as <- <-. right. right. split; [exact Htruthy|].
        exists n. rewrite Hrun. reflexivity. }
      split; [exact Hfailed|]. split; [exact Hkeep|].
      rewrite sent_app, paces_of_app, sleeps_of_app, length_app.
      split; lia.
    + destruct (IH (Py.setitem (Py.strip raw) sequence_not_found results)
                   (failed ++ [Py.strip raw])%list (n + sent t1))
        as (results' & failed' & t2 & Hloop & Hkeys & Hincl & Hvalues
            & Hfailed & Hkeep & Hp & Hcount).
      rewrite Hloop. exists results', failed', (t1 ++ t2)%list.
      rewrite (setitem_new _ _ _ Hnew) in *.
      rewrite map_app, <- app_assoc in Hkeys.
      rewrite length_app in Hcount. cbn [List.length] in Hcount.
      split; [reflexivity|]. split; [exact Hkeys|].
      split; [intros kv Hin; apply Hincl, in_or_app; left; exact Hin|].
      split.
      { intros id w Hin. destruct (Hvalues id w Hin) as [H|H]; [|auto].
        apply in_app_or in H as [H|[H|[]]]; [auto|].
        injection H as <- <-. right. left. split; [reflexivity|].
        apply Hkeep, in_or_app. right. left. reflexivity. }
      split.
      { intros id Hin. destruct (Hfailed id Hin) as [H|H]; [|auto].
        apply in_app_or in H as [H|[<-|[]]]; [auto|].
        right. apply Hincl, in_or_app. right. left. reflexivity. }
      split; [intros id Hin; apply Hkeep, in_or_app; left; exact Hin|].
      rewrite sent_app, paces_of_app, sleeps_of_app, length_app.
      split; lia.
Qed.

Lemma concat_empty_cons (x : string) (xs : list string) :
  String.concat "" (x :: xs) = (x ++ String.concat "" xs)%string.
Proof.
  destruct xs as [|y xs]; cbn; [rewrite append_nil_r|]; reflexivity.
Qed.

(** Every pair of the dictionary is a record of the FASTA text. *)
Lemma save_sequences_to_fasta_record format sequences id v :
  In (id, v) sequences ->
  exists before after,
    _save_sequences_to_fasta format sequences
    = (before ++ (">" ++ id ++ newline ++ format v ++ newline) ++ after)%string.
Proof.
  unfold _save_sequences_to_fasta.
  induction sequences as [|[k w] rest IH]; intros Hin; [contradiction|].
  cbn [map]. rewrite concat_empty_cons. cbn [fst snd].
  destruct Hin as [Heq|Hin].
  - injection Heq as -> ->. exists "". eexists. reflexivity.
  - destruct (IH Hin) as (before & after & Heq). rewrite Heq.
    exists ((">" ++ k ++ newline ++ format w ++ newline) ++ before)%string,
           after.
    rewrite !append_assoc. reflexivity.
Qed.

(** X9: given replies that [fetch_protein_sequence] handles and a service
    that does not answer 429 without end, [fetch_multiple_sequences] returns
    one entry per distinct non-blank protein id, stripped, in the order the
    ids are first seen.  An entry holds the fetched sequence, or "Sequence Not
    Found" for an id listed as failed; the failed ids are handed on for the
    failure file exactly when there is one.  Every request is paced, and the
    requests are the entries plus the rate-limit waits. *)
Theorem sequence_report_covers_input fuel bound caught format self session
    protein_ids output_file failed_queries_file n :
  settles bound session ->
  (forall m req, sequence_reply_handled caught (session m req) = true) ->
  bound < fuel ->
  exists results files t,
    fetch_multiple_sequences fuel caught format self session protein_ids
      output_file failed_queries_file n = (Done (results, files), t)
    /\ map fst results = batch_keys protein_ids
    /\ NoDup (map fst results)
    /\ (forall id v,
          In (id, v) results ->
          (v = sequence_not_found
           /\ exists failed,
                failed_file files = Some (failed_queries_file, failed)
                /\ In id failed)
          \/ (Py.truthy v = true
              /\ exists m,
                   fst (fetch_protein_sequence fuel caught self session id m)
                   = Done v))
    /\ (forall failed,
          failed_file files = Some (failed_queries_file, failed) ->
          failed <> []
          /\ forall id, In id failed -> In (id, sequence_not_found) results)
    /\ fasta_file files
       = (output_file, _save_sequences_to_fasta format results)
    /\ sent t = paces_of t
    /\ sent t = List.length results + List.length (sleeps_of t).
Proof.
  intros Hsettles Hhandled Hfuel.
  unfold fetch_multiple_sequences, bind.
  destruct (fetch_sequences_loop_spec fuel bound caught self session Hsettles
              Hhandled Hfuel protein_ids [] [] n)
    as (results & failed & t & Hloop & Hkeys & _ & Hvalues & Hfailed & _
        & Hpaced & Hcount).
  rewrite Hloop. cbn [fst snd ret]. rewrite app_nil_r.
  cbn [map app List.length] in Hkeys, Hcount.
  eexists. eexists. eexists. split; [reflexivity|]. cbn [failed_file fasta_file].
  split; [exact Hkeys|].
  split; [rewrite Hkeys; apply first_seen_NoDup|].
  split.
  { intros id v Hin. destruct (Hvalues id v Hin) as [[]|[[Hv Hf]|H]];
      [|right; exact H].
    left. split; [exact Hv|]. exists failed.
    destruct failed; [contradiction|]. split; [reflexivity|exact Hf]. }
  split.
  { intros failed0 Hsome. destruct failed as [|f failed]; [discriminate Hsome|].
    injection Hsome as <-. split; [discriminate|].
    intros id Hin. destruct (Hfailed id Hin) as [[]|H]. exact H. }
  split; [reflexivity|]. split; [exact Hpaced|]. lia.
Qed.

Lemma sequence_report_covers_input_witness :
  exists results files t,
    fetch_multiple_sequences 1 true Demo.text_of Sample.fetcher Demo.p53_only
      [" P04637"; "Q00000"; "P04637"; ""] "out.fasta" "failed.csv" 0
    = (Done (results, files), t)
    /\ map fst results = ["P04637"; "Q00000"].
Proof.
  destruct (sequence_report_covers_input 1 0 true Demo.text_of Sample.fetcher
              Demo.p53_only [" P04637"; "Q00000"; "P04637"; ""]
              "out.fasta" "failed.csv" 0)
    as (results & files & t & Hrun & Hkeys & _).
  - intros n req. exists 0. split; [apply le_n|].
    unfold Demo.p53_only. destruct (req_url req =? _); reflexivity.
  - intros m req. unfold Demo.p53_only.
    destruct (req_url req =? _); reflexivity.
  - apply le_n.
  - exists results, files, t. split; [exact Hrun|exact Hkeys].
Defined.

(** X10: the FASTA file written by [fetch_multiple_sequences] holds a record
    for every entry of the result, the failed ids included: for each id
    listed as failed the file contains the header of that id followed by the
    line "Sequence Not Found". *)
Theorem failed_ids_are_written_to_fasta fuel bound caught format self session
    protein_ids output_file failed_queries_file n :
  settles bound session ->
  (forall m req, sequence_reply_handled caught (session m req) = true) ->
  bound < fuel ->
  (forall s, format (JStr s) = s) ->
  exists results files t,
    fetch_multiple_sequences fuel caught format self session protein_ids
      output_file failed_queries_file n = (Done (results, files), t)
    /\ (forall id v,
          In (id, v) results ->
          exists before after,
            snd (fasta_file files)
            = (before ++ (">" ++ id ++ newline ++ format v ++ newline)
               ++ after)%string)
    /\ forall failed id,
         failed_file files = Some (failed_queries_file, failed) ->
         In id failed ->
         exists before after,
           snd (fasta_file files)
           = (before
              ++ (">" ++ id ++ newline ++ "Sequence Not Found" ++ newline)
              ++ after)%string.
Proof.
  intros Hsettles Hhandled Hfuel Hformat.
  unfold fetch_multiple_sequences, bind.
  destruct (fetch_sequences_loop_spec fuel bound caught self session Hsettles
              Hhandled Hfuel protein_ids [] [] n)
    as (results & failed & t & Hloop & _ & _ & _ & Hfailed & _).
  rewrite Hloop. cbn [fst snd ret].
  eexists. eexists. eexists. split; [reflexivity|].
  cbn [failed_file fasta_file snd].
  split; [intros id v Hin; apply save_sequences_to_fasta_record, Hin|].
  intros failed0 id Hsome Hin.
  destruct failed as [|f failed]; [discriminate Hsome|].
  injection Hsome as <-.
  destruct (Hfailed id Hin) as [[]|Hrec].
  destruct (save_sequences_to_fasta_record format _ _ _ Hrec)
    as (before & after & Heq).
  exists before, after. rewrite Heq. unfold sequence_not_found.
  rewrite Hformat. reflexivity.
Qed.

Lemma failed_ids_are_written_to_fasta_witness :
  exists results files t,
    fetch_multiple_sequences 1 true Demo.text_of Sample.fetcher Demo.p53_only
      ["P04637"; "Q00000"] "out.fasta" "failed.csv" 0
    = (Done (results, files), t)
    /\ exists before after,
         snd (fasta_file files)
         = (before
            ++ (">" ++ "Q00000" ++ newline ++ "Sequence Not Found" ++ newline)
            ++ after)%string.
Proof.
  destruct (failed_ids_are_written_to_fasta 1 0 true Demo.text_of
              Sample.fetcher Demo.p53_only ["P04637"; "Q00000"]
              "out.fasta" "failed.csv" 0)
    as (results & files & t & Hrun & _ & Hfailed).
  - intros n req. exists 0. split; [apply le_n|].
    unfold Demo.p53_only. destruct (req_url req =? _); reflexivity.
  - intros m req. unfold Demo.p53_only.
    destruct (req_url req =? _); reflexivity.
  - apply le_n.
  - intros s. reflexivity.
  - exists results, files, t. split; [exact Hrun|].
    apply (Hfailed ["Q00000"] "Q00000"); [|left; reflexivity].
    vm_compute in Hrun. injection Hrun as _ <- _. reflexivity.
Defined.

(** X11: a successful response whose body cannot be read is not handled by
    [fetch_protein_sequence]: the exception leaves it, and leaves
    [fetch_multiple_sequences] with it, which then returns no result and
    writes no file, whatever ids follow. *)
Theorem unreadable_sequence_aborts_the_batch fuel caught format self session
    raw rest output_file failed_queries_file n resp data :
  blank raw = false ->
  session n (sequence_request self (Py.strip raw)) = Answers resp ->
  ok resp = true ->
  body resp = Some data ->
  sequence_value data = Exn ->
  fetch_protein_sequence (S fuel) caught self session (Py.strip raw) n
  = (Raised, [Pace; Get (sequence_request self (Py.strip raw))])
  /\ fetch_multiple_sequences (S fuel) caught format self session
       (raw :: rest) output_file failed_queries_file n
     = (Raised, [Pace; Get (sequence_request self (Py.strip raw))]).
Proof.
  intros Hblank Hreply Hok Hbody Hvalue.
  assert (Hfetch :
    fetch_protein_sequence (S fuel) caught self session (Py.strip raw) n
    = (Raised, [Pace; Get (sequence_request self (Py.strip raw))])).
  { rewrite fetch_protein_sequence_step. cbv zeta.
    rewrite Hreply, Hok, Hbody, Hvalue. reflexivity. }
  split; [exact Hfetch|].
  unfold fetch_multiple_sequences, bind.
  rewrite fetch_sequences_loop_step. cbv zeta.
  unfold blank in Hblank. rewrite Hblank.
  cbn [negb andb Py.has_key Py.lookup]. rewrite Hfetch. reflexivity.
Qed.

Lemma unreadable_sequence_aborts_the_batch_witness :
  fst (fetch_multiple_sequences 1 true Demo.text_of Sample.fetcher
         (fun _ _ => Answers Demo.sequence_as_text)
         ["P04637"; "Q00000"] "out.fasta" "failed.csv" 0) = Raised.
Proof.
  rewrite (proj2 (unreadable_sequence_aborts_the_batch 0 true Demo.text_of
                    Sample.fetcher (fun _ _ => Answers Demo.sequence_as_text)
                    "P04637" ["Q00000"] "out.fasta" "failed.csv" 0
                    Demo.sequence_as_text
                    (JObj [("sequence", JStr "MEEPQSDPSV")])
                    eq_refl eq_refl eq_refl eq_refl eq_refl)).
  reflexivity.
Defined.

(** * Processing the report of a batch *)

Lemma has_sequence_dict info :
  has_sequence (JObj info) = Val (sequence_usable info).
Proof.
  unfold has_sequence, sequence_usable. cbn [Py.get Py.getitem exn_bind].
  destruct (Py.lookup "sequence" info) as [v|]; [|reflexivity].
  destruct (Py.truthy v); reflexivity.
Qed.

Lemma getitem_sequence_usable info :
  sequence_usable info = true ->
  Py.getitem (JObj info) "sequence" = Val (lookup_or info "sequence" JNull).
Proof.
  unfold sequence_usable, lookup_or. cbn [Py.getitem].
  destruct (Py.lookup "sequence" info); [reflexivity|discriminate].
Qed.

(** One round of the loop on an entry that is a dictionary. *)
Lemma process_gene_dict format gene_name info lists :
  process_gene format gene_name (JObj info) lists
  = Val (lists_after format gene_name info lists).
Proof.
  unfold process_gene, lists_after.
  cbn [Py.contains exn_bind].
  destruct (Py.has_key "error" info); [reflexivity|].
  rewrite !has_sequence_dict. cbn [Py.get exn_bind].
  fold (lookup_or info "multiple_results_found" (JBool false)).
  fold (lookup_or info "total_results" (JNum 1)).
  fold (lookup_or info "selected_result" (JStr "Single result")).
  fold (lookup_or info "accession" (JStr "Unknown")).
  fold (lookup_or info "protein_name" (JStr "Unknown")).
  fold (lookup_or info "sequence" (JStr "Unknown")).
  fold (lookup_or info "organism" (JStr "Unknown")).
  fold (lookup_or info "all_accessions" (JArr [])).
  fold (lookup_or info "all_protein_names" (JArr [])).
  fold (lookup_or info "accession" (JStr gene_name)).
  destruct (Py.truthy (lookup_or info "multiple_results_found" (JBool false)));
    cbn [exn_bind];
    destruct (sequence_usable info) eqn:Hseq; cbn [exn_bind];
    rewrite ?(getitem_sequence_usable _ Hseq); cbn [exn_bind];
    rewrite ?app_nil_r; reflexivity.
Qed.

Lemma count_rows_app test rows d :
  count_rows test (rows ++ [d])
  = match count_rows test rows, test d with
    | Val n, Val keep => Val (if keep : bool then S n else n)
    | _, _ => Exn
    end.
Proof.
  induction rows as [|r rows IH]; cbn [app count_rows].
  - destruct (test d) as [[|]|]; reflexivity.
  - rewrite IH. destruct (test r) as [kr|]; cbn [exn_bind]; [|reflexivity].
    destruct (count_rows test rows) as [n|]; cbn [exn_bind].
    + destruct (test d) as [[|]|]; cbn [exn_bind]; destruct kr; reflexivity.
    + reflexivity.
Qed.

Lemma single_success_row gene_name info :
  single_success (success_row gene_name info)
  = Val (negb (Py.truthy (lookup_or info "multiple_results_found"
                                    (JBool false)))).
Proof. reflexivity. Qed.

(** The counts add up after every round. *)
Lemma lists_after_accounted format gene_name info lists :
  accounted lists -> accounted (lists_after format gene_name info lists).
Proof.
  intros (succ & fail & single & Hs & Hf & Hg & Htotal & Hmulti & Hfj & Hle).
  unfold lists_after, accounted.
  destruct (Py.has_key "error" info).
  - exists succ, (S fail), single. cbn [csv_data fasta_data json_data
                                       multiple_results_data].
    rewrite !count_rows_app, Hs, Hf, Hg, length_app.
    repeat split; try reflexivity; try assumption. cbn. lia.
  - cbn [csv_data fasta_data json_data multiple_results_data].
    rewrite !count_rows_app, Hs, Hf, Hg, single_success_row, !length_app.
    change (status_is "Success" (success_row gene_name info)) with (Val true).
    change (status_is "Gene not found" (success_row gene_name info))
      with (Val false).
    destruct (Py.truthy (lookup_or info "multiple_results_found"
                                   (JBool false)));
      destruct (sequence_usable info); cbn [negb List.length].
    + exists (S succ), fail, single. repeat split; try reflexivity; lia.
    + exists (S succ), fail, single. repeat split; try reflexivity; lia.
    + exists (S succ), fail, (S single). repeat split; try reflexivity; lia.
    + exists (S succ), fail, (S single). repeat split; try reflexivity; lia.
Qed.

Lemma replace_removes (old new : ascii) (s : string) :
  Ascii.eqb new old = false ->
  PyText.has_char old (PyText.replace old new s) = false.
Proof.
  intros Hne. induction s as [|c s IH]; [reflexivity|].
  cbn. rewrite IH, orb_false_r.
  destruct (Ascii.eqb c old) eqn:Hc; [exact Hne|exact Hc].
Qed.

Lemma gene_fasta_text_snoc format gene_name info entries :
  forall text,
    gene_fasta_text format entries = Val text ->
    exists text',
      gene_fasta_text format (entries ++ [fasta_entry format gene_name info])
      = Val text'.
Proof.
  induction entries as [|e entries IH]; intros text H.
  - eexists. reflexivity.
  - cbn [app gene_fasta_text] in *. exn_inv H.
    destruct (IH _ eq_refl) as [text' ->]. cbn [exn_bind].
    eexists. reflexivity.
Qed.

(** The loop over a report whose entries are dictionaries. *)
Lemma process_genes_dicts format :
  forall data lists,
    Forall (fun entry => is_dict (snd entry) = true) data ->
    accounted lists ->
    (exists text, gene_fasta_text format (fasta_data lists) = Val text) ->
    Forall built_job (json_data lists) ->
    exists lists',
      process_genes format data lists = Val lists'
      /\ accounted lists'
      /\ (exists text, gene_fasta_text format (fasta_data lists') = Val text)
      /\ Forall built_job (json_data lists')
      /\ csv_data lists' = (csv_data lists ++ map row_of data)%list.
Proof.
  induction data as [|[gene_name protein_info] rest IH];
    intros lists Hdicts Hacc Hfasta Hjobs.
  - exists lists. cbn. rewrite app_nil_r. auto.
  - inversion Hdicts as [|x l Hdict Hrest]; subst. cbn [snd] in Hdict.
    destruct protein_info as [| | | | |info]; try discriminate Hdict.
    cbn [process_genes]. rewrite process_gene_dict. cbn [exn_bind].
    destruct (IH (lists_after format gene_name info lists) Hrest)
      as (lists' & Hrun & Hacc' & Hfasta' & Hjobs' & Hcsv).
    + apply lists_after_accounted, Hacc.
    + unfold lists_after. destruct (Py.has_key "error" info);
        cbn [fasta_data]; [exact Hfasta|].
      destruct (sequence_usable info); [|rewrite app_nil_r; exact Hfasta].
      destruct Hfasta as [text Htext].
      apply (gene_fasta_text_snoc _ _ _ _ _ Htext).
    + unfold lists_after. destruct (Py.has_key "error" info);
        cbn [json_data]; [exact Hjobs|].
      destruct (sequence_usable info); [|rewrite app_nil_r; exact Hjobs].
      apply Forall_app. split; [exact Hjobs|].
      constructor; [|constructor].
      eexists. eexists. split; [reflexivity|].
      apply replace_removes. reflexivity.
    + exists lists'. repeat split; try assumption.
      rewrite Hcsv. cbn [map]. unfold row_of at 2. cbn [fst snd].
      unfold lists_after. destruct (Py.has_key "error" info);
        cbn [csv_data]; rewrite <- app_assoc; reflexivity.
Qed.

(** X12: on a report whose entries are dictionaries,
    [process_gene_to_protein_data] ends without an exception; it writes one
    CSV row per entry, in the order of the report, "Gene not found" for an
    entry with the key [error] and "Success" for every other; and the counts
    of its summary add up: successes and failures make the total, the genes
    with multiple results and those with a single result make the successes,
    and the sequences written to the FASTA file are as many as the AlphaFold
    jobs, at most one per success.  The FASTA and job files are listed in
    the returned files exactly when there is a sequence, the two files on
    multiple results exactly when a gene has multiple results. *)
Theorem summary_counts_add_up format gene_protein_data output_prefix :
  Forall (fun entry => is_dict (snd entry) = true) gene_protein_data ->
  exists out successful failed sequences multiple single,
    process_gene_to_protein_data format gene_protein_data output_prefix
    = Val out
    /\ written_csv out = map row_of gene_protein_data
    /\ written_summary out
       = JObj [("total_genes",
                JNum (Z.of_nat (List.length gene_protein_data)));
               ("successful_matches", JNum (Z.of_nat successful));
               ("failed_matches", JNum (Z.of_nat failed));
               ("sequences_retrieved", JNum (Z.of_nat sequences));
               ("alphafold_jobs", JNum (Z.of_nat sequences));
               ("genes_with_multiple_results", JNum (Z.of_nat multiple));
               ("single_result_genes", JNum (Z.of_nat single))]
    /\ successful + failed = List.length gene_protein_data
    /\ multiple + single = successful
    /\ sequences <= successful
    /\ map fst (output_files out)
       = (["csv"]
          ++ (if (0 <? sequences)%nat then ["fasta"; "json"] else [])
          ++ (if (0 <? multiple)%nat
              then ["multiple_results"; "multiple_results_json"] else [])
          ++ ["summary"])%list.
Proof.
  intros Hdicts.
  destruct (process_genes_dicts format gene_protein_data
              {| csv_data := []; fasta_data := []; json_data := [];
                 multiple_results_data := [] |} Hdicts)
    as (lists & Hrun & Hacc & (text & Htext) & _ & Hcsv).
  { exists 0, 0, 0. repeat split; apply le_n. }
  { exists "". reflexivity. }
  { constructor. }
  cbn [csv_data app] in Hcsv.
  destruct Hacc as (succ & fail & single & Hs & Hf & Hg & Htotal & Hmulti
                    & Hfj & Hle).
  unfold process_gene_to_protein_data. rewrite Hrun. cbn [exn_bind].
  rewrite Hs, Hf, Hg. cbn [exn_bind].
  rewrite Hcsv, length_map in Htotal.
  assert (Hfasta :
    (match fasta_data lists with
     | [] => Val None
     | _ :: _ =>
         (text0 <- gene_fasta_text format (fasta_data lists) ;;
          Val (Some text0))%exn
     end)
    = Val (match fasta_data lists with [] => None | _ => Some text end)).
  { destruct (fasta_data lists); [reflexivity|]. rewrite Htext. reflexivity. }
  rewrite Hfasta. cbn [exn_bind].
  eexists. exists succ, fail, (List.length (fasta_data lists)),
             (List.length (multiple_results_data lists)), single.
  split; [reflexivity|].
  cbn [written_csv written_summary output_files].
  split; [exact Hcsv|]. split; [rewrite Hfj; reflexivity|].
  split; [exact Htotal|]. split; [exact Hmulti|]. split; [exact Hle|].
  destruct (fasta_data lists) as [|f fs] eqn:Ef;
    destruct (json_data lists) as [|j js] eqn:Ej;
    try discriminate Hfj;
    destruct (multiple_results_data lists) as [|m ms]; reflexivity.
Qed.

Lemma summary_counts_add_up_witness :
  exists out,
    process_gene_to_protein_data Demo.text_of
      [("TP53", JObj Demo.marked_second_info);
       ("NOTAREALGENE123", not_found_entry)] "genes" = Val out
    /\ map fst (output_files out)
       = ["csv"; "multiple_results"; "multiple_results_json"; "summary"].
Proof.
  destruct (summary_counts_add_up Demo.text_of
              [("TP53", JObj Demo.marked_second_info);
               ("NOTAREALGENE123", not_found_entry)] "genes")
    as (out & succ & fail & seqs & multi & single & Hrun & _).
  - repeat constructor.
  - exists out. split; [exact Hrun|].
    vm_compute in Hrun. injection Hrun as <-. reflexivity.
Defined.

(** ** The jobs handed to AlphaFold *)

Lemma validate_jobs_built jobs :
  Forall built_job jobs ->
  forall i errors, validate_jobs i jobs errors = Val errors.
Proof.
  induction 1 as [|job jobs (name & sequence & -> & _) _ IH];
    intros i errors; [reflexivity|].
  cbn [validate_jobs]. unfold alphafold_job at 1.
  cbn. apply IH.
Qed.

(** X13: the AlphaFold jobs that [process_gene_to_protein_data] writes for a
    report of dictionaries are accepted by
    [validate_alphafold_json_structure] without an error, and none of their
    names contains the character "|", whatever the gene symbols and
    accessions are. *)
Theorem written_jobs_are_valid format gene_protein_data output_prefix :
  Forall (fun entry => is_dict (snd entry) = true) gene_protein_data ->
  exists out,
    process_gene_to_protein_data format gene_protein_data output_prefix
    = Val out
    /\ forall jobs,
         written_json out = Some jobs ->
         validate_alphafold_json_structure (JArr jobs) = Val (true, [])
         /\ Forall built_job jobs
         /\ forall job name,
              In job jobs ->
              Py.get job "name" JNull = Val (JStr name) ->
              PyText.has_char "|" name = false.
Proof.
  intros Hdicts.
  destruct (process_genes_dicts format gene_protein_data
              {| csv_data := []; fasta_data := []; json_data := [];
                 multiple_results_data := [] |} Hdicts)
    as (lists & Hrun & Hacc & (text & Htext) & Hjobs & _).
  { exists 0, 0, 0. repeat split; apply le_n. }
  { exists "". reflexivity. }
  { constructor. }
  destruct Hacc as (succ & fail & single & Hs & Hf & Hg & _).
  unfold process_gene_to_protein_data. rewrite Hrun. cbn [exn_bind].
  rewrite Hs, Hf, Hg.
  assert (Hfasta : exists fasta,
    (match fasta_data lists with
     | [] => Val None
     | _ :: _ =>
         (text0 <- gene_fasta_text format (fasta_data lists) ;;
          Val (Some text0))%exn
     end) = Val fasta).
  { destruct (fasta_data lists); [eexists; reflexivity|].
    rewrite Htext. eexists. reflexivity. }
  destruct Hfasta as [fasta ->]. cbn [exn_bind].
  eexists. split; [reflexivity|]. cbn [written_json].
  intros jobs Hsome.
  assert (Heq : jobs = json_data lists).
  { destruct (json_data lists); [discriminate Hsome|].
    injection Hsome as <-. reflexivity. }
  subst jobs. split.
  - unfold validate_alphafold_json_structure.
    rewrite (validate_jobs_built _ Hjobs). reflexivity.
  - split; [exact Hjobs|].
    intros job name Hin Hname.
    rewrite Forall_forall in Hjobs.
    destruct (Hjobs job Hin) as (name' & sequence & -> & Hpipe).
    cbn in Hname. injection Hname as <-. exact Hpipe.
Qed.

Lemma written_jobs_are_valid_witness :
  exists out,
    process_gene_to_protein_data Demo.text_of
      [("TP|53", JObj [("accession", JStr "P0|637");
                       ("sequence", JStr "MEEPQSDPSV")])] "genes" = Val out
    /\ written_json out
       = Some [alphafold_job "Gene: TP-53 - Protein: P0-637"
                             (JStr "MEEPQSDPSV")].
Proof.
  destruct (written_jobs_are_valid Demo.text_of
              [("TP|53", JObj [("accession", JStr "P0|637");
                               ("sequence", JStr "MEEPQSDPSV")])] "genes")
    as (out & Hrun & _).
  - repeat constructor.
  - exists out. split; [exact Hrun|].
    vm_compute in Hrun. injection Hrun as <-. reflexivity.
Defined.

(** ** From the search to the files *)

(** The entries of a batch report, as the processing reads them. *)
Lemma batch_report_entries fuel bound self session gene_names criteria n :
  settles bound session ->
  bound < fuel ->
  exists report,
    fst (search_multiple_genes_robust fuel self session gene_names criteria n)
    = Done report
    /\ map fst report = batch_keys gene_names
    /\ forall g v,
         In (g, v) report ->
         v = not_found_entry
         \/ exists canonical fields results names,
              _extract_protein_info canonical g = Val (JObj fields)
              /\ v = JObj (fields ++ annotations results names)
              /\ Py.has_key "error" (fields ++ annotations results names)
                 = false.
Proof.
  intros Hsettles Hfuel.
  unfold search_multiple_genes_robust, bind.
  set (c := match criteria with
            | None => SearchCriteria_default
            | Some c => c
            end).
  destruct (search_genes_loop_keys fuel bound self session c Hsettles Hfuel
              gene_names [] [] n)
    as (report & failed & Hdone & Hkeys & Hvalues).
  destruct (search_genes_loop fuel self session c gene_names [] [] n)
    as [r t].
  cbn [fst] in Hdone. subst r. cbn [ret fst snd].
  exists report. split; [reflexivity|]. split; [exact Hkeys|].
  intros g v Hin.
  destruct (Hvalues g v Hin) as [[]|[->|(m & Hm & Htruthy)]]; [left; reflexivity|].
  right. apply (search_by_gene_name_robust_value _ _ _ _ _ _ _ Hm Htruthy).
Qed.

Lemma count_not_found_rows data :
  Forall (fun entry => is_dict (snd entry) = true) data ->
  count_rows (status_is "Gene not found") (map row_of data)
  = Val (List.length (filter missed data)).
Proof.
  induction 1 as [|[g v] data Hdict _ IH]; [reflexivity|].
  cbn [map count_rows filter]. rewrite IH. cbn [snd] in Hdict.
  destruct v as [| | | | |info]; try discriminate Hdict.
  unfold row_of, missed. cbn [fst snd].
  destruct (Py.has_key "error" info); reflexivity.
Qed.

(** A search that ends returns [None] or a value that counts as true. *)
Lemma try_strategies_none_or_truthy fuel self session gene_name todo :
  forall n v t,
    try_strategies fuel self session gene_name todo n = (Done v, t) ->
    v = JNull \/ Py.truthy v = true.
Proof.
  induction todo as [|s rest IH]; intros n v t H.
  - injection H as <- _. left. reflexivity.
  - rewrite try_strategies_step in H.
    destruct (_search_with_strategy fuel self session gene_name s n)
      as [[w| |] t1].
    + destruct (Py.truthy w) eqn:Hw.
      * injection H as <- _. right. exact Hw.
      * destruct (try_strategies fuel self session gene_name rest
                    (n + sent t1)) as [r t2] eqn:Hrest.
        injection H as -> _. apply (IH _ _ _ Hrest).
    + destruct (try_strategies fuel self session gene_name rest
                  (n + sent t1)) as [r t2] eqn:Hrest.
      injection H as -> _. apply (IH _ _ _ Hrest).
    + discriminate H.
Qed.

Lemma search_by_gene_name_robust_none_or_truthy fuel self session gene_name
    criteria n v :
  fst (search_by_gene_name_robust fuel self session gene_name criteria n)
  = Done v ->
  v = JNull \/ Py.truthy v = true.
Proof.
  unfold search_by_gene_name_robust. rewrite rate_limited_request_step.
  cbn [fst]. intros Hrun.
  destruct (try_strategies fuel self session gene_name _ n) as [r t] eqn:Htry.
  cbn [fst] in Hrun. subst r.
  apply (try_strategies_none_or_truthy _ _ _ _ _ _ _ _ Htry).
Qed.

(** Every entry the batch loop adds comes from a search of its symbol: it is
    what that search returned, or the error entry when it returned [None]. *)
Lemma search_genes_loop_outcomes fuel bound self session criteria :
  settles bound session ->
  bound < fuel ->
  forall gene_names results failed n results' failed',
    fst (search_genes_loop fuel self session criteria gene_names
           results failed n) = Done (results', failed') ->
    forall g v,
      In (g, v) results' ->
      In (g, v) results
      \/ exists m found,
           fst (search_by_gene_name_robust fuel self session g
                  (Some criteria) m) = Done found
           /\ v = if Py.truthy found then found else not_found_entry.
Proof.
  intros Hsettles Hfuel gene_names.
  induction gene_names as [|raw rest IH];
    intros results failed n results' failed' Hdone g v Hin.
  - injection Hdone as <- _. left. exact Hin.
  - rewrite search_genes_loop_step in Hdone. cbv zeta in Hdone.
    destruct (negb (Py.strip raw =? "")
              && negb (Py.has_key (Py.strip raw) results)).
    + destruct (search_by_gene_name_robust fuel self session
                  (Py.strip raw) (Some criteria) n) as [[found| |] t] eqn:Hrun;
        [|discriminate Hdone|discriminate Hdone].
      assert (Hnext : exists results0 failed0,
        fst (search_genes_loop fuel self session criteria rest
               results0 failed0 (n + sent t)) = Done (results', failed')
        /\ results0
           = Py.setitem (Py.strip raw)
               (if Py.truthy found then found else not_found_entry) results).
      { destruct (Py.truthy found).
        - destruct (search_genes_loop fuel self session criteria rest
                      (Py.setitem (Py.strip raw) found results) failed
                      (n + sent t)) as [r t'] eqn:Hloop.
          cbn [fst] in Hdone. subst r.
          eexists. eexists. rewrite Hloop. split; reflexivity.
        - destruct (search_genes_loop fuel self session criteria rest
                      (Py.setitem (Py.strip raw) not_found_entry results)
                      (failed ++ [Py.strip raw])%list
                      (n + sent t)) as [r t'] eqn:Hloop.
          cbn [fst] in Hdone. subst r.
          eexists. eexists. rewrite Hloop. split; reflexivity. }
      destruct Hnext as (results0 & failed0 & Hloop & ->).
      destruct (IH _ _ _ _ _ Hloop g v Hin) as [H|H]; [|right; exact H].
      apply in_setitem in H as [H|H]; [left; exact H|].
      injection H as -> ->. right. exists n, found.
      rewrite Hrun. split; reflexivity.
    + apply (IH _ _ _ _ _ Hdone g v Hin).
Qed.

Lemma batch_report_outcomes fuel bound self session gene_names criteria n
    report :
  settles bound session ->
  bound < fuel ->
  fst (search_multiple_genes_robust fuel self session gene_names criteria n)
  = Done report ->
  forall g v,
    In (g, v) report ->
    exists m found,
      fst (search_by_gene_name_robust fuel self session g criteria m)
      = Done found
      /\ v = if Py.truthy found then found else not_found_entry.
Proof.
  intros Hsettles Hfuel Hdone g v Hin.
  unfold search_multiple_genes_robust, bind in Hdone.
  set (c := match criteria with
            | None => SearchCriteria_default
            | Some c => c
            end) in *.
  destruct (search_genes_loop fuel self session c gene_names [] [] n)
    as [[[results failed]| |] t] eqn:Hloop; try discriminate Hdone.
  cbn [ret fst snd] in Hdone. injection Hdone as <-.
  destruct (search_genes_loop_outcomes fuel bound self session c Hsettles
              Hfuel gene_names [] [] n results failed
              ltac:(rewrite Hloop; reflexivity) g v Hin)
    as [[]|(m & found & Hm & Hv)].
  exists m, found. split; [|exact Hv].
  destruct criteria; exact Hm.
Qed.

(** X14: what the search found is what the files say.  Given a service that
    does not answer 429 without end, the report of a batch search is
    processed without an exception; the CSV file gets one row per distinct
    non-blank symbol, in first-seen order, and [failed_matches] counts the
    rows that say "Gene not found".  Every row comes from a search of its
    symbol: it says "Gene not found" exactly when that search returned
    [None], no strategy having found the symbol; otherwise the report holds
    what the search returned and the row is a success row carrying the
    accession the search returned. *)
Theorem report_rows_follow_the_search fuel bound format self session
    gene_names criteria output_prefix n :
  settles bound session ->
  bound < fuel ->
  exists report out,
    fst (search_multiple_genes_robust fuel self session gene_names criteria n)
    = Done report
    /\ process_gene_to_protein_data format report output_prefix = Val out
    /\ written_csv out = map row_of report
    /\ map (fun row => Py.get row "gene_name" JNull) (written_csv out)
       = map (fun g => Val (JStr g)) (batch_keys gene_names)
    /\ (exists summary,
          written_summary out = JObj summary
          /\ Py.lookup "total_genes" summary
             = Some (JNum (Z.of_nat (List.length (batch_keys gene_names))))
          /\ Py.lookup "failed_matches" summary
             = Some (JNum (Z.of_nat (List.length (filter missed report)))))
    /\ forall g v,
         In (g, v) report ->
         exists m found,
           fst (search_by_gene_name_robust fuel self session g criteria m)
           = Done found
           /\ (missed (g, v) = true <-> found = JNull)
           /\ (row_of (g, v) = not_found_row g <-> found = JNull)
           /\ (found = JNull -> v = not_found_entry)
           /\ (found <> JNull ->
               exists info,
                 found = JObj info
                 /\ v = found
                 /\ row_of (g, v) = success_row g info
                 /\ Py.get (row_of (g, v)) "protein_accession" JNull
                    = Py.get found "accession" JNull).
Proof.
  intros Hsettles Hfuel.
  destruct (batch_report_entries fuel bound self session gene_names criteria
              n Hsettles Hfuel) as (report & Hdone & Hkeys & Hentries).
  assert (Hdicts : Forall (fun entry => is_dict (snd entry) = true) report).
  { apply Forall_forall. intros [g v] Hin.
    destruct (Hentries g v Hin) as [->|(c & f & r & ns & _ & -> & _)];
      reflexivity. }
  destruct (process_genes_dicts format report
              {| csv_data := []; fasta_data := []; json_data := [];
                 multiple_results_data := [] |} Hdicts)
    as (lists & Hrun & Hacc & (text & Htext) & _ & Hcsv).
  { exists 0, 0, 0. repeat split; apply le_n. }
  { exists "". reflexivity. }
  { constructor. }
  cbn [csv_data app] in Hcsv.
  destruct Hacc as (succ & fail & single & Hs & Hf & Hg & _).
  assert (Hfail : fail = List.length (filter missed report)).
  { rewrite Hcsv, (count_not_found_rows _ Hdicts) in Hf.
    injection Hf as <-. reflexivity. }
  exists report.
  unfold process_gene_to_protein_data. rewrite Hrun. cbn [exn_bind].
  rewrite Hs, Hf, Hg.
  assert (Hfasta : exists fasta,
    (match fasta_data lists with
     | [] => Val None
     | _ :: _ =>
         (text0 <- gene_fasta_text format (fasta_data lists) ;;
          Val (Some text0))%exn
     end) = Val fasta).
  { destruct (fasta_data lists); [eexists; reflexivity|].
    rewrite Htext. eexists. reflexivity. }
  destruct Hfasta as [fasta ->]. cbn [exn_bind].
  eexists. split; [exact Hdone|]. split; [reflexivity|].
  cbn [written_csv written_summary].
  split; [exact Hcsv|]. split.
  { rewrite Hcsv, <- Hkeys, !map_map.
    apply map_ext_in. intros [g v] Hin. unfold row_of. cbn [fst snd].
    destruct (Hentries g v Hin) as [->|(c & f & r & ns & _ & -> & _)].
    - reflexivity.
    - destruct (Py.has_key "error" (f ++ annotations r ns)); reflexivity. }
  split.
  { eexists. split; [reflexivity|].
    rewrite <- Hkeys, length_map, Hfail. split; reflexivity. }
  intros g v Hin.
  destruct (batch_report_outcomes fuel bound self session gene_names criteria
              n report Hsettles Hfuel Hdone g v Hin)
    as (m & found & Hm & Hv).
  exists m, found. split; [exact Hm|].
  destruct (search_by_gene_name_robust_none_or_truthy _ _ _ _ _ _ _ Hm)
    as [Hnone|Htruthy].
  - subst found. cbn [Py.truthy] in Hv. subst v.
    split; [split; reflexivity|]. split; [split; reflexivity|].
    split; [reflexivity|]. intros H. contradiction H. reflexivity.
  - rewrite Htruthy in Hv. subst v.
    destruct (search_by_gene_name_robust_value _ _ _ _ _ _ _ Hm Htruthy)
      as (c & f & r & ns & Hx & -> & Hno).
    unfold missed, row_of. cbn [fst snd]. rewrite Hno.
    split; [split; discriminate|].
    split.
    { split; [|discriminate].
      destruct (extract_protein_info_shape _ _ _ Hx)
        as (i & gn & p & sq & o & rv & e & Hshape).
      injection Hshape as ->. discriminate. }
    split; [discriminate|]. intros _.
    exists (f ++ annotations r ns)%list.
    split; [reflexivity|]. split; [reflexivity|]. split; [reflexivity|].
    destruct (extract_protein_info_shape _ _ _ Hx)
      as (i & gn & p & sq & o & rv & e & Hshape).
    injection Hshape as ->. reflexivity.
Qed.

Lemma report_rows_follow_the_search_witness :
  exists report out,
    fst (search_multiple_genes_robust 1 Sample.fetcher Sample.tp53_only
           ["TP53"; "NOTAREALGENE123"] None 0) = Done report
    /\ process_gene_to_protein_data Demo.text_of report "genes" = Val out
    /\ written_csv out = map row_of report
    /\ forall g v,
         In (g, v) report ->
         exists m found,
           fst (search_by_gene_name_robust 1 Sample.fetcher
                  Sample.tp53_only g None m) = Done found
           /\ (row_of (g, v) = not_found_row g <-> found = JNull).
Proof.
  destruct (report_rows_follow_the_search 1 0 Demo.text_of Sample.fetcher
              Sample.tp53_only ["TP53"; "NOTAREALGENE123"] None "genes" 0)
    as (report & out & Hdone & Hrun & Hcsv & _ & _ & Hrows).
  - intros n req. exists 0. split; [apply le_n|].
    unfold Sample.tp53_only.
    destruct (req_query req =? _); reflexivity.
  - apply le_n.
  - exists report, out.
    split; [exact Hdone|]. split; [exact Hrun|]. split; [exact Hcsv|].
    intros g v Hin.
    destruct (Hrows g v Hin) as (m & found & Hm & _ & Hrow & _).
    exists m, found. split; [exact Hm|exact Hrow].
Defined.

(** * Validating AlphaFold jobs *)

Lemma validate_sequences_accepts i sequences :
  forallb sequence_ok sequences = true ->
  forall j errors, validate_sequences i j sequences errors = Val errors.
Proof.
  induction sequences as [|seq rest IH]; intros Hok j errors; [reflexivity|].
  cbn [forallb] in Hok. apply andb_prop in Hok as [Hseq Hrest].
  cbn [validate_sequences]. unfold sequence_ok in Hseq.
  destruct seq as [| | | | |fields]; try discriminate Hseq.
  unfold Py.has_key. cbn [Py.getitem].
  destruct (Py.lookup "proteinChain" fields) as [chain|]; [|discriminate Hseq].
  cbn [negb exn_bind].
  destruct (Py.contains "sequence" chain) as [has|]; [|discriminate Hseq].
  subst has. cbn [negb exn_bind]. apply IH, Hrest.
Qed.

Lemma validate_sequences_grows i sequences :
  forall j errors errors',
    validate_sequences i j sequences errors = Val errors' ->
    exists extra,
      errors' = (errors ++ extra)%list
      /\ (extra = [] -> forallb sequence_ok sequences = true).
Proof.
  induction sequences as [|seq rest IH]; intros j errors errors' H.
  - injection H as <-. exists []. rewrite app_nil_r. auto.
  - cbn [validate_sequences] in H.
    destruct seq as [| | | | |fields];
      try (cbn [exn_bind] in H;
           destruct (IH _ _ _ H) as (extra & -> & _);
           eexists; split; [rewrite <- app_assoc; reflexivity|];
           intros Hnil; apply app_eq_nil in Hnil as [Hnil _];
           discriminate Hnil).
    unfold Py.has_key in H. cbn [Py.getitem] in H.
    cbn [forallb sequence_ok].
    destruct (Py.lookup "proteinChain" fields) as [chain|];
      cbn [negb exn_bind] in H.
    + destruct (Py.contains "sequence" chain) as [[|]|];
        cbn [negb exn_bind] in H; [| |discriminate H].
      * destruct (IH _ _ _ H) as (extra & -> & Hrest).
        exists extra. split; [reflexivity|]. intros Hnil.
        rewrite (Hrest Hnil). reflexivity.
      * destruct (IH _ _ _ H) as (extra & -> & _).
        eexists. split; [rewrite <- app_assoc; reflexivity|].
        intros Hnil. apply app_eq_nil in Hnil as [Hnil _]. discriminate Hnil.
    + destruct (IH _ _ _ H) as (extra & -> & _).
      eexists. split; [rewrite <- app_assoc; reflexivity|].
      intros Hnil. apply app_eq_nil in Hnil as [Hnil _]. discriminate Hnil.
Qed.

Lemma validate_required_grows i fields required :
  forall errors,
    exists extra,
      validate_required i fields required errors = (errors ++ extra)%list
      /\ (extra = [] <->
          forallb (fun field => Py.has_key field fields) required = true).
Proof.
  induction required as [|field rest IH]; intros errors.
  - exists []. cbn. rewrite app_nil_r. split; [reflexivity|]. split; auto.
  - cbn [validate_required forallb].
    destruct (Py.has_key field fields); cbn [negb andb].
    + apply IH.
    + destruct (IH (errors ++ [("Job " ++ PyText.decimal i
                                ++ ": Missing required field '" ++ field
                                ++ "'")%string])%list)
        as (extra & -> & _).
      eexists. split; [rewrite <- app_assoc; reflexivity|].
      split; [|discriminate].
      intros Hnil. apply app_eq_nil in Hnil as [Hnil _]. discriminate Hnil.
Qed.

Lemma validate_jobs_accepts jobs :
  forallb job_ok jobs = true ->
  forall i errors, validate_jobs i jobs errors = Val errors.
Proof.
  induction jobs as [|job rest IH]; intros Hok i errors; [reflexivity|].
  cbn [forallb] in Hok. apply andb_prop in Hok as [Hjob Hrest].
  cbn [validate_jobs]. unfold job_ok in Hjob.
  destruct job as [| | | | |fields]; try discriminate Hjob.
  apply andb_prop in Hjob as [Hreq Hseqs].
  destruct (validate_required_grows i fields required_fields errors)
    as (extra & -> & Hextra).
  rewrite (proj2 Hextra Hreq), app_nil_r.
  destruct (Py.lookup "sequences" fields) as [[| | | |sequences|]|];
    try discriminate Hseqs.
  rewrite (validate_sequences_accepts _ _ Hseqs). cbn [exn_bind].
  apply IH, Hrest.
Qed.

Lemma validate_jobs_grows jobs :
  forall i errors errors',
    validate_jobs i jobs errors = Val errors' ->
    exists extra,
      errors' = (errors ++ extra)%list
      /\ (extra = [] -> forallb job_ok jobs = true).
Proof.
  induction jobs as [|job rest IH]; intros i errors errors' H.
  - injection H as <-. exists []. rewrite app_nil_r. auto.
  - cbn [validate_jobs] in H.
    destruct job as [| | | | |fields];
      try (cbn [exn_bind] in H;
           destruct (IH _ _ _ H) as (extra & -> & _);
           eexists; split; [rewrite <- app_assoc; reflexivity|];
           intros Hnil; apply app_eq_nil in Hnil as [Hnil _];
           discriminate Hnil).
    destruct (validate_required_grows i fields required_fields errors)
      as (extra1 & Hreq & Hextra1).
    rewrite Hreq in H. cbn [forallb job_ok].
    destruct (Py.lookup "sequences" fields) as [v|] eqn:Hl.
    + destruct v as [| | | |sequences|];
        cbn [exn_bind] in H;
        try (destruct (IH _ _ _ H) as (extra & -> & _);
             eexists; split; [rewrite <- !app_assoc; reflexivity|];
             intros Hnil; apply app_eq_nil in Hnil as [_ Hnil];
             apply app_eq_nil in Hnil as [Hnil _]; discriminate Hnil).
      destruct (validate_sequences i 0 sequences (errors ++ extra1))
        as [errors1|] eqn:Hseqs; [|discriminate H].
      cbn [exn_bind] in H.
      destruct (validate_sequences_grows _ _ _ _ _ Hseqs)
        as (extra2 & -> & Hextra2).
      destruct (IH _ _ _ H) as (extra3 & -> & Hextra3).
      exists (extra1 ++ extra2 ++ extra3)%list.
      split; [rewrite <- !app_assoc; reflexivity|].
      intros Hnil. apply app_eq_nil in Hnil as [H1 Hnil].
      apply app_eq_nil in Hnil as [H2 H3].
      rewrite (proj1 Hextra1 H1), (Hextra2 H2), (Hextra3 H3). reflexivity.
    + cbn [exn_bind] in H.
      destruct (IH _ _ _ H) as (extra & -> & Hrest).
      exists (extra1 ++ extra)%list.
      split; [rewrite <- app_assoc; reflexivity|].
      intros Hnil. apply app_eq_nil in Hnil as [H1 H2].
      pose proof (proj1 Hextra1 H1) as Hreq'.
      cbn [required_fields forallb] in Hreq'.
      unfold Py.has_key at 2 in Hreq'. rewrite Hl in Hreq'.
      rewrite andb_false_r in Hreq'. discriminate Hreq'.
Qed.

(** X15: [validate_alphafold_json_structure] reports a structure as valid,
    with no error, exactly when it is a job or a list of jobs, each job a
    dictionary with the fields [name], [sequences], [dialect] and [version],
    its [sequences] a list of dictionaries, each with a [proteinChain] that
    contains [sequence]; the empty list is valid.  Whenever it returns, the
    flag is true exactly when the list of errors is empty. *)
Theorem validator_accepts_exactly_the_well_formed data :
  (validate_alphafold_json_structure data = Val (true, [])
   <-> structure_ok data = true)
  /\ forall valid errors,
       validate_alphafold_json_structure data = Val (valid, errors) ->
       (valid = true <-> errors = []).
Proof.
  split.
  - unfold validate_alphafold_json_structure, structure_ok.
    destruct data as [|b|z|s|jobs|fields].
    1-4: split; intros H; discriminate H.
    + split.
      * intros H.
        destruct (validate_jobs 0 jobs []) as [errors|] eqn:Hrun;
          [|discriminate H].
        cbn [exn_bind] in H. injection H as _ ->.
        destruct (validate_jobs_grows _ _ _ _ Hrun) as (extra & Heq & Hok).
        apply Hok. cbn in Heq. symmetry. exact Heq.
      * intros H. rewrite (validate_jobs_accepts _ H). reflexivity.
    + split.
      * intros H.
        destruct (validate_jobs 0 [JObj fields] []) as [errors|] eqn:Hrun;
          [|discriminate H].
        cbn [exn_bind] in H. injection H as _ ->.
        destruct (validate_jobs_grows _ _ _ _ Hrun) as (extra & Heq & Hok).
        cbn in Heq. specialize (Hok (eq_sym Heq)).
        cbn [forallb] in Hok. rewrite andb_true_r in Hok. exact Hok.
      * intros H. rewrite (validate_jobs_accepts [JObj fields]).
        -- reflexivity.
        -- cbn [forallb]. rewrite H. reflexivity.
  - intros valid errors H. unfold validate_alphafold_json_structure in H.
    destruct data as [|b|z|s|jobs|fields];
      try (injection H as <- <-; split; intros H'; discriminate H').
    + destruct (validate_jobs 0 jobs []) as [errs|]; [|discriminate H].
      cbn [exn_bind] in H. injection H as <- <-.
      destruct errs; split; intros H'; try reflexivity; discriminate H'.
    + destruct (validate_jobs 0 [JObj fields] []) as [errs|];
        [|discriminate H].
      cbn [exn_bind] in H. injection H as <- <-.
      destruct errs; split; intros H'; try reflexivity; discriminate H'.
Qed.

(** * Writing sequences and reading them back *)

Lemma rstrip_length s : String.length (Py.rstrip s) <= String.length s.
Proof.
  induction s as [|c s IH]; [apply le_n|].
  cbn [Py.rstrip]. destruct (Py.rstrip s) as [|c' r]; cbn in *.
  - destruct (Py.isspace c); cbn; lia.
  - lia.
Qed.

Lemma lstrip_length s :
  Py.lstrip s = s \/ String.length (Py.lstrip s) < String.length s.
Proof.
  induction s as [|c s IH]; [left; reflexivity|].
  cbn [Py.lstrip]. destruct (Py.isspace c); [|left; reflexivity].
  right. cbn. destruct IH as [->|IH]; lia.
Qed.

(** A text that [strip] leaves as it is has no white space at either end. *)
Lemma strip_fixed s :
  Py.strip s = s -> Py.lstrip s = s /\ Py.rstrip s = s.
Proof.
  unfold Py.strip. intros H.
  destruct (lstrip_length s) as [Hl|Hl].
  - rewrite Hl in H. auto.
  - pose proof (rstrip_length (Py.lstrip s)) as Hr.
    rewrite H in Hr. lia.
Qed.

Lemma strip_header id :
  Py.strip id = id -> Py.strip (">" ++ id) = (">" ++ id)%string.
Proof.
  intros H. apply strip_fixed in H as [_ Hr].
  unfold Py.strip. cbn [append Py.lstrip].
  change (Py.isspace ">") with false. cbn iota.
  cbn [Py.rstrip]. rewrite Hr. destruct id; reflexivity.
Qed.

Lemma text_lines_one_line s :
  one_line s = true ->
  forall current rest,
    text_lines false current (s ++ newline ++ rest)
    = (current ++ s)%string :: text_lines false "" rest.
Proof.
  induction s as [|c s IH]; intros Hone current rest.
  - cbn. rewrite append_nil_r. reflexivity.
  - cbn [one_line] in Hone. apply andb_prop in Hone as [Hc Hs].
    apply andb_prop in Hc as [Hlf Hcr].
    cbn [append text_lines].
    destruct (Ascii.eqb c line_feed); [discriminate Hlf|].
    destruct (Ascii.eqb c carriage_return); [discriminate Hcr|].
    rewrite (IH Hs), append_assoc. reflexivity.
Qed.

Lemma save_sequences_to_fasta_cons format id v rest :
  _save_sequences_to_fasta format ((id, v) :: rest)
  = ((">" ++ id) ++ newline ++ format v ++ newline
     ++ _save_sequences_to_fasta format rest)%string.
Proof.
  unfold _save_sequences_to_fasta. cbn [map fst snd].
  rewrite concat_empty_cons, !append_assoc. reflexivity.
Qed.

Lemma has_key_fresh k (lengths : list (string * json)) :
  ~ In k (map fst lengths) -> Py.has_key k lengths = false.
Proof.
  intros H. rewrite has_key_keys.
  destruct (existsb (String.eqb k) (map fst lengths)) eqn:E; [|reflexivity].
  apply existsb_eqb_In in E. contradiction.
Qed.

(** The entries [save_length] adds for the record being read. *)
Lemma save_length_fresh id current_sequence lengths :
  id <> "" ->
  ~ In id (map fst lengths) ->
  save_length (Some id) current_sequence lengths
  = (lengths
     ++ [(id, JNum (Z.of_nat (String.length current_sequence)))])%list.
Proof.
  intros Hid Hfresh. unfold save_length.
  destruct (String.eqb_spec id ""); [contradiction|]. cbn [negb].
  apply setitem_new, has_key_fresh, Hfresh.
Qed.

Lemma count_lines_header id rest current_id current_sequence lengths :
  Py.strip id = id ->
  count_lines ((">" ++ id)%string :: rest) current_id current_sequence lengths
  = count_lines rest (Some id) ""
      (save_length current_id current_sequence lengths).
Proof.
  intros Hstrip. cbn [count_lines]. rewrite (strip_header _ Hstrip).
  assert (Hprefix : String.prefix ">" (">" ++ id) = true).
  { cbn. destruct (Ascii.ascii_dec ">" ">") as [_|Hne];
      [destruct id; reflexivity | exfalso; apply Hne; reflexivity]. }
  cbv zeta. rewrite Hprefix. reflexivity.
Qed.

Lemma count_lines_residues line rest current_id current_sequence lengths :
  Py.strip line = line ->
  String.prefix ">" line = false ->
  count_lines (line :: rest) current_id current_sequence lengths
  = count_lines rest current_id (current_sequence ++ line) lengths.
Proof.
  intros Hstrip Hprefix. cbn [count_lines]. cbv zeta.
  rewrite Hstrip, Hprefix. reflexivity.
Qed.

Lemma count_lines_records format :
  (forall s, format (JStr s) = s) ->
  forall sequences current_id current_sequence lengths,
    Forall readable_record sequences ->
    current_id <> "" ->
    NoDup (map fst lengths ++ current_id :: map fst sequences) ->
    count_lines (text_lines false ""
                   (_save_sequences_to_fasta format sequences))
      (Some current_id) current_sequence lengths
    = (lengths
       ++ (current_id, JNum (Z.of_nat (String.length current_sequence)))
       :: map (fun entry =>
                 (fst entry,
                  JNum (Z.of_nat (String.length (format (snd entry))))))
              sequences)%list.
Proof.
  intros Hformat.
  induction sequences as [|[id v] rest IH];
    intros current_id current_sequence lengths Hrec Hid Hnodup.
  - cbn [_save_sequences_to_fasta map String.concat text_lines count_lines].
    apply save_length_fresh; [exact Hid|].
    apply NoDup_remove_2 in Hnodup. rewrite app_nil_r in Hnodup. exact Hnodup.
  - inversion Hrec as [|x l Hhead Hrest]; subst.
    destruct Hhead as (Hne & Hstrip & Hone & s & Hv & Hs & Hsl & Hgt).
    cbn [fst snd] in *. subst v.
    rewrite save_sequences_to_fasta_cons, Hformat.
    rewrite text_lines_one_line.
    2:{ cbn [append one_line]. rewrite Hone. reflexivity. }
    rewrite text_lines_one_line by exact Hsl.
    change ("" ++ (">" ++ id))%string with (">" ++ id)%string.
    change ("" ++ s)%string with s.
    rewrite (count_lines_header _ _ _ _ _ Hstrip).
    rewrite (count_lines_residues _ _ _ _ _ Hs Hgt).
    assert (Hfresh : ~ In current_id (map fst lengths)).
    { intros Hin. apply NoDup_remove_2 in Hnodup. apply Hnodup.
      apply in_or_app. left. exact Hin. }
    rewrite (save_length_fresh _ _ _ Hid Hfresh).
    rewrite IH; [| exact Hrest | exact Hne |].
    + cbn [map fst snd append]. rewrite Hformat, <- app_assoc. reflexivity.
    + rewrite map_app. cbn [map fst]. rewrite <- app_assoc. exact Hnodup.
Qed.

(** X16: a FASTA file written by [_save_sequences_to_fasta] is read back by
    [count_sequence_lengths] record for record: when the ids are distinct and
    every record is readable (a non-empty id, a sequence that is text and
    does not start with ">", both on one line and without white space at
    their ends), the lengths found are, in the order written, the lengths of
    the sequences written. *)
Theorem written_fasta_is_read_back format sequences :
  (forall s, format (JStr s) = s) ->
  NoDup (map fst sequences) ->
  Forall readable_record sequences ->
  count_sequence_lengths (Some (_save_sequences_to_fasta format sequences))
  = map (fun entry =>
           (fst entry, JNum (Z.of_nat (String.length (format (snd entry))))))
        sequences.
Proof.
  intros Hformat Hnodup Hrec. unfold count_sequence_lengths.
  destruct sequences as [|[id v] rest]; [reflexivity|].
  inversion Hrec as [|x l Hhead Hrest]; subst.
  destruct Hhead as (Hne & Hstrip & Hone & s & Hv & Hs & Hsl & Hgt).
  cbn [fst snd] in *. subst v.
  rewrite save_sequences_to_fasta_cons, Hformat.
  rewrite text_lines_one_line.
  2:{ cbn [append one_line]. rewrite Hone. reflexivity. }
  rewrite text_lines_one_line by exact Hsl.
  change ("" ++ (">" ++ id))%string with (">" ++ id)%string.
  change ("" ++ s)%string with s.
  rewrite (count_lines_header _ _ _ _ _ Hstrip).
  rewrite (count_lines_residues _ _ _ _ _ Hs Hgt).
  change (save_length None "" []) with (@nil (string * json)).
  rewrite (count_lines_records format Hformat rest id ("" ++ s) []
             Hrest Hne Hnodup).
  cbn [map fst snd append app]. rewrite Hformat. reflexivity.
Qed.

Lemma written_fasta_is_read_back_witness :
  count_sequence_lengths
    (Some (_save_sequences_to_fasta Demo.text_of
             [("P04637", JStr "MEEPQ"); ("Q9XYZ1", JStr "Sequence Not Found")]))
  = [("P04637", JNum 5); ("Q9XYZ1", JNum 18)].
Proof.
  apply (written_fasta_is_read_back Demo.text_of
           [("P04637", JStr "MEEPQ"); ("Q9XYZ1", JStr "Sequence Not Found")]).
  - reflexivity.
  - repeat constructor; cbn; intuition discriminate.
  - repeat constructor; try discriminate; cbn [fst snd];
      eexists; repeat split; reflexivity.
Defined.

(** * The names listed beside a selected entry *)

Lemma comprehension_names_unknown results names :
  forallb (fun r => negb (has_protein_name r)) results = true ->
  comprehension protein_name_of results = Val names ->
  names = repeat (JStr "Unknown") (List.length results).
Proof.
  revert names.
  induction results as [|r rest IH]; intros names Hnone H.
  - injection H as <-. reflexivity.
  - cbn [forallb] in Hnone. apply andb_prop in Hnone as [Hr Hrest].
    cbn [comprehension] in H. exn_inv H. injection H as <-.
    cbn [List.length repeat]. rewrite <- (IH _ Hrest eq_refl). f_equal.
    destruct r as [|b|z|s|items|fields]; try discriminate.
    unfold has_protein_name, Py.has_key in Hr.
    unfold protein_name_of, Py.get in E.
    destruct (Py.lookup "proteinName" fields) as [v|]; [discriminate Hr|].
    cbn in E. congruence.
Qed.

(** X17: the names listed in [all_protein_names] are read from the key
    [proteinName] of each entry, not from the [proteinDescription] that
    [_extract_protein_info] reads: when a response has several entries and
    none has the key [proteinName], every listed name is "Unknown". *)
Theorem listed_names_need_protein_name_key data gene_name info results :
  select_protein_info data gene_name = Val (JObj info) ->
  Py.get data "results" (JArr []) = Val (JArr results) ->
  1 < List.length results ->
  forallb (fun r => negb (has_protein_name r)) results = true ->
  Py.lookup "all_protein_names" info
  = Some (JArr (repeat (JStr "Unknown") (List.length results))).
Proof.
  intros Hsel Hget Hlen Hnone.
  destruct (select_protein_info_value _ _ _ Hsel)
    as [Hnull|(results' & canonical & fields & names & Hget' & Hne & Hhd & Hx
               & Hv & Hmulti)]; [discriminate Hnull|].
  rewrite Hget in Hget'. injection Hget' as <-.
  injection Hv as ->.
  destruct (extract_protein_info_shape _ _ _ Hx)
    as (i & g & p & s & o & rv & e & Hshape).
  injection Hshape as ->.
  apply Nat.ltb_lt in Hlen.
  destruct (Hmulti Hlen) as (_ & Hnames).
  rewrite (comprehension_names_unknown _ _ Hnone Hnames).
  unfold annotations. rewrite Hlen. reflexivity.
Qed.

Lemma listed_names_need_protein_name_key_witness :
  Py.lookup "protein_name" Demo.described_info
  = Some (JStr "Cellular tumor antigen p53")
  /\ Py.lookup "all_protein_names" Demo.described_info
     = Some (JArr [JStr "Unknown"; JStr "Unknown"]).
Proof.
  split; [reflexivity|].
  apply (listed_names_need_protein_name_key
           (Sample.body_of Demo.described_pair) "TP53" Demo.described_info
           Demo.described_pair);
    [reflexivity | reflexivity | cbn; lia | reflexivity].
Defined.

(** * Splitting a list into chunks *)

Lemma range_from_starts fuel start stop step i rest :
  range_from fuel start stop step = i :: rest -> i = start /\ start < stop.
Proof.
  destruct fuel as [|fuel]; [discriminate|]. cbn [range_from].
  destruct (start <? stop)%nat eqn:Hlt; [|discriminate].
  intros H. injection H as <- _. apply Nat.ltb_lt in Hlt. auto.
Qed.

Lemma range_from_chunks {A : Type} (lst : list A) step :
  0 < step ->
  forall fuel start,
    List.length lst - start <= fuel ->
    let chunks :=
      map (fun i => slice lst i (i + step))
          (range_from fuel start (List.length lst) step) in
    concat chunks = skipn start lst
    /\ Forall (fun chunk => 1 <= List.length chunk <= step) chunks
    /\ Forall (fun chunk => List.length chunk = step) (removelast chunks).
Proof.
  intros Hstep. induction fuel as [|fuel IH]; intros start Hfuel.
  - cbn. split; [|split; constructor].
    symmetry. apply skipn_all2. lia.
  - cbn [range_from]. destruct (start <? List.length lst)%nat eqn:Hlt.
    + apply Nat.ltb_lt in Hlt.
      destruct (IH (start + step)) as (Hcat & Hall & Hfull); [lia|].
      cbn [map concat]. split; [|split].
      * rewrite Hcat. unfold slice.
        replace (start + step - start) with step by lia.
        rewrite Nat.add_comm, <- skipn_skipn. apply firstn_skipn.
      * constructor; [|exact Hall]. unfold slice.
        rewrite length_firstn, length_skipn. lia.
      * destruct (range_from fuel (start + step) (List.length lst) step)
          as [|i rest] eqn:Hnext; [constructor|].
        apply range_from_starts in Hnext as [_ Hmore].
        cbn [map removelast] in *.
        constructor; [|exact Hfull]. unfold slice.
        rewrite length_firstn, length_skipn. lia.
    + apply Nat.ltb_ge in Hlt. cbn. split; [|split; constructor].
      symmetry. apply skipn_all2. exact Hlt.
Qed.

(** X18: [chunk_list] raises exactly for a chunk size of zero, whatever the
    list, and returns no chunk for a negative one; for a positive size the
    chunks, put end to end, are the list, none is empty, none is longer than
    the size, and every chunk before the last has exactly the size. *)
Theorem chunk_list_splits {A : Type} (lst : list A) (chunk_size : Z) :
  match chunk_list lst chunk_size with
  | Exn => chunk_size = 0%Z
  | Val chunks =>
      chunk_size <> 0%Z
      /\
      if (chunk_size <? 0)%Z then chunks = []
      else concat chunks = lst
           /\ Forall (fun chunk =>
                        1 <= List.length chunk
                        /\ (Z.of_nat (List.length chunk) <= chunk_size)%Z)
                     chunks
           /\ Forall (fun chunk => Z.of_nat (List.length chunk) = chunk_size)
                     (removelast chunks)
  end.
Proof.
  unfold chunk_list, range.
  destruct (Z.eqb_spec chunk_size 0) as [Hzero|Hzero]; [exact Hzero|].
  destruct (Z.ltb_spec chunk_size 0) as [Hneg|Hpos];
    [split; [exact Hzero|reflexivity]|].
  cbn [exn_bind].
  destruct (range_from_chunks lst (Z.to_nat chunk_size)) with
    (fuel := List.length lst) (start := 0) as (Hcat & Hall & Hfull);
    [lia|lia|].
  split; [exact Hzero|].
  split; [exact Hcat|]. split.
  - eapply Forall_impl; [|exact Hall].
    cbv beta. intros chunk Hchunk. lia.
  - eapply Forall_impl; [|exact Hfull].
    cbv beta. intros chunk Hchunk. lia.
Qed.

(** * The retry ceiling of the session *)

(** The adapter never hands a response with a listed status to the caller. *)
Lemma adapter_send_not_listed policy network req :
  forall budget left attempt r,
    fst (adapter_send policy budget left network attempt req) = Answers r ->
    listed (status_code r) status_forcelist = false.
Proof.
  induction budget as [|budget IH]; intros left attempt r;
    cbn [adapter_send]; unfold decide;
    destruct (policy left (network attempt req));
    destruct (network attempt req) as [|r'] eqn:Hrp; cbn [forced fst];
    try discriminate;
    try (destruct (listed (status_code r') status_forcelist) eqn:Hlisted;
         cbn [fst]; try discriminate;
         try (intros H; injection H as <-; exact Hlisted));
    try apply IH.
Qed.

(** One call of [session.get] makes at least one attempt and repeats no more
    than [budget] of them. *)
Lemma adapter_send_attempts policy network req :
  forall budget left attempt,
    attempt < snd (adapter_send policy budget left network attempt req)
    <= attempt + budget + 1.
Proof.
  induction budget as [|budget IH]; intros left attempt;
    cbn [adapter_send];
    destruct (decide policy left (network attempt req)); cbn [snd]; try lia.
  specialize (IH (left - 1)%Z (S attempt)). lia.
Qed.

(** Answered 429 on every attempt, the adapter uses its budget up and
    raises. *)
Lemma adapter_send_rate_limited policy network req :
  (forall attempt,
     exists r,
       network attempt req = Answers r
       /\ status_code r = 429%Z
       /\ forall left, policy left (Answers r) <> GiveUp) ->
  forall budget left attempt,
    adapter_send policy budget left network attempt req
    = (Raises, attempt + budget + 1).
Proof.
  intros Hbusy.
  assert (Hagain : forall left attempt,
            decide policy left (network attempt req) = Again).
  { intros left attempt.
    destruct (Hbusy attempt) as (r & -> & Hstatus & Hpolicy).
    specialize (Hpolicy left). unfold decide.
    destruct (policy left (Answers r)); [|reflexivity|contradiction].
    cbn [forced]. rewrite Hstatus. reflexivity. }
  induction budget as [|budget IH]; intros left attempt;
    cbn [adapter_send]; rewrite Hagain.
  - f_equal. lia.
  - rewrite IH. f_equal. lia.
Qed.

(** The session of [_setup_session] never answers with a 429. *)
Lemma mounted_session_never_rate_limited self policy wire n req :
  rate_limited (mounted_session self policy wire n req) = false.
Proof.
  unfold mounted_session.
  destruct (fst (adapter_send policy (Z.to_nat (max_retries self))
                   (max_retries self) (wire n) 0 req)) as [|r] eqn:Hsend;
    [reflexivity|].
  apply adapter_send_not_listed in Hsend.
  cbn [listed status_forcelist existsb] in Hsend.
  apply orb_false_elim in Hsend as [Hsend _].
  cbn [rate_limited]. rewrite Hsend. apply andb_false_r.
Qed.

Lemma mounted_session_gives_up self policy wire :
  keeps_answering_429 policy wire ->
  forall n req,
    mounted_session self policy wire n req = Raises
    /\ attempts self policy wire n req = Z.to_nat (max_retries self) + 1.
Proof.
  intros Hbusy n req. unfold mounted_session, attempts.
  rewrite (adapter_send_rate_limited policy (wire n) req
             (fun attempt => Hbusy n attempt req)).
  split; reflexivity.
Qed.

(** Without a 429 from the session no strategy is tried twice and nothing is
    slept on. *)
Lemma try_strategies_unretried fuel self session gene_name :
  (forall n req, rate_limited (session n req) = false) ->
  forall todo n,
    let run := try_strategies (S fuel) self session gene_name todo n in
    (exists v, fst run = Done v)
    /\ sent (snd run) <= List.length todo
    /\ sleeps_of (snd run) = [].
Proof.
  intros Hfinal todo.
  induction todo as [|s rest IH]; intros n; cbv zeta.
  - split; [exists JNull; reflexivity|]. split; [apply le_n|reflexivity].
  - rewrite try_strategies_step.
    destruct (search_with_strategy_final fuel self session gene_name s n
                (Hfinal _ _)) as (Heq & Htrace & Hfuel).
    rewrite Heq.
    destruct (_search_with_strategy 1 self session gene_name s n)
      as [[v| |] t]; cbn [fst snd] in *; subst t;
      [| |contradiction Hfuel; reflexivity].
    + destruct (Py.truthy v).
      * split; [exists v; reflexivity|].
        split; [cbn; lia|reflexivity].
      * specialize (IH (n + sent [Get (search_request self gene_name s)])).
        cbv zeta in IH.
        destruct (try_strategies (S fuel) self session gene_name rest _)
          as [r t'].
        cbn [fst snd] in *. destruct IH as (Hv & Hsent & Hsleeps).
        split; [exact Hv|].
        rewrite sent_app, sleeps_of_app, Hsleeps.
        split; [cbn in *; lia|reflexivity].
    + specialize (IH (n + sent [Get (search_request self gene_name s)])).
      cbv zeta in IH.
      destruct (try_strategies (S fuel) self session gene_name rest _)
        as [r t'].
      cbn [fst snd] in *. destruct IH as (Hv & Hsent & Hsleeps).
      split; [exact Hv|].
      rewrite sent_app, sleeps_of_app, Hsleeps.
      split; [cbn in *; lia|reflexivity].
Qed.

(** When the session raises on every call, each strategy is tried once. *)
Lemma try_strategies_all_raise fuel self session gene_name :
  (forall n req, session n req = Raises) ->
  forall todo n,
    try_strategies (S fuel) self session gene_name todo n
    = (Done JNull, map (fun s => Get (search_request self gene_name s)) todo).
Proof.
  intros Hraise todo. induction todo as [|s rest IH]; intros n.
  - reflexivity.
  - rewrite try_strategies_step, search_with_strategy_step. cbv zeta.
    rewrite Hraise, IH. reflexivity.
Qed.

Lemma physical_calls_bound self policy wire trace :
  forall n,
    physical_calls self policy wire n trace
    <= sent trace * (Z.to_nat (max_retries self) + 1).
Proof.
  induction trace as [|e trace IH]; intros n; [apply le_n|].
  destruct e as [|w|req]; cbn [physical_calls].
  - apply IH.
  - apply IH.
  - change (sent (Get req :: trace)) with (S (sent trace)).
    specialize (IH (S n)).
    pose proof (adapter_send_attempts policy (wire n) req
                  (Z.to_nat (max_retries self)) (max_retries self) 0) as Ha.
    unfold attempts. lia.
Qed.

Lemma physical_calls_all_give_up self policy wire requests :
  (forall n req,
     attempts self policy wire n req = Z.to_nat (max_retries self) + 1) ->
  forall n,
    physical_calls self policy wire n (map Get requests)
    = List.length requests * (Z.to_nat (max_retries self) + 1).
Proof.
  intros Hall. induction requests as [|req rest IH]; intros n; [reflexivity|].
  cbn [map physical_calls List.length]. rewrite Hall, IH. lia.
Qed.

(** C5, as stated, fails: a fetcher with the default [max_retries] of 3 whose
    every attempt is answered 429 sends each of the four queries four times,
    the first attempt and three repeats, before the search returns [None]:
    sixteen requests reach the network, more than 4 times 3. *)
Lemma rate_limited_gene_costs_sixteen_requests :
  max_retries Sample.fetcher = 3%Z
  /\ fst (search_by_gene_name_robust 1 Sample.fetcher
            (mounted_session Sample.fetcher Demo.retry_errors Demo.always_429)
            "TP53" None 0) = Done JNull
  /\ attempts Sample.fetcher Demo.retry_errors Demo.always_429 0
       (search_request Sample.fetcher "TP53" SearchCriteria_default) = 4
  /\ physical_calls Sample.fetcher Demo.retry_errors Demo.always_429 0
       (snd (search_by_gene_name_robust 1 Sample.fetcher
               (mounted_session Sample.fetcher Demo.retry_errors
                  Demo.always_429)
               "TP53" None 0)) = 16
  /\ ~ 16 <= 4 * 3.
Proof.
  split; [reflexivity|]. split; [vm_compute; reflexivity|].
  split; [vm_compute; reflexivity|]. split; [vm_compute; reflexivity|lia].
Qed.

(** C5, amended: with the session [_setup_session] builds, a 429 never
    reaches the fetcher, so a search ends after at most four calls of
    [session.get] and no wait of its own; each call repeats its request at
    most [max_retries] times, so a gene costs at most 4 times
    [max_retries + 1] requests on the network.  When the network keeps
    answering 429, every call sends the identical request [max_retries + 1]
    times and then raises, each strategy fails in turn, the search returns
    [None], and the gene has cost exactly 4 times [max_retries + 1]
    requests. *)
Theorem rate_limit_retries_stop_at_max_retries fuel self policy wire
    gene_name criteria n :
  let session := mounted_session self policy wire in
  let ceiling := Z.to_nat (max_retries self) in
  let plan := strategies match criteria with
                         | None => SearchCriteria_default
                         | Some c => c
                         end in
  let run :=
    search_by_gene_name_robust (S fuel) self session gene_name criteria n in
  (exists v, fst run = Done v)
  /\ sent (snd run) <= 4
  /\ sleeps_of (snd run) = []
  /\ (forall m req, rate_limited (session m req) = false)
  /\ (forall m req, 1 <= attempts self policy wire m req <= ceiling + 1)
  /\ physical_calls self policy wire n (snd run) <= 4 * (ceiling + 1)
  /\ (keeps_answering_429 policy wire ->
      (forall m req,
         session m req = Raises
         /\ attempts self policy wire m req = ceiling + 1)
      /\ fst run = Done JNull
      /\ requests_of (snd run) = map (search_request self gene_name) plan
      /\ physical_calls self policy wire n (snd run) = 4 * (ceiling + 1)).
Proof.
  intros session ceiling plan run.
  assert (Hfinal : forall m req, rate_limited (session m req) = false)
    by (intros m req; apply mounted_session_never_rate_limited).
  assert (Hrun : run = (fst (try_strategies (S fuel) self session gene_name
                               plan n),
                        Pace :: snd (try_strategies (S fuel) self session
                                       gene_name plan n))).
  { subst run. unfold search_by_gene_name_robust.
    rewrite rate_limited_request_step. reflexivity. }
  destruct (try_strategies_unretried fuel self session gene_name Hfinal
              plan n) as (Hdone & Hsent & Hsleeps).
  assert (Hcalls : forall t,
            physical_calls self policy wire n (Pace :: t)
            = physical_calls self policy wire n t) by reflexivity.
  rewrite Hrun. cbn [fst snd].
  split; [exact Hdone|].
  split; [exact Hsent|].
  split; [exact Hsleeps|].
  split; [exact Hfinal|].
  split.
  { intros m req.
    pose proof (adapter_send_attempts policy (wire m) req
                  (Z.to_nat (max_retries self)) (max_retries self) 0) as Ha.
    unfold attempts. subst ceiling. lia. }
  split.
  { rewrite Hcalls.
    pose proof (physical_calls_bound self policy wire
                  (snd (try_strategies (S fuel) self session gene_name
                          plan n)) n) as Hb.
    fold ceiling in Hb. cbn [List.length plan strategies] in Hsent. nia. }
  intros Hbusy.
  pose proof (mounted_session_gives_up self policy wire Hbusy) as Hgive.
  split; [exact Hgive|].
  rewrite (try_strategies_all_raise fuel self session gene_name
             (fun m req => proj1 (Hgive m req))).
  cbn [fst snd]. split; [reflexivity|].
  split.
  { change (Pace :: ?t) with ([Pace] ++ t)%list.
    rewrite requests_of_app. cbn [requests_of flat_map app].
    rewrite <- (requests_of_map_get (map (search_request self gene_name) plan)).
    rewrite map_map. reflexivity. }
  rewrite Hcalls, <- (map_map (search_request self gene_name) Get).
  rewrite (physical_calls_all_give_up self policy wire _
             (fun m req => proj2 (Hgive m req))).
  rewrite length_map. reflexivity.
Qed.

Lemma rate_limit_retries_stop_at_max_retries_witness :
  physical_calls Sample.fetcher Demo.retry_errors Demo.always_429 0
    (snd (search_by_gene_name_robust 1 Sample.fetcher
            (mounted_session Sample.fetcher Demo.retry_errors Demo.always_429)
            "TP53" None 0))
  = 4 * (3 + 1)
  /\ physical_calls Sample.fetcher Demo.retry_errors Demo.busy_twice 0
       (snd (search_by_gene_name_robust 1 Sample.fetcher
               (mounted_session Sample.fetcher Demo.retry_errors
                  Demo.busy_twice)
               "TP53" None 0))
     <= 4 * (3 + 1).
Proof.
  split.
  - destruct (rate_limit_retries_stop_at_max_retries 0 Sample.fetcher
                Demo.retry_errors Demo.always_429 "TP53" None 0)
      as (_ & _ & _ & _ & _ & _ & Hbusy).
    destruct Hbusy as (_ & _ & _ & Hcalls); [|exact Hcalls].
    intros n attempt req. eexists. split; [reflexivity|].
    split; [reflexivity|]. intros left. discriminate.
  - destruct (rate_limit_retries_stop_at_max_retries 0 Sample.fetcher
                Demo.retry_errors Demo.busy_twice "TP53" None 0)
      as (_ & _ & _ & _ & _ & Hbound & _).
    exact Hbound.
Defined.

(** X8: with the session [_setup_session] builds, [fetch_protein_sequence]
    leaves the retries to the session: it makes one paced call of
    [session.get], never reaches its own 429 branch, never sleeps itself and
    always ends; the call repeats the request at most [max_retries] times.
    When the network keeps answering 429, the session sends the request
    [max_retries + 1] times and raises, and the function returns [None]. *)
Theorem sequence_fetch_leaves_retries_to_the_session fuel caught self policy
    wire protein_id n :
  let session := mounted_session self policy wire in
  let req := sequence_request self protein_id in
  let run := fetch_protein_sequence (S fuel) caught self session protein_id n in
  snd run = [Pace; Get req]
  /\ fst run <> OutOfFuel
  /\ physical_calls self policy wire n (snd run)
     <= Z.to_nat (max_retries self) + 1
  /\ (keeps_answering_429 policy wire ->
      fst run = Done JNull
      /\ physical_calls self policy wire n (snd run)
         = Z.to_nat (max_retries self) + 1).
Proof.
  intros session req run.
  destruct (fetch_protein_sequence_final fuel caught self session protein_id n
              (mounted_session_never_rate_limited self policy wire n req))
    as (Heq & Htrace & Hfuel).
  subst run. rewrite Heq, Htrace. fold req.
  split; [reflexivity|]. split; [exact Hfuel|].
  cbn [physical_calls]. rewrite Nat.add_0_r.
  split.
  { pose proof (adapter_send_attempts policy (wire n) req
                  (Z.to_nat (max_retries self)) (max_retries self) 0) as Ha.
    unfold attempts. lia. }
  intros Hbusy.
  destruct (mounted_session_gives_up self policy wire Hbusy n req)
    as [Hraise Hattempts].
  split; [|exact Hattempts].
  rewrite fetch_protein_sequence_step. cbv zeta.
  subst session req. rewrite Hraise. reflexivity.
Qed.

Lemma sequence_fetch_leaves_retries_to_the_session_witness :
  fst (fetch_protein_sequence 1 true Sample.fetcher
         (mounted_session Sample.fetcher Demo.retry_errors Demo.always_429)
         "P04637" 0) = Done JNull
  /\ physical_calls Sample.fetcher Demo.retry_errors Demo.always_429 0
       (snd (fetch_protein_sequence 1 true Sample.fetcher
               (mounted_session Sample.fetcher Demo.retry_errors
                  Demo.always_429)
               "P04637" 0)) = 4.
Proof.
  destruct (sequence_fetch_leaves_retries_to_the_session 0 true Sample.fetcher
              Demo.retry_errors Demo.always_429 "P04637" 0)
    as (_ & _ & _ & Hbusy).
  apply Hbusy.
  intros n attempt req. eexists. split; [reflexivity|].
  split; [reflexivity|]. intros left. discriminate.
Defined.
